(** * NASA Exoplanet Discovery Explorer: the cleaning pass, the loader and
      the Explorer query, embedded from the Python sources.

    - [data_fetcher.py]: fetch, clean, score, classify, bin, save, main
    - [data_extraction.py]: the second cleaning function
    - [database_setup.py]: the three tables and the CSV loader
    - [App.py]: the SQL text built by the Explorer page *)

From Stdlib Require Import QArith Qcanon DecimalString DecimalPos DecimalZ.
From stdpp Require Import gmap strings list sorting.

Local Open Scope Z_scope.

(** ** Values *)

(** A float64 (or int64) value that is not NaN: an exact rational, or one of
    the two infinities.  NaN and [None] are the [Null] cell below. *)
Inductive number :=
  | Fin (q : Qc)
  | PosInf
  | NegInf.

(** A cell of a data frame. *)
Inductive cell :=
  | Null
  | Num (x : number)
  | Str (s : string).

Global Instance number_eq_dec : EqDecision number.
Proof. solve_decision. Defined.

Global Instance cell_eq_dec : EqDecision cell.
Proof. solve_decision. Defined.

Definition Qc_leb (a b : Qc) : bool := Qle_bool (this a) (this b).

(** [x <= y] on non-NaN floats. *)
Definition num_leb (x y : number) : bool :=
  match x, y with
  | NegInf, _ => true
  | _, PosInf => true
  | Fin a, Fin b => Qc_leb a b
  | _, _ => false
  end.

(** [x < y] on non-NaN floats. *)
Definition num_ltb (x y : number) : bool := negb (num_leb y x).

(** The order as a relation, for the statements. *)
Inductive num_le : number -> number -> Prop :=
  | le_neginf y : num_le NegInf y
  | le_posinf x : num_le x PosInf
  | le_fin a b : (a <= b)%Qc -> num_le (Fin a) (Fin b).

Definition num_lt (x y : number) : Prop := ~ num_le y x.

(** Decimal literals of the sources. *)
Definition qz (n : Z) : number := Fin (Q2Qc (inject_Z n)).
Definition qfrac (n : Z) (d : positive) : number := Fin (Q2Qc (n # d)).

(** ** Errors *)

Inductive error :=
  | KeyError (column : string)
  | TypeError.

Inductive result (A : Type) :=
  | Ok (a : A)
  | Err (e : error).
Arguments Ok {A} a.
Arguments Err {A} e.

Global Instance result_ret : MRet result := fun A a => Ok a.

Global Instance result_bind : MBind result := fun A B k m =>
  match m with
  | Ok a => k a
  | Err e => Err e
  end.

Fixpoint map_result {A B} (f : A -> result B) (l : list A) : result (list B) :=
  match l with
  | [] => Ok []
  | a :: l' => b ← f a; bs ← map_result f l'; Ok (b :: bs)
  end.

(** ** Data frames *)

(** A row: its index label and its values by column name. *)
Record Row := mkRow { label : nat; cells : gmap string cell }.

Record DataFrame := mkFrame { columns : list string; rows : list Row }.

(** [row[col]], NaN where the row has no such entry. *)
Definition get (r : Row) (c : string) : cell := default Null (cells r !! c).

Definition set_cell (c : string) (v : cell) (r : Row) : Row :=
  mkRow (label r) (<[c := v]> (cells r)).

(** [col in df.columns] *)
Definition has_col (df : DataFrame) (c : string) : bool :=
  bool_decide (c ∈ columns df).

(** [df.empty]: no rows or no columns. *)
Definition df_empty (df : DataFrame) : bool :=
  match rows df, columns df with
  | [], _ => true
  | _, [] => true
  | _, _ => false
  end.

(** [df[col]]: the column as a series, [KeyError] when it does not exist. *)
Definition column (df : DataFrame) (c : string) : result (list cell) :=
  if has_col df c then Ok (map (fun r => get r c) (rows df))
  else Err (KeyError c).

(** [df[col] = series] *)
Definition assign (df : DataFrame) (c : string) (s : list cell) : DataFrame :=
  mkFrame (if has_col df c then columns df else columns df ++ [c])
          (zip_with (set_cell c) s (rows df)).

(** ** Series operations *)

(** Comparison of one float64 entry with a scalar: NaN compares false; a
    string entry of an object column raises [TypeError]. *)
Definition cmp_cell (op : number -> number -> bool) (c : cell) (t : number)
  : result bool :=
  match c with
  | Null => Ok false
  | Num x => Ok (op x t)
  | Str _ => Err TypeError
  end.

Definition series_ge (s : list cell) (t : number) : result (list bool) :=
  map_result (fun c => cmp_cell (fun x y => num_leb y x) c t) s.
Definition series_le (s : list cell) (t : number) : result (list bool) :=
  map_result (fun c => cmp_cell num_leb c t) s.
Definition series_lt (s : list cell) (t : number) : result (list bool) :=
  map_result (fun c => cmp_cell num_ltb c t) s.

Definition series_gt (s : list cell) (t : number) : result (list bool) :=
  map_result (fun c => cmp_cell (fun x y => num_ltb y x) c t) s.

Definition is_null (c : cell) : bool :=
  match c with Null => true | _ => false end.

Definition notna (s : list cell) : list bool := map (fun c => negb (is_null c)) s.
Definition mask_and (a b : list bool) : list bool := zip_with andb a b.
Definition mask_not (a : list bool) : list bool := map negb a.
Definition astype_int (a : list bool) : list Z :=
  map (fun b : bool => if b then 1 else 0) a.
Definition series_mul (a : list Z) (k : Z) : list Z := map (fun x => x * k) a.
Definition series_add (a b : list Z) : list Z := zip_with Z.add a b.

(** [s.where(cond, other)]: keep the entry where [cond] holds, else [other]. *)
Definition where_ {A} (s : list A) (cond : list bool) (other : A) : list A :=
  zip_with (fun v (c : bool) => if c then v else other) s cond.

(** [pd.to_numeric(s, errors='coerce')]: numbers stay, a string becomes the
    number pandas parses from it, or NaN when it does not parse.  The parser
    is pandas' own and is taken as a parameter. *)
Definition to_numeric_cell (parse : string -> option number) (c : cell) : cell :=
  match c with
  | Str s => match parse s with Some x => Num x | None => Null end
  | _ => c
  end.

Definition to_numeric (parse : string -> option number) (s : list cell)
  : list cell :=
  map (to_numeric_cell parse) s.

(** [for col in cols: if col in df.columns: df[col] = pd.to_numeric(df[col], errors='coerce')] *)
Fixpoint coerce_columns (parse : string -> option number) (cols : list string)
  (df : DataFrame) : result DataFrame :=
  match cols with
  | [] => Ok df
  | col :: cols' =>
      df ← (if has_col df col then
              s ← column df col; Ok (assign df col (to_numeric parse s))
            else Ok df);
      coerce_columns parse cols' df
  end.

(** [df.dropna(how='all')]: drop the rows whose every column is null. *)
Definition dropna_all (df : DataFrame) : DataFrame :=
  mkFrame (columns df)
    (filter (fun r => ~ Forall (fun c => get r c = Null) (columns df)) (rows df)).

(** The first of [cols] that is not a column of [df], if any. *)
Definition missing_column (df : DataFrame) (cols : list string) : option string :=
  head (filter (fun c => c ∉ columns df) cols).

(** [df.dropna(subset=cols)]: drop the rows with a null in one of [cols].
    The KeyError pandas raises lists every label of [cols] that is not a
    column; the error here names the first of them. *)
Definition dropna_subset (cols : list string) (df : DataFrame) : result DataFrame :=
  match missing_column df cols with
  | Some c => Err (KeyError c)
  | None =>
      Ok (mkFrame (columns df)
            (filter (fun r => Forall (fun c => get r c <> Null) cols) (rows df)))
  end.

(** [duplicated(keep='first')] then drop: a row goes when an earlier row has
    the same value in column [c]; nulls count as equal to each other. *)
Fixpoint drop_seen (c : string) (seen : list cell) (rs : list Row) : list Row :=
  match rs with
  | [] => []
  | r :: rs' =>
      if decide (get r c ∈ seen) then drop_seen c (get r c :: seen) rs'
      else r :: drop_seen c (get r c :: seen) rs'
  end.

(** [df.drop_duplicates(subset=[c], keep='first')]: an empty frame is
    returned as it is, before the subset is looked at. *)
Definition drop_duplicates (c : string) (df : DataFrame) : result DataFrame :=
  if df_empty df then Ok df
  else if has_col df c then Ok (mkFrame (columns df) (drop_seen c [] (rows df)))
  else Err (KeyError c).

(** [pd.cut(s, bins, labels)] with the default [right=True]: the entry falls
    in the bin [(b_i, b_(i+1)]]; its position is the number of edges strictly
    below it ([searchsorted(side='left')]); position 0 and position
    [len(bins)] are outside every bin and give NaN, as does NaN. *)
Definition cut_cell (bins : list number) (labels : list string) (c : cell)
  : result cell :=
  match c with
  | Null => Ok Null
  | Str _ => Err TypeError
  | Num x =>
      let i := length (filter (fun b => num_ltb b x = true) bins) in
      if decide (i = 0%nat \/ i = length bins) then Ok Null
      else Ok (from_option Str Null (labels !! (i - 1)%nat))
  end.

Definition cut (s : list cell) (bins : list number) (labels : list string)
  : result (list cell) :=
  map_result (cut_cell bins labels) s.

Definition int_cell (z : Z) : cell := Num (qz z).

(** ** Console output, exceptions and the outside world *)

(** What the handlers of the sources tell apart about an exception. *)
Inductive exn_class :=
  | Timeout          (* requests.exceptions.Timeout *)
  | OtherException   (* any other subclass of Exception *)
  | NotException.    (* BaseException outside Exception: KeyboardInterrupt, SystemExit *)

Record exn := mkExn { class : exn_class; message : string }.

Definition exn_of_error (e : error) : exn :=
  match e with
  | KeyError c => mkExn OtherException c
  | TypeError => mkExn OtherException "TypeError"
  end.

Inductive event :=
  | Print (line : string)
  | Call (function : string)
  | HttpGet (url : string)
  | ToCsv (filename : string) (df : DataFrame).

(** A computation: the events it produced, and its value or the exception
    that left it. *)
Definition io (A : Type) : Type := (list event * (exn + A))%type.

Definition io_ret {A} (a : A) : io A := ([], inr a).

Definition io_bind {A B} (m : io A) (k : A -> io B) : io B :=
  match m with
  | (t, inl e) => (t, inl e)
  | (t, inr a) => let '(t', r) := k a in (t ++ t', r)
  end.

Notation "m >> k" := (io_bind m (fun _ => k))
  (at level 62, right associativity, only parsing).
Notation "'do' x <~ m 'in' k" := (io_bind m (fun x => k))
  (at level 10, x name, m at level 100, k at level 200, only parsing).

Definition emit (e : event) : io unit := ([e], inr tt).
Definition print (line : string) : io unit := emit (Print line).
Definition raise {A} (e : exn) : io A := ([], inl e).
Definition lift {A} (r : exn + A) : io A := ([], r).
Definition lift_result {A} (r : result A) : io A :=
  match r with
  | Ok a => io_ret a
  | Err e => raise (exn_of_error e)
  end.

(** [try: m  except ...]: [handler e] is the body of the first clause that
    matches [e], [None] when no clause matches and [e] propagates. *)
Definition try_except {A} (m : io A) (handler : exn -> option (io A)) : io A :=
  match m with
  | (t, inr a) => (t, inr a)
  | (t, inl e) =>
      match handler e with
      | Some h => let '(t', r) := h in (t ++ t', r)
      | None => (t, inl e)
      end
  end.

(** Entering a function of the script. *)
Definition call {A} (name : string) (m : io A) : io A := emit (Call name) >> m.

Definition str_nat (n : nat) : string := NilZero.string_of_uint (Nat.to_uint n).
Definition str_int (z : Z) : string := NilZero.string_of_int (Z.to_int z).
Definition nl : string := String (Ascii.ascii_of_nat 10) EmptyString.
Definition dquote : string := String (Ascii.ascii_of_nat 34) EmptyString.

Fixpoint repeat_string (s : string) (n : nat) : string :=
  match n with
  | O => EmptyString
  | S n' => s ++ repeat_string s n'
  end.

(** The decoded body of a response, as far as the fetcher looks at it. *)
Record payload := mkPayload {
  payload_len : exn + nat;           (* len(data) *)
  payload_frame : exn + DataFrame    (* pd.DataFrame(data) *)
}.

Record response := mkResponse {
  status_error : option exn;         (* what raise_for_status() raises *)
  body : exn + payload               (* response.json() *)
}.

(** Everything the scripts take from outside. *)
Record World := mkWorld {
  parse_number : string -> option number;   (* pandas' string to number *)
  now : string;                             (* formatted datetime.now() *)
  format_0f : number -> string;             (* format(x, '.0f') *)
  http_get : exn + response;                (* requests.get(...) *)
  to_csv_error : option exn                 (* what df.to_csv raises *)
}.

Definition empty_frame : DataFrame := mkFrame [] [].

Module data_fetcher.

(** ** data_fetcher.py: calculate_habitability_score *)

Definition calculate_habitability_score (df : DataFrame) : result (list Z) :=
  let score := map (fun _ => 0) (rows df) in
  score ←
    (if has_col df "pl_rade" then
       rade ← column df "pl_rade";
       m1 ← series_ge rade (qfrac 1 2);
       m2 ← series_le rade (qz 2);
       Ok (series_add score (series_mul (astype_int (mask_and m1 m2)) 35))
     else Ok score);
  score ←
    (if has_col df "pl_eqt" then
       eqt ← column df "pl_eqt";
       m1 ← series_ge eqt (qz 200);
       m2 ← series_le eqt (qz 350);
       Ok (series_add score (series_mul (astype_int (mask_and m1 m2)) 40))
     else Ok score);
  score ←
    (if has_col df "pl_orbper" then
       orbper ← column df "pl_orbper";
       m1 ← series_ge orbper (qz 200);
       m2 ← series_le orbper (qz 500);
       Ok (series_add score (series_mul (astype_int (mask_and m1 m2)) 25))
     else Ok score);
  Ok score.

(** ** data_fetcher.py: classify_planet_type *)

Definition classify_planet_type (df : DataFrame) : result (list string) :=
  let planet_type := map (fun _ => "Unknown"%string) (rows df) in
  if has_col df "pl_rade" then
    rade ← column df "pl_rade";
    m ← series_lt rade (qfrac 5 4);
    let planet_type :=
      where_ planet_type (mask_not (mask_and m (notna rade))) "Rocky (Earth-like)" in
    m1 ← series_ge rade (qfrac 5 4);
    m2 ← series_lt rade (qz 2);
    let planet_type := where_ planet_type (mask_not (mask_and m1 m2)) "Super-Earth" in
    m1 ← series_ge rade (qz 2);
    m2 ← series_lt rade (qz 4);
    let planet_type := where_ planet_type (mask_not (mask_and m1 m2)) "Mini-Neptune" in
    m1 ← series_ge rade (qz 4);
    m2 ← series_lt rade (qz 10);
    let planet_type := where_ planet_type (mask_not (mask_and m1 m2)) "Neptune-like" in
    m ← series_ge rade (qz 10);
    let planet_type := where_ planet_type (mask_not m) "Jupiter-like" in
    Ok planet_type
  else Ok planet_type.


Definition numeric_columns : list string :=
  [ "pl_orbper"; "pl_orbsmax"; "pl_rade"; "pl_radj"; "pl_masse"; "pl_massj";
    "pl_bmasse"; "pl_bmassj"; "pl_eqt"; "pl_insol"; "pl_dens";
    "st_teff"; "st_rad"; "st_mass"; "st_met"; "st_logg"; "st_age";
    "sy_snum"; "sy_pnum"; "sy_dist"; "sy_gaiamag";
    "ra"; "dec"; "glat"; "glon"; "disc_year" ].

Definition era_bins : list number := [qz 0; qz 2000; qz 2010; qz 2015; qz 2020; qz 2030].
Definition era_labels : list string :=
  ["Pre-2000"; "2000s"; "2010-2015"; "2015-2020"; "2020+"].
Definition distance_bins : list number := [qz 0; qz 50; qz 100; qz 500; qz 10000].
Definition distance_labels : list string :=
  ["Very Close (<50pc)"; "Close (50-100pc)"; "Moderate (100-500pc)"; "Far (>500pc)"].

(** ** data_fetcher.py: clean_exoplanet_data

    [parse] is pandas' string-to-number conversion, [now] the formatted
    [datetime.now()].  The lines the function prints are left out. *)
Definition clean_exoplanet_data (parse : string -> option number) (now : string)
  (df : DataFrame) : result DataFrame :=
  if df_empty df then Ok df
  else
    df ← coerce_columns parse numeric_columns df;
    let df := dropna_all df in
    df ← dropna_subset ["pl_name"] df;
    df ← drop_duplicates "pl_name" df;
    score ← calculate_habitability_score df;
    let df := assign df "habitability_score" (map int_cell score) in
    ptype ← classify_planet_type df;
    let df := assign df "planet_type" (map Str ptype) in
    year ← column df "disc_year";
    era ← cut year era_bins era_labels;
    let df := assign df "discovery_era" era in
    dist ← column df "sy_dist";
    category ← cut dist distance_bins distance_labels;
    let df := assign df "distance_category" category in
    let df := assign df "data_fetched_at" (map (fun _ => Str now) (rows df)) in
    Ok df.

(** ** data_fetcher.py: fetch_exoplanet_data *)

Definition base_url : string := "https://exoplanetarchive.ipac.caltech.edu/TAP/sync".
Definition rule : string := repeat_string "=" 60.

Definition fetch_body (W : World) : io DataFrame :=
  print "📡 Connecting to NASA Exoplanet Archive..." >>
  emit (HttpGet base_url) >>
  do response <~ lift (http_get W) in
  match status_error response with Some e => raise e | None => io_ret tt end >>
  do data <~ lift (body response) in
  do n <~ lift (payload_len data) in
  print ("✅ Success! Retrieved " ++ str_nat n ++ " records") >>
  print rule >>
  do df <~ lift (payload_frame data) in
  io_ret df.

Definition fetch_handlers (e : exn) : option (io DataFrame) :=
  match class e with
  | Timeout =>
      Some (print "⚠️ Timeout occurred. The API might be slow. Please try again." >>
            io_ret empty_frame)
  | OtherException =>
      Some (print ("✗ Error fetching data: " ++ message e) >>
            io_ret empty_frame)
  | NotException => None
  end.

Definition fetch_exoplanet_data (W : World) : io DataFrame :=
  print "🚀 Fetching ALL exoplanet data from NASA..." >>
  print rule >>
  try_except (fetch_body W) fetch_handlers.

(** ** data_fetcher.py: save_to_csv *)

Definition save_to_csv (W : World) (df : DataFrame) (filename : string) : io unit :=
  if df_empty df then print "❌ No data to save!"
  else
    emit (ToCsv filename df) >>
    match to_csv_error W with Some e => raise e | None => io_ret tt end >>
    print (nl ++ "💾 Data saved to " ++ filename) >>
    print ("   Size: " ++ str_nat (length (rows df)) ++ " rows × "
            ++ str_nat (length (columns df)) ++ " columns").

(** ** data_fetcher.py: main *)

(** [s.nunique()]: the number of distinct non-null entries. *)
Definition nunique (s : list cell) : nat :=
  length (remove_dups (filter (fun c => c <> Null) s)).

Definition num_min (x y : number) : number := if num_leb x y then x else y.
Definition num_max (x y : number) : number := if num_leb x y then y else x.

(** The numbers of a float64 series, NaN dropped; a string entry raises. *)
Fixpoint numbers_of (s : list cell) : result (list number) :=
  match s with
  | [] => Ok []
  | Null :: s' => numbers_of s'
  | Num x :: s' => xs ← numbers_of s'; Ok (x :: xs)
  | Str _ :: _ => Err TypeError
  end.

Definition when (b : bool) (m : io unit) : io unit := if b then m else io_ret tt.

Definition summary (W : World) (clean_df : DataFrame) : io unit :=
  print (nl ++ "📊 Dataset Summary:") >>
  print rule >>
  print ("Total Planets: " ++ str_nat (length (rows clean_df))) >>
  when (has_col clean_df "discoverymethod")
    (do s <~ lift_result (column clean_df "discoverymethod") in
     print ("Discovery Methods: " ++ str_nat (nunique s))) >>
  when (has_col clean_df "hostname")
    (do s <~ lift_result (column clean_df "hostname") in
     print ("Host Stars: " ++ str_nat (nunique s))) >>
  when (has_col clean_df "habitability_score")
    (do s <~ lift_result (column clean_df "habitability_score") in
     do m <~ lift_result (series_gt s (qz 50)) in
     print ("Potentially Habitable: " ++ str_nat (length (filter (fun b => b = true) m)))) >>
  when (has_col clean_df "disc_year")
    (do s <~ lift_result (column clean_df "disc_year") in
     do valid_years <~ lift_result (numbers_of s) in
     match valid_years with
     | [] => io_ret tt
     | y :: ys =>
         print ("Date Range: " ++ format_0f W (foldl num_min y ys) ++ " - "
                 ++ format_0f W (foldl num_max y ys))
     end) >>
  print rule.

Definition main (W : World) : io unit :=
  print "🌌 NASA Exoplanet Data Fetcher" >>
  print rule >>
  do raw_df <~ call "fetch_exoplanet_data" (fetch_exoplanet_data W) in
  if df_empty raw_df then
    print (nl ++ "❌ Failed to fetch data. Please check your internet connection and try again.")
  else
    do clean_df <~ call "clean_exoplanet_data"
                     (lift_result (clean_exoplanet_data (parse_number W) (now W) raw_df)) in
    if df_empty clean_df then
      print (nl ++ "❌ Failed to clean data.")
    else
      call "save_to_csv" (save_to_csv W clean_df "exoplanet_data.csv") >>
      summary W clean_df >>
      print (nl ++ "🎉 All done! You can now use 'exoplanet_data.csv' in your Streamlit app") >>
      print (nl ++ "💡 Next step: Run 'python database_setup.py' to create the database").

End data_fetcher.

Module data_extraction.

Definition numeric_cols : list string :=
  ["pl_rade"; "pl_eqt"; "pl_orbper"; "st_teff"; "st_rad"].

(** ** data_extraction.py: clean_exoplanet_data *)
Definition clean_exoplanet_data (parse : string -> option number)
  (df : DataFrame) : result DataFrame :=
  df ← drop_duplicates "pl_name" df;
  year ← column df "disc_year";
  let df := assign df "disc_year" (to_numeric parse year) in
  df ← dropna_subset ["pl_rade"; "pl_eqt"; "pl_orbper"] df;
  df ← coerce_columns parse numeric_cols df;
  Ok df.

End data_extraction.


Module database_setup.

(** ** database_setup.py: the store *)

(** A stored row: the autogenerated [id], the value of the table's
    [UNIQUE NOT NULL] column, the values of the other inserted columns in
    the order of the INSERT, and the autogenerated [created_at]. *)
Record entry := mkEntry {
  id : nat;
  key : string;
  payload : list cell;
  created_at : string
}.

(** A table: its unique column, its other data columns, the AUTOINCREMENT
    high-water mark, and its rows in rowid order. *)
Record table := mkTable {
  key_column : string;
  data_columns : list string;
  sequence : nat;
  entries : list entry
}.

(** A database file: the tables made by CREATE TABLE and the indexes made by
    CREATE INDEX, by name.  Every table has the shape of the tables of the
    script: an AUTOINCREMENT id, one UNIQUE NOT NULL column, further
    columns, and created_at. *)
Record Database := mkDatabase {
  tables : gmap string table;
  indexes : gset string
}.

Definition new_file : Database := mkDatabase ∅ ∅.

(** The columns of a table. *)
Definition table_columns (t : table) : list string :=
  "id" :: key_column t :: data_columns t ++ ["created_at"].

(** A statement of the schema: the database after it, or [None] when it
    raises [sqlite3.OperationalError], in which case it has changed
    nothing. *)
Definition statement : Type := Database -> option Database.

(** [CREATE TABLE IF NOT EXISTS name (...)]: a table of that name is left as
    it is; without one, an index of that name is an error. *)
Definition create_table (name key_col : string) (cols : list string) : statement :=
  fun db =>
    match tables db !! name with
    | Some _ => Some db
    | None =>
        if decide (name ∈ indexes db) then None
        else Some (mkDatabase (<[name := mkTable key_col cols 0 []]> (tables db))
                     (indexes db))
    end.

(** [CREATE INDEX IF NOT EXISTS name ON tbl(col)]: the table has to exist,
    and no table may have the name of the index; an index of that name is
    left as it is, whatever it is on; a new index needs the column. *)
Definition create_index (name tbl col : string) : statement :=
  fun db =>
    match tables db !! tbl with
    | None => None
    | Some t =>
        if decide (is_Some (tables db !! name)) then None
        else if decide (name ∈ indexes db) then Some db
        else if decide (col ∈ table_columns t) then
          Some (mkDatabase (tables db) ({[name]} ∪ indexes db))
        else None
    end.

(** How a function of the script ends. *)
Inductive outcome := Returned | Raised.

(** [cursor.execute] for each statement in turn: a statement of the schema
    is committed as it is run, so what the statements before the one that
    raises have made stays in the file. *)
Fixpoint execute (stmts : list statement) (db : Database) : Database * outcome :=
  match stmts with
  | [] => (db, Returned)
  | s :: rest =>
      match s db with
      | Some db' => execute rest db'
      | None => (db, Raised)
      end
  end.

Definition planet_data_columns : list string :=
  [ "hostname"; "discoverymethod"; "disc_year"; "disc_facility";
    "pl_orbper"; "pl_orbsmax"; "pl_rade"; "pl_radj"; "pl_masse"; "pl_massj";
    "pl_bmasse"; "pl_bmassj"; "pl_bmassprov"; "pl_dens"; "pl_eqt"; "pl_insol";
    "habitability_score"; "planet_type"; "discovery_era"; "distance_category";
    "ra"; "dec"; "glat"; "glon"; "data_fetched_at" ].

Definition star_data_columns : list string :=
  ["st_teff"; "st_rad"; "st_mass"; "st_met"; "st_logg"; "st_age"; "planet_count"].

Definition system_data_columns : list string :=
  ["sy_snum"; "sy_pnum"; "sy_dist"; "sy_gaiamag"].

(** [create_database]: [file] is what [sqlite3.connect] opens, [new_file]
    when the file did not exist; the result is the file afterwards, and
    whether the function returned. *)
Definition create_database (file : Database) : Database * outcome :=
  execute
    [ create_table "planets" "pl_name" planet_data_columns;
      create_table "stars" "hostname" star_data_columns;
      create_table "systems" "hostname" system_data_columns;
      create_index "idx_discoverymethod" "planets" "discoverymethod";
      create_index "idx_disc_year" "planets" "disc_year";
      create_index "idx_hostname" "planets" "hostname";
      create_index "idx_habitability" "planets" "habitability_score";
      create_index "idx_planet_type" "planets" "planet_type";
      create_index "idx_distance" "systems" "sy_dist" ]
    file.

(** The rowid an AUTOINCREMENT table gives to a new row. *)
Definition next_id (t : table) : nat :=
  S (max_list (sequence t :: map id (entries t))).

Definition keys (t : table) : list string := map key (entries t).

(** The table after a statement that took a rowid and wrote no row: the
    AUTOINCREMENT mark moves, the rows stay. *)
Definition take_rowid (t : table) : table :=
  mkTable (key_column t) (data_columns t) (next_id t) (entries t).

(** [INSERT OR IGNORE]: a NULL key or a key already in the table leaves the
    rows as they are; the rowid is taken before the constraints are looked
    at, so the AUTOINCREMENT mark moves then too; the second component is
    [cursor.rowcount]. *)
Definition insert_or_ignore (ts : string) (k : option string) (p : list cell)
  (t : table) : table * nat :=
  match k with
  | None => (take_rowid t, 0%nat)
  | Some k =>
      if decide (k ∈ keys t) then (take_rowid t, 0%nat)
      else (mkTable (key_column t) (data_columns t) (next_id t)
              (entries t ++ [mkEntry (next_id t) k p ts]), 1%nat)
  end.

(** [INSERT OR REPLACE]: the row with the same key, if any, is deleted and
    the new row is inserted; a NULL key raises [IntegrityError], and the
    statement then changes nothing, the mark included. *)
Definition insert_or_replace (ts : string) (k : option string) (p : list cell)
  (t : table) : option table :=
  match k with
  | None => None
  | Some k =>
      Some (mkTable (key_column t) (data_columns t) (next_id t)
              (filter (fun e => key e <> k) (entries t)
                 ++ [mkEntry (next_id t) k p ts]))
  end.

(** The value a TEXT column stores for a bound parameter; [render] is
    SQLite's text form of a number. *)
Definition sql_text (render : number -> string) (c : cell) : option string :=
  match c with
  | Null => None
  | Num x => Some (render x)
  | Str s => Some s
  end.

Definition set_table (name : string) (t : table) (db : Database) : Database :=
  mkDatabase (<[name := t]> (tables db)) (indexes db).

(** ** database_setup.py: insert_data_from_csv *)

Definition planet_columns : list string := "pl_name" :: planet_data_columns.

(** The body of the planets loop; an exception of [execute] (no such table)
    is caught and the row skipped. *)
Definition insert_planet (render : number -> string) (ts : string)
  (db : Database) (row : Row) : Database :=
  let values := map (fun col => get row col) planet_columns in
  match tables db !! "planets" with
  | None => db
  | Some t =>
      set_table "planets"
        (insert_or_ignore ts (sql_text render (get row "pl_name")) (tail values) t).1 db
  end.

Inductive agg := First | Count.

(** Order of the group keys: numbers before strings, numbers by value,
    strings by code points. *)
Definition cell_leb (a b : cell) : bool :=
  match a, b with
  | Null, _ => true
  | _, Null => false
  | Num x, Num y => num_leb x y
  | Num _, Str _ => true
  | Str _, Num _ => false
  | Str s, Str t => String.leb s t
  end.

Definition cell_le (a b : cell) : Prop := cell_leb a b = true.

Global Instance cell_le_dec : RelDecision cell_le :=
  fun a b => bool_eq_dec (cell_leb a b) true.

Definition non_null (s : list cell) : list cell := filter (fun c => c <> Null) s.

(** The keys of [df.groupby(by)]: the distinct non-null values, sorted. *)
Definition group_keys (df : DataFrame) (by_ : string) : list cell :=
  merge_sort cell_le
    (remove_dups (non_null (map (fun r => get r by_) (rows df)))).

Definition aggregate (rs : list Row) (a : string * agg) : cell :=
  let s := non_null (map (fun r => get r a.1) rs) in
  match a.2 with
  | First => default Null (head s)
  | Count => int_cell (Z.of_nat (length s))
  end.

(** [df.groupby(by).agg({...}).reset_index()] *)
Definition groupby_agg (df : DataFrame) (by_ : string) (aggs : list (string * agg))
  : result DataFrame :=
  match missing_column df (by_ :: map fst aggs) with
  | Some c => Err (KeyError c)
  | None =>
      Ok (mkFrame (by_ :: map fst aggs)
            (imap (fun i k =>
                     let rs := filter (fun r => get r by_ = k) (rows df) in
                     mkRow i (list_to_map
                                ((by_, k) :: map (fun a => (a.1, aggregate rs a)) aggs)))
               (group_keys df by_)))
  end.

(** [df.columns = names] *)
Definition rename_columns (df : DataFrame) (names : list string) : DataFrame :=
  mkFrame names
    (map (fun r => mkRow (label r)
                     (list_to_map (zip names (map (fun c => get r c) (columns df)))))
       (rows df)).

(** The body of the stars loop and of the systems loop. *)
Definition insert_grouped (name : string) (cols : list string)
  (render : number -> string) (ts : string) (db : Database) (row : Row)
  : Database :=
  match tables db !! name with
  | None => db
  | Some t =>
      match insert_or_replace ts (sql_text render (get row "hostname"))
              (map (fun col => get row col) cols) t with
      | None => db
      | Some t' => set_table name t' db
      end
  end.

(** [df] is the frame [pd.read_csv(csv_file)] gives; [ts] is
    CURRENT_TIMESTAMP during the run.  The lines printed, and the counters
    kept only for them, are left out; a [KeyError] of [groupby] or [agg]
    leaves the function. *)
Definition insert_data_from_csv (render : number -> string) (ts : string)
  (db : Database) (df : DataFrame) : result Database :=
  let db := foldl (insert_planet render ts) db (rows df) in
  star_data ← groupby_agg df "hostname"
    [("st_teff", First); ("st_rad", First); ("st_mass", First);
     ("st_met", First); ("st_logg", First); ("st_age", First);
     ("pl_name", Count)];
  let star_data := rename_columns star_data ("hostname" :: star_data_columns) in
  let db := foldl (insert_grouped "stars" star_data_columns render ts) db
              (rows star_data) in
  system_data ← groupby_agg df "hostname"
    [("sy_snum", First); ("sy_pnum", First); ("sy_dist", First);
     ("sy_gaiamag", First)];
  let db := foldl (insert_grouped "systems" system_data_columns render ts) db
              (rows system_data) in
  Ok db.

(** The contents of a table without the autogenerated columns. *)
Definition logical (t : table) : list (string * list cell) :=
  map (fun e => (key e, payload e)) (entries t).

End database_setup.

Module App.

(** ** App.py: the query of the Explorer page *)

Record Filters := mkFilters {
  selected_methods : list string;
  year_range : Z * Z;
  radius_range : number * number;
  temp_range : Z * Z;
  selected_types : list string;
  min_habitability : Z
}.

Definition quoted (s : string) : string := dquote +:+ s +:+ dquote.

Definition query_head : string :=
  String.concat nl
    [ EmptyString;
      "    SELECT ";
      "        pl_name as " +:+ quoted "Planet Name" +:+ ",";
      "        hostname as " +:+ quoted "Host Star" +:+ ",";
      "        discoverymethod as " +:+ quoted "Method" +:+ ",";
      "        disc_year as " +:+ quoted "Year" +:+ ",";
      "        planet_type as " +:+ quoted "Type" +:+ ",";
      "        pl_rade as " +:+ quoted "Radius (R⊕)" +:+ ",";
      "        pl_masse as " +:+ quoted "Mass (M⊕)" +:+ ",";
      "        pl_eqt as " +:+ quoted "Temp (K)" +:+ ",";
      "        pl_orbper as " +:+ quoted "Period (days)" +:+ ",";
      "        habitability_score as " +:+ quoted "Habitability";
      "    FROM planets";
      "    WHERE 1=1";
      "    " ].

Definition query_tail : string :=
  " ORDER BY disc_year DESC, habitability_score DESC LIMIT 1000".

(** The [conditions] list; [str_float] is Python's [str] of a float. *)
Definition conditions (str_float : number -> string) (f : Filters) : list string :=
  (match selected_methods f with
   | [] => []
   | _ => ["discoverymethod IN ('" +:+ String.concat "','" (selected_methods f) +:+ "')"]
   end)
  ++ ["disc_year BETWEEN " +:+ str_int (year_range f).1 +:+ " AND "
        +:+ str_int (year_range f).2]
  ++ ["pl_rade BETWEEN " +:+ str_float (radius_range f).1 +:+ " AND "
        +:+ str_float (radius_range f).2]
  ++ ["pl_eqt BETWEEN " +:+ str_int (temp_range f).1 +:+ " AND "
        +:+ str_int (temp_range f).2]
  ++ (match selected_types f with
      | [] => []
      | _ => ["planet_type IN ('" +:+ String.concat "','" (selected_types f) +:+ "')"]
      end)
  ++ ["habitability_score >= " +:+ str_int (min_habitability f)].

(** The statement [show_explorer] hands to [load_data_cached]: the query
    text and the bound parameters of [pd.read_sql_query(query, conn)]. *)
Definition explorer_query (str_float : number -> string) (f : Filters)
  : string * list cell :=
  let query := query_head in
  let conds := conditions str_float f in
  let query :=
    match conds with
    | [] => query
    | _ => query +:+ " AND " +:+ String.concat " AND " conds
    end in
  let query := query +:+ query_tail in
  (query, []).

End App.

(** ** Vocabulary of the statements *)

(** The entry of row [r] in column [c] of [df]; missing when [df] has no such
    column. *)
Definition value (df : DataFrame) (r : Row) (c : string) : cell :=
  if has_col df c then get r c else Null.

(** The value of a float64 entry compared with a scalar. *)
Definition cmp_value (op : number -> number -> bool) (c : cell) (t : number) : bool :=
  match c with
  | Num x => op x t
  | _ => false
  end.

(** A column that holds no string: what [pd.to_numeric] leaves. *)
Definition is_str (c : cell) : bool :=
  match c with Str _ => true | _ => false end.

Definition float_column (rs : list Row) (c : string) : Prop :=
  Forall (fun r => is_str (get r c) = false) rs.

(** [df] has no string in column [c] (trivially so without the column). *)
Definition numeric (df : DataFrame) (c : string) : Prop :=
  Forall (fun r => is_str (value df r c) = false) (rows df).

(** [lo <= v <= hi] for a present number [v]. *)
Definition in_range (v : cell) (lo hi : number) : Prop :=
  exists x, v = Num x /\ num_le lo x /\ num_le x hi.

(** [a] is what one criterion awards for the entry [v]. *)
Definition criterion (points : Z) (v : cell) (lo hi : number) (a : Z) : Prop :=
  (a = points \/ a = 0) /\ (a = points <-> in_range v lo hi) /\ (v = Null -> a = 0).

Definition three_criteria (df : DataFrame) (r : Row) (s : Z) : Prop :=
  exists a b c, s = a + b + c
    /\ criterion 35 (value df r "pl_rade") (qfrac 1 2) (qz 2) a
    /\ criterion 40 (value df r "pl_eqt") (qz 200) (qz 350) b
    /\ criterion 25 (value df r "pl_orbper") (qz 200) (qz 500) c.

(** The entry [v] is a present number that satisfies [P]. *)
Definition number_with (v : cell) (P : number -> Prop) : Prop :=
  exists x, v = Num x /\ P x.

(** [t] is the category of the radius [v]: six cases, one for each label. *)
Definition radius_category (v : cell) (t : string) : Prop :=
  (t = "Rocky (Earth-like)"%string <-> number_with v (fun x => num_lt x (qfrac 5 4)))
  /\ (t = "Super-Earth"%string
      <-> number_with v (fun x => num_le (qfrac 5 4) x /\ num_lt x (qz 2)))
  /\ (t = "Mini-Neptune"%string
      <-> number_with v (fun x => num_le (qz 2) x /\ num_lt x (qz 4)))
  /\ (t = "Neptune-like"%string
      <-> number_with v (fun x => num_le (qz 4) x /\ num_lt x (qz 10)))
  /\ (t = "Jupiter-like"%string <-> number_with v (fun x => num_le (qz 10) x))
  /\ (t = "Unknown"%string <-> v = Null).

(** [cols] with the column [c] added at the end unless it is there. *)
Definition add_column (cols : list string) (c : string) : list string :=
  if bool_decide (c ∈ cols) then cols else cols ++ [c].

(** The columns of the frame the fetcher's cleaning pass returns. *)
Definition cleaned_columns (df : DataFrame) : list string :=
  add_column
    (add_column
       (add_column
          (add_column (add_column (columns df) "habitability_score") "planet_type")
          "discovery_era")
       "distance_category")
    "data_fetched_at".

(** [r0] stands in [input] with no row of the same name before it. *)
Definition first_occurrence (input : list Row) (r0 : Row) : Prop :=
  exists before after,
    input = before ++ r0 :: after
    /\ Forall (fun r1 => get r1 "pl_name" <> get r0 "pl_name") before.

(** [output] is made, by [transform], of rows of [input] in their input
    order; no two of its rows have the same name; every row it is made of is
    the first of its name in [input]; and [transform] leaves the index label
    and the name of these rows alone. *)
Definition keeps_first_of_each_name (transform : Row -> Row)
  (input output : list Row) : Prop :=
  exists kept,
    output = map transform kept
    /\ sublist kept input
    /\ NoDup (map (fun r => get r "pl_name") output)
    /\ Forall (first_occurrence input) kept
    /\ Forall (fun r0 => label (transform r0) = label r0
                        /\ get (transform r0) "pl_name" = get r0 "pl_name") kept.

(** The entry [v] is a present number in the half-open bin [(lo, hi]]. *)
Definition in_bin (v : cell) (lo hi : Z) : Prop :=
  number_with v (fun x => num_lt (qz lo) x /\ num_le x (qz hi)).

(** [era] is the discovery era of the year [year]. *)
Definition era_of (year era : cell) : Prop :=
  (era = Str "Pre-2000" <-> in_bin year 0 2000)
  /\ (era = Str "2000s" <-> in_bin year 2000 2010)
  /\ (era = Str "2010-2015" <-> in_bin year 2010 2015)
  /\ (era = Str "2015-2020" <-> in_bin year 2015 2020)
  /\ (era = Str "2020+" <-> in_bin year 2020 2030)
  /\ (era = Null <-> ~ in_bin year 0 2030).

(** [category] is the distance category of the distance [dist]. *)
Definition distance_of (dist category : cell) : Prop :=
  (category = Str "Very Close (<50pc)" <-> in_bin dist 0 50)
  /\ (category = Str "Close (50-100pc)" <-> in_bin dist 50 100)
  /\ (category = Str "Moderate (100-500pc)" <-> in_bin dist 100 500)
  /\ (category = Str "Far (>500pc)" <-> in_bin dist 500 10000)
  /\ (category = Null <-> ~ in_bin dist 0 10000).

(** The chain of [where] calls of [classify_planet_type] on one entry. *)
Definition classify_value (v : cell) : string :=
  let ge := cmp_value (fun x y => num_leb y x) v in
  let lt := cmp_value num_ltb v in
  let t := "Unknown"%string in
  let t := if negb (lt (qfrac 5 4) && negb (is_null v)) then t else "Rocky (Earth-like)"%string in
  let t := if negb (ge (qfrac 5 4) && lt (qz 2)) then t else "Super-Earth"%string in
  let t := if negb (ge (qz 2) && lt (qz 4)) then t else "Mini-Neptune"%string in
  let t := if negb (ge (qz 4) && lt (qz 10)) then t else "Neptune-like"%string in
  let t := if negb (ge (qz 10)) then t else "Jupiter-like"%string in
  t.

(** What the coercion loop does to one row: [dfcols] are the columns of the
    frame, [cols] the columns the loop goes through. *)
Definition coerce_row (parse : string -> option number) (dfcols cols : list string)
  (r : Row) : Row :=
  foldl (fun r c =>
           if decide (c ∈ dfcols) then set_cell c (to_numeric_cell parse (get r c)) r
           else r) r cols.

(** [pd.cut] on one float64 entry. *)
Definition cut_value (bins : list number) (labels : list string) (c : cell) : cell :=
  match c with
  | Num x =>
      let i := length (filter (fun b => num_ltb b x = true) bins) in
      if decide (i = 0%nat \/ i = length bins) then Null
      else from_option Str Null (labels !! (i - 1)%nat)
  | _ => Null
  end.

(** What a criterion adds, computed. *)
Definition points (pts : Z) (v : cell) (lo hi : number) : Z :=
  if cmp_value (fun x y => num_leb y x) v lo && cmp_value num_leb v hi then pts else 0.

(** The score [calculate_habitability_score] computes for one row. *)
Definition score_value (df : DataFrame) (r : Row) : Z :=
  0 + points 35 (value df r "pl_rade") (qfrac 1 2) (qz 2)
    + points 40 (value df r "pl_eqt") (qz 200) (qz 350)
    + points 25 (value df r "pl_orbper") (qz 200) (qz 500).

(** The rows [data_fetcher.clean_exoplanet_data] keeps, before the derived
    columns are added: coerced, not all null, named, first of their name. *)
Definition kept_rows (parse : string -> option number) (df : DataFrame) : list Row :=
  drop_seen "pl_name" []
    (filter (fun r => Forall (fun c => get r c <> Null) ["pl_name"%string])
       (filter (fun r => ~ Forall (fun c => get r c = Null) (columns df))
          (map (coerce_row parse (columns df) data_fetcher.numeric_columns) (rows df)))).

(** The derived columns of one kept row. *)
Definition derive (df : DataFrame) (now : string) (r : Row) : Row :=
  set_cell "data_fetched_at" (Str now)
    (set_cell "distance_category"
       (cut_value data_fetcher.distance_bins data_fetcher.distance_labels (get r "sy_dist"))
       (set_cell "discovery_era"
          (cut_value data_fetcher.era_bins data_fetcher.era_labels (get r "disc_year"))
          (set_cell "planet_type" (Str (classify_value (value df r "pl_rade")))
             (set_cell "habitability_score" (int_cell (score_value df r)) r)))).

(** What the fetcher's cleaning pass makes of an input row it keeps. *)
Definition fetcher_row (parse : string -> option number) (now : string)
  (df : DataFrame) (r0 : Row) : Row :=
  derive df now (coerce_row parse (columns df) data_fetcher.numeric_columns r0).

(** What the cleaning function of data_extraction.py makes of an input row it
    keeps. *)
Definition extraction_row (parse : string -> option number) (df : DataFrame)
  (r0 : Row) : Row :=
  coerce_row parse (columns df) data_extraction.numeric_cols
    (set_cell "disc_year" (to_numeric_cell parse (get r0 "disc_year")) r0).

(** The exception that leaves the [try] body of [fetch_exoplanet_data], if
    any: the first of the request, the status check, the decoding, [len] and
    the construction of the frame to fail. *)
Definition failure (W : World) : option exn :=
  match http_get W with
  | inl e => Some e
  | inr response =>
      match status_error response with
      | Some e => Some e
      | None =>
          match body response with
          | inl e => Some e
          | inr data =>
              match payload_len data with
              | inl e => Some e
              | inr _ =>
                  match payload_frame data with
                  | inl e => Some e
                  | inr _ => None
                  end
              end
          end
      end
  end.

(** The frame the service answered with, when nothing failed. *)
Definition fetched (W : World) : option DataFrame :=
  match failure W, http_get W with
  | None, inr response =>
      match body response with
      | inr data =>
          match payload_frame data with inr df => Some df | inl _ => None end
      | inl _ => None
      end
  | _, _ => None
  end.

(** The line [fetch_exoplanet_data] prints for a caught exception. *)
Definition logged (e : exn) : string :=
  match class e with
  | Timeout => "⚠️ Timeout occurred. The API might be slow. Please try again."
  | _ => "✗ Error fetching data: " ++ message e
  end.

(** The functions of the script entered, in order. *)
Definition calls (t : list event) : list string :=
  omap (fun e => match e with Call f => Some f | _ => None end) t.

(** The CSV files written, in order. *)
Definition csv_writes (t : list event) : list (string * DataFrame) :=
  omap (fun e => match e with ToCsv f df => Some (f, df) | _ => None end) t.

(** A computation that enters no function of the script and writes no file. *)
Definition quiet {A} (m : io A) : Prop := calls m.1 = [] /\ csv_writes m.1 = [].

(** The frame [fetch_exoplanet_data] returns. *)
Definition fetch_result (W : World) : exn + DataFrame :=
  (data_fetcher.fetch_exoplanet_data W).2.

(** The stages [main] goes through, by what the earlier stages gave. *)
Definition stages_run (W : World) : list string :=
  match fetch_result W with
  | inl _ => ["fetch_exoplanet_data"]
  | inr raw_df =>
      if df_empty raw_df then ["fetch_exoplanet_data"]
      else
        match data_fetcher.clean_exoplanet_data (parse_number W) (now W) raw_df with
        | Err _ => ["fetch_exoplanet_data"; "clean_exoplanet_data"]
        | Ok clean_df =>
            if df_empty clean_df then
              ["fetch_exoplanet_data"; "clean_exoplanet_data"]
            else ["fetch_exoplanet_data"; "clean_exoplanet_data"; "save_to_csv"]
        end
  end%string.

(** The files [main] writes, by what the earlier stages gave. *)
Definition files_written (W : World) : list (string * DataFrame) :=
  match fetch_result W with
  | inl _ => []
  | inr raw_df =>
      if df_empty raw_df then []
      else
        match data_fetcher.clean_exoplanet_data (parse_number W) (now W) raw_df with
        | Err _ => []
        | Ok clean_df =>
            if df_empty clean_df then []
            else [("exoplanet_data.csv"%string, clean_df)]
        end
  end.

(** The rows the fetcher keeps are the coerced images of these input rows. *)
Definition fetcher_kept (parse : string -> option number) (df : DataFrame) : list Row :=
  drop_seen "pl_name" []
    (filter (fun r =>
               Forall (fun c => get (coerce_row parse (columns df)
                                       data_fetcher.numeric_columns r) c <> Null)
                 ["pl_name"%string]
               /\ ~ Forall (fun c => get (coerce_row parse (columns df)
                                            data_fetcher.numeric_columns r) c = Null)
                      (columns df))
       (rows df)).

(** The input rows the cleaning function of data_extraction.py keeps. *)
Definition extraction_kept (parse : string -> option number) (df : DataFrame)
  : list Row :=
  filter (fun r =>
            Forall (fun c =>
                      get (set_cell "disc_year"
                             (to_numeric_cell parse (get r "disc_year")) r) c <> Null)
              ["pl_rade"; "pl_eqt"; "pl_orbper"]%string)
    (drop_seen "pl_name" [] (rows df)).

(** ** Vocabulary of the loader *)

(** [UNIQUE]: no two rows of the table have the same key. *)
Definition unique_keys (t : database_setup.table) : Prop :=
  NoDup (database_setup.keys t).

(** Every table of the database has unique keys. *)
Definition db_unique (db : database_setup.Database) : Prop :=
  forall n t, database_setup.tables db !! n = Some t -> unique_keys t.

(** The rows of a table with a given key. *)
Definition rows_with (k : string) (t : database_setup.table)
  : list database_setup.entry :=
  filter (fun e => database_setup.key e = k) (database_setup.entries t).

(** The logical contents of the table [n] of [db], if it exists. *)
Definition contents (db : database_setup.Database) (n : string)
  : option (list (string * list cell)) :=
  database_setup.logical <$> database_setup.tables db !! n.

(** The number of rows of the table [n] of [db], if it exists. *)
Definition row_count (db : database_setup.Database) (n : string) : option nat :=
  (fun t => length (database_setup.entries t)) <$> database_setup.tables db !! n.

(** Apply [f] to the table [n] of [db], if it exists. *)
Definition update_table (n : string)
  (f : database_setup.table -> database_setup.table)
  (db : database_setup.Database) : database_setup.Database :=
  match database_setup.tables db !! n with
  | None => db
  | Some t => database_setup.set_table n (f t) db
  end.

(** INSERT OR IGNORE for every row of [l], with key [K row] and data [P row]. *)
Definition ignore_fold (K : Row -> option string) (P : Row -> list cell)
  (ts : string) (t : database_setup.table) (l : list Row) : database_setup.table :=
  foldl (fun t row => (database_setup.insert_or_ignore ts (K row) (P row) t).1) t l.

(** What the planets loop of the loader does to the planets table. *)
Definition planets_pass (render : number -> string) (ts : string) (df : DataFrame)
  (t : database_setup.table) : database_setup.table :=
  foldl (fun t row =>
           (database_setup.insert_or_ignore ts
              (database_setup.sql_text render (get row "pl_name"))
              (tail (map (fun col => get row col) database_setup.planet_columns)) t).1)
    t (rows df).

(** What the stars loop and the systems loop do to their table. *)
Definition grouped_pass (cols : list string) (render : number -> string)
  (ts : string) (data : DataFrame) (t : database_setup.table)
  : database_setup.table :=
  foldl (fun t row =>
           default t
             (database_setup.insert_or_replace ts
                (database_setup.sql_text render (get row "hostname"))
                (map (fun col => get row col) cols) t))
    t (rows data).

(** The grouped frames of the loader. *)
Definition star_frame (df : DataFrame) : result DataFrame :=
  database_setup.groupby_agg df "hostname"
    [("st_teff", database_setup.First); ("st_rad", database_setup.First);
     ("st_mass", database_setup.First); ("st_met", database_setup.First);
     ("st_logg", database_setup.First); ("st_age", database_setup.First);
     ("pl_name", database_setup.Count)]%string.

Definition system_frame (df : DataFrame) : result DataFrame :=
  database_setup.groupby_agg df "hostname"
    [("sy_snum", database_setup.First); ("sy_pnum", database_setup.First);
     ("sy_dist", database_setup.First); ("sy_gaiamag", database_setup.First)]%string.

(** The rows a grouped pass binds, without those whose key is NULL. *)
Definition keyed (cols : list string) (render : number -> string) (data : DataFrame)
  : list (string * list cell) :=
  omap (fun row =>
          (fun k => (k, map (fun col => get row col) cols))
            <$> database_setup.sql_text render (get row "hostname"))
    (rows data).

(** What one INSERT OR REPLACE does to the logical contents. *)
Definition replace_step (acc : list (string * list cell)) (x : string * list cell)
  : list (string * list cell) :=
  filter (fun y => y.1 <> x.1) acc ++ [x].

(** [f] with another minimum habitability score. *)
Definition with_min_habitability (f : App.Filters) (h : Z) : App.Filters :=
  App.mkFilters (App.selected_methods f) (App.year_range f) (App.radius_range f)
    (App.temp_range f) (App.selected_types f) h.


(** The requests sent to the archive, in order. *)
Definition requests (t : list event) : list string :=
  omap (fun e => match e with HttpGet u => Some u | _ => None end) t.

(** A computation that sends no request. *)
Definition offline {A} (m : io A) : Prop := requests m.1 = [].

(** What [main] returns or raises, by what its stages gave. *)
Definition main_outcome (W : World) : exn + unit :=
  match fetch_result W with
  | inl e => inl e
  | inr raw_df =>
      if df_empty raw_df then inr tt
      else
        match data_fetcher.clean_exoplanet_data (parse_number W) (now W) raw_df with
        | Err err => inl (exn_of_error err)
        | Ok clean_df =>
            if df_empty clean_df then inr tt
            else match to_csv_error W with Some e => inl e | None => inr tt end
        end
  end.


(** The columns the loader groups by and aggregates. *)
Definition grouping_columns : list string :=
  [ "hostname"; "st_teff"; "st_rad"; "st_mass"; "st_met"; "st_logg"; "st_age";
    "pl_name"; "sy_snum"; "sy_pnum"; "sy_dist"; "sy_gaiamag" ].

(** The table [CREATE TABLE] makes. *)
Definition fresh_table (key_col : string) (cols : list string) : database_setup.table :=
  database_setup.mkTable key_col cols 0 [].



(** The aggregations of the stars and of the systems, as the loader has them. *)
Definition star_aggs : list (string * database_setup.agg) :=
  [("st_teff", database_setup.First); ("st_rad", database_setup.First);
   ("st_mass", database_setup.First); ("st_met", database_setup.First);
   ("st_logg", database_setup.First); ("st_age", database_setup.First);
   ("pl_name", database_setup.Count)]%string.

Definition system_aggs : list (string * database_setup.agg) :=
  [("sy_snum", database_setup.First); ("sy_pnum", database_setup.First);
   ("sy_dist", database_setup.First); ("sy_gaiamag", database_setup.First)]%string.


(** [f] with other selections of discovery methods and planet types. *)
Definition with_selections (f : App.Filters) (methods types : list string)
  : App.Filters :=
  App.mkFilters methods (App.year_range f) (App.radius_range f)
    (App.temp_range f) types (App.min_habitability f).



(** The rows the loader binds for the groups of [df]: the text of the host
    and the aggregates of its rows. *)
Definition grouped_rows (render : number -> string) (df : DataFrame)
  (aggs : list (string * database_setup.agg)) : list (string * list cell) :=
  omap (fun k =>
          (fun s => (s, map (database_setup.aggregate
                               (filter (fun r => get r "hostname" = k) (rows df)))
                          aggs))
            <$> database_setup.sql_text render k)
    (database_setup.group_keys df "hostname").


(** The ids of a table, in the order of its rows. *)
Definition ids (t : database_setup.table) : list nat :=
  map database_setup.id (database_setup.entries t).




(** The tables sqlite_master lists: those made by CREATE TABLE and, as soon
    as there is one, sqlite_sequence, where SQLite keeps the AUTOINCREMENT
    marks. *)
Definition master_tables (db : database_setup.Database) : gset string :=
  dom (database_setup.tables db)
  ∪ (if decide (dom (database_setup.tables db) = (∅ : gset string)) then ∅
     else {["sqlite_sequence"]}).

(** [db] with the table [name], made empty when it is not there. *)
Definition with_table (name key_col : string) (cols : list string)
  (db : database_setup.Database) : database_setup.Database :=
  match database_setup.tables db !! name with
  | Some _ => db
  | None =>
      database_setup.mkDatabase
        (<[name := fresh_table key_col cols]> (database_setup.tables db))
        (database_setup.indexes db)
  end.

(** [db] with the index [name]. *)
Definition with_index (name : string) (db : database_setup.Database)
  : database_setup.Database :=
  database_setup.mkDatabase (database_setup.tables db)
    ({[name]} ∪ database_setup.indexes db).

(** The file with the tables and the indexes of the script. *)
Definition script_schema (file : database_setup.Database) : database_setup.Database :=
  with_index "idx_distance"
    (with_index "idx_planet_type"
       (with_index "idx_habitability"
          (with_index "idx_hostname"
             (with_index "idx_disc_year"
                (with_index "idx_discoverymethod"
                   (with_table "systems" "hostname" database_setup.system_data_columns
                      (with_table "stars" "hostname" database_setup.star_data_columns
                         (with_table "planets" "pl_name"
                            database_setup.planet_data_columns file)))))))).

(** The indexes of the script: name, table, column. *)
Definition script_indexes : list (string * string * string) :=
  [ ("idx_discoverymethod", "planets", "discoverymethod");
    ("idx_disc_year", "planets", "disc_year");
    ("idx_hostname", "planets", "hostname");
    ("idx_habitability", "planets", "habitability_score");
    ("idx_planet_type", "planets", "planet_type");
    ("idx_distance", "systems", "sy_dist") ]%string.

(** The files [create_database] goes through on: no index has the name of a
    table of the script that is missing, no table has the name of an index
    of the script, and an index of the script that is missing finds its
    column in the table the file has. *)
Definition accepted (file : database_setup.Database) : Prop :=
  Forall (fun name =>
            is_Some (database_setup.tables file !! name)
            \/ name ∉ database_setup.indexes file)
    ["planets"; "stars"; "systems"]%string
  /\ Forall (fun i =>
               database_setup.tables file !! i.1.1 = None
               /\ (i.1.1 ∈ database_setup.indexes file
                   \/ forall t, database_setup.tables file !! i.1.2 = Some t ->
                                i.2 ∈ database_setup.table_columns t))
       script_indexes.

(** ** Sample inputs *)

Definition row_of (l : nat) (kvs : list (string * cell)) : Row :=
  mkRow l (list_to_map kvs).

Definition three_planets : DataFrame :=
  mkFrame ["pl_name"; "pl_rade"; "pl_eqt"; "pl_orbper"]
    [ row_of 0 [("pl_name", Str "Kepler-452 b"); ("pl_rade", Num (qfrac 163 100));
                ("pl_eqt", Num (qz 265)); ("pl_orbper", Num (qfrac 3848 10))];
      row_of 1 [("pl_name", Str "51 Peg b"); ("pl_rade", Num (qz 14));
                ("pl_eqt", Null); ("pl_orbper", Num (qfrac 423 100))];
      row_of 2 [("pl_name", Str "Proxima Cen b"); ("pl_rade", Null);
                ("pl_eqt", Num (qz 234)); ("pl_orbper", Num PosInf)] ].

Definition catalogue : DataFrame :=
  mkFrame ["pl_name"; "hostname"; "pl_rade"; "pl_eqt"; "pl_orbper"; "disc_year"; "sy_dist"]
    [ row_of 0 [("pl_name", Str "Kepler-452 b"); ("hostname", Str "Kepler-452");
                ("pl_rade", Num (qfrac 163 100)); ("pl_eqt", Num (qz 265));
                ("pl_orbper", Num (qfrac 3848 10)); ("disc_year", Num (qz 2015));
                ("sy_dist", Num (qz 552))];
      row_of 1 [("pl_name", Str "51 Peg b"); ("hostname", Str "51 Peg");
                ("pl_rade", Str "n/a"); ("pl_eqt", Num (qz 1284));
                ("pl_orbper", Num (qfrac 423 100)); ("disc_year", Str "1995");
                ("sy_dist", Num (qfrac 155 10))];
      row_of 2 [("pl_name", Str "Kepler-452 b"); ("hostname", Str "Kepler-452");
                ("pl_rade", Num (qz 2)); ("pl_eqt", Num (qz 300));
                ("pl_orbper", Num (qz 385)); ("disc_year", Num (qz 2016));
                ("sy_dist", Num (qz 552))];
      row_of 3 [("pl_name", Null); ("hostname", Str "HD 1"); ("pl_rade", Num (qz 1));
                ("pl_eqt", Num (qz 250)); ("pl_orbper", Num (qz 300));
                ("disc_year", Num (qz 2021)); ("sy_dist", Num (qz 10))];
      row_of 4 [("pl_name", Str "TRAPPIST-1 e"); ("hostname", Str "TRAPPIST-1");
                ("pl_rade", Num (qfrac 92 100)); ("pl_eqt", Num (qz 250));
                ("pl_orbper", Num (qfrac 61 10)); ("disc_year", Num (qz 2017));
                ("sy_dist", Num (qfrac 124 10))] ].

(** A frame whose only row has a radius that is text, not a number. *)
Definition unparsed_radius : DataFrame :=
  mkFrame ["pl_name"; "disc_year"; "pl_rade"; "pl_eqt"; "pl_orbper"]
    [ row_of 0 [("pl_name", Str "Kepler-22 b"); ("disc_year", Num (qz 2011));
                ("pl_rade", Str "unknown"); ("pl_eqt", Num (qz 262));
                ("pl_orbper", Num (qfrac 2899 10))] ].

(** A world in which the request times out. *)
Definition timed_out : World :=
  mkWorld (fun _ => None) "2026-01-01 00:00:00" (fun _ => "0"%string)
    (inl (mkExn Timeout "read timed out")) None.

(** A world in which the service answers with the catalogue. *)
Definition answered : World :=
  mkWorld (fun _ => None) "2026-01-01 00:00:00" (fun _ => "0"%string)
    (inr (mkResponse None (inr (mkPayload (inr 5%nat) (inr catalogue))))) None.

(** The filters the Explorer page starts with. *)
Definition default_filters : App.Filters :=
  App.mkFilters [] (2000, 2025) (qz 0, qz 25) (0, 3000) [] 0.

(** The frame of a CSV file with two planets of one star and a third planet. *)
Definition csv_frame : DataFrame :=
  mkFrame ["pl_name"; "hostname"; "st_teff"; "st_rad"; "st_mass"; "st_met";
           "st_logg"; "st_age"; "sy_snum"; "sy_pnum"; "sy_dist"; "sy_gaiamag"]
    [ row_of 0 [("pl_name", Str "TRAPPIST-1 e"); ("hostname", Str "TRAPPIST-1");
                ("st_teff", Num (qz 2566)); ("sy_snum", Num (qz 1));
                ("sy_pnum", Num (qz 7)); ("sy_dist", Num (qfrac 124 10))];
      row_of 1 [("pl_name", Str "51 Peg b"); ("hostname", Str "51 Peg");
                ("st_teff", Num (qz 5758)); ("sy_snum", Num (qz 1));
                ("sy_pnum", Num (qz 1)); ("sy_dist", Num (qfrac 155 10))];
      row_of 2 [("pl_name", Str "TRAPPIST-1 f"); ("hostname", Str "TRAPPIST-1");
                ("st_teff", Num (qz 2566)); ("sy_snum", Num (qz 1));
                ("sy_pnum", Num (qz 7)); ("sy_dist", Num (qfrac 124 10))];
      row_of 3 [("pl_name", Str "51 Peg b"); ("hostname", Str "51 Peg")] ].

(** The database [create_database] makes of a new file. *)
Definition fresh_database : database_setup.Database :=
  (database_setup.create_database database_setup.new_file).1.

(** The database after one run of the loader on [csv_frame]. *)
Definition loaded_once : database_setup.Database :=
  match database_setup.insert_data_from_csv (fun _ => "0"%string)
          "2026-01-01 00:00:00" fresh_database csv_frame with
  | Ok db => db
  | Err _ => database_setup.new_file
  end.


(** The catalogue after the fetcher's cleaning pass. *)
Definition cleaned_catalogue : DataFrame :=
  match data_fetcher.clean_exoplanet_data (fun _ => None) "2026-01-01 00:00:00"
          catalogue with
  | Ok out => out
  | Err _ => empty_frame
  end.

(** The catalogue with numbers only in its critical columns. *)
Definition measured : DataFrame :=
  mkFrame ["pl_name"; "pl_rade"; "pl_eqt"; "pl_orbper"; "disc_year"]
    [ row_of 0 [("pl_name", Str "Kepler-452 b"); ("pl_rade", Num (qfrac 163 100));
                ("pl_eqt", Num (qz 265)); ("pl_orbper", Num (qfrac 3848 10));
                ("disc_year", Num (qz 2015))];
      row_of 1 [("pl_name", Str "51 Peg b"); ("pl_rade", Null);
                ("pl_eqt", Num (qz 1284)); ("pl_orbper", Num (qfrac 423 100));
                ("disc_year", Str "1995")];
      row_of 2 [("pl_name", Str "Kepler-452 b"); ("pl_rade", Num (qz 2));
                ("pl_eqt", Num (qz 300)); ("pl_orbper", Num (qz 385));
                ("disc_year", Num (qz 2016))] ].

Definition measured_cleaned : DataFrame :=
  match data_extraction.clean_exoplanet_data (fun _ => None) measured with
  | Ok out => out
  | Err _ => empty_frame
  end.


(** A world in which the user interrupts the request. *)
Definition interrupted : World :=
  mkWorld (fun _ => None) "2026-01-01 00:00:00" (fun _ => "0"%string)
    (inl (mkExn NotException "KeyboardInterrupt")) None.


(** A frame that has the columns the loader groups by, and no other. *)
Definition hosts_only : DataFrame :=
  mkFrame grouping_columns
    [ row_of 0 [("pl_name", Str "55 Cnc e"); ("hostname", Str "55 Cnc")] ].

(** A database that already holds one planet. *)
Definition one_planet : database_setup.Database :=
  database_setup.set_table "planets"
    (database_setup.mkTable "pl_name" database_setup.planet_data_columns 1
       [database_setup.mkEntry 1 "51 Peg b"
          (map (fun _ => Null) database_setup.planet_data_columns)
          "2025-12-31 00:00:00"])
    fresh_database.

Definition one_planet_loaded : database_setup.Database :=
  match database_setup.insert_data_from_csv (fun _ => "0"%string)
          "2026-01-01 00:00:00" one_planet csv_frame with
  | Ok db => db
  | Err _ => database_setup.new_file
  end.


(** A frame whose radius column holds text. *)
Definition text_radius : DataFrame :=
  mkFrame ["pl_name"; "pl_rade"]
    [ row_of 0 [("pl_name", Str "Kepler-22 b"); ("pl_rade", Num (qz 2))];
      row_of 1 [("pl_name", Str "Kepler-62 f"); ("pl_rade", Str "1.4")] ].


(** The frame with a text radius after the cleaning of data_extraction.py. *)
Definition unparsed_cleaned : DataFrame :=
  match data_extraction.clean_exoplanet_data (fun _ => None) unparsed_radius with
  | Ok out => out
  | Err _ => empty_frame
  end.


(** A file whose planets table has the name column only. *)
Definition narrow_planets : database_setup.Database :=
  database_setup.mkDatabase
    {[ "planets"%string := database_setup.mkTable "pl_name" [] 0 [] ]} ∅.

(** * Properties *)

(** ** The order on numbers *)

Lemma num_leb_le x y : num_leb x y = true <-> num_le x y.
Proof.
  split.
  - destruct x, y; simpl; intros H; try discriminate; try constructor.
    unfold Qc_leb in H. apply Qle_bool_iff in H. exact H.
  - intros H. destruct H as [y | x | a b H]; simpl.
    + reflexivity.
    + destruct x; reflexivity.
    + unfold Qc_leb. apply Qle_bool_iff. exact H.
Qed.

Lemma num_ltb_lt x y : num_ltb x y = true <-> num_lt x y.
Proof.
  unfold num_ltb, num_lt. rewrite negb_true_iff, <- num_leb_le.
  destruct (num_leb y x); split; congruence.
Qed.

(** ** Series *)

Lemma map_result_map {A B C} (f : B -> result C) (g : A -> B) (h : A -> C) l :
  (forall x, x ∈ l -> f (g x) = Ok (h x)) ->
  map_result f (map g l) = Ok (map h l).
Proof.
  induction l as [|a l IH]; intros H; simpl; [reflexivity|].
  rewrite H by left. simpl. rewrite IH; [reflexivity|].
  intros x Hx. apply H. right. exact Hx.
Qed.

Lemma zip_with_map_same {A B C D} (f : B -> C -> D) (g : A -> B) (h : A -> C) l :
  zip_with f (map g l) (map h l) = map (fun x => f (g x) (h x)) l.
Proof. induction l; simpl; congruence. Qed.

Lemma cmp_series op rs c t :
  float_column rs c ->
  map_result (fun v => cmp_cell op v t) (map (fun r => get r c) rs)
  = Ok (map (fun r => cmp_value op (get r c) t) rs).
Proof.
  intros H. apply map_result_map. intros r Hr.
  unfold float_column in H. rewrite Forall_forall in H.
  specialize (H r Hr). destruct (get r c); simpl; try reflexivity.
  discriminate.
Qed.

Lemma numeric_float_column df c :
  has_col df c = true -> numeric df c -> float_column (rows df) c.
Proof.
  intros Hc H. unfold numeric, value in H. rewrite Hc in H. exact H.
Qed.

Lemma in_range_cmp v lo hi :
  cmp_value (fun x y => num_leb y x) v lo && cmp_value num_leb v hi = true
  <-> in_range v lo hi.
Proof.
  unfold in_range. split.
  - destruct v as [|x|s]; simpl; try discriminate.
    intros [H1 H2]%andb_true_iff. exists x.
    rewrite <- !num_leb_le. auto.
  - intros (x & -> & H1 & H2). simpl.
    apply num_leb_le in H1, H2. rewrite H1, H2. reflexivity.
Qed.

Lemma points_criterion pts v lo hi :
  pts <> 0 -> criterion pts v lo hi (points pts v lo hi).
Proof.
  intros Hp. unfold criterion, points.
  pose proof (in_range_cmp v lo hi) as Hc.
  destruct (cmp_value _ v lo && cmp_value _ v hi) eqn:E.
  - split; [left; reflexivity|]. split.
    + split; [intros _; apply Hc; reflexivity | reflexivity].
    + intros ->. simpl in E. discriminate.
  - split; [right; reflexivity|]. split.
    + split; [intros H; congruence|].
      intros H. apply Hc in H. discriminate.
    + reflexivity.
Qed.

(** One criterion block of [calculate_habitability_score]. *)
Lemma criterion_block df c lo hi pts (F : Row -> Z) :
  numeric df c ->
  (if has_col df c then
     col ← column df c;
     m1 ← series_ge col lo;
     m2 ← series_le col hi;
     Ok (series_add (map F (rows df)) (series_mul (astype_int (mask_and m1 m2)) pts))
   else Ok (map F (rows df)))
  = Ok (map (fun r => F r + points pts (value df r c) lo hi) (rows df)).
Proof.
  intros Hn. unfold column, value. destruct (has_col df c) eqn:Hc; simpl.
  - pose proof (numeric_float_column _ _ Hc Hn) as Hf.
    unfold series_ge, series_le. rewrite !cmp_series by exact Hf. simpl.
    f_equal. unfold series_add, series_mul, astype_int, mask_and.
    rewrite zip_with_map_same, !map_map, zip_with_map_same.
    apply map_ext. intros r. unfold points.
    destruct (cmp_value _ _ lo && cmp_value _ _ hi); lia.
  - f_equal. apply map_ext. intros r. unfold points. simpl. lia.
Qed.

Lemma calculate_series df :
  numeric df "pl_rade" -> numeric df "pl_eqt" -> numeric df "pl_orbper" ->
  data_fetcher.calculate_habitability_score df = Ok (map (score_value df) (rows df)).
Proof.
  intros Hr He Ho. unfold data_fetcher.calculate_habitability_score.
  rewrite (criterion_block df "pl_rade" _ _ 35 (fun _ => 0) Hr). simpl.
  rewrite (criterion_block df "pl_eqt" _ _ 40 _ He). simpl.
  rewrite (criterion_block df "pl_orbper" _ _ 25 _ Ho). simpl.
  reflexivity.
Qed.

(** C2. For every frame whose three criterion columns are float64 columns,
    [calculate_habitability_score] returns one score per row, and the score
    of a row is the sum of three awards: 35 exactly when
    0.5 <= pl_rade <= 2.0, 40 exactly when 200 <= pl_eqt <= 350, 25 exactly
    when 200 <= pl_orbper <= 500, each 0 for a missing value; so every score
    is one of 0, 25, 35, 40, 60, 65, 75, 100 and lies in [0, 100]. *)
Theorem habitability_score_three_criteria (df : DataFrame) :
  numeric df "pl_rade" -> numeric df "pl_eqt" -> numeric df "pl_orbper" ->
  exists score,
    data_fetcher.calculate_habitability_score df = Ok score
    /\ Forall2 (fun r s =>
                 three_criteria df r s
                 /\ s ∈ [0; 25; 35; 40; 60; 65; 75; 100]
                 /\ 0 <= s <= 100) (rows df) score.
Proof.
  intros Hr He Ho. rewrite (calculate_series df Hr He Ho).
  eexists. split; [reflexivity|].
  apply Forall2_fmap_r, Forall2_same_length_lookup. split; [reflexivity|].
  intros i r r' Hi Hi'. rewrite Hi in Hi'. injection Hi' as <-.
  pose proof (points_criterion 35 (value df r "pl_rade") (qfrac 1 2) (qz 2)) as H1.
  pose proof (points_criterion 40 (value df r "pl_eqt") (qz 200) (qz 350)) as H2.
  pose proof (points_criterion 25 (value df r "pl_orbper") (qz 200) (qz 500)) as H3.
  specialize (H1 ltac:(lia)). specialize (H2 ltac:(lia)). specialize (H3 ltac:(lia)).
  unfold score_value. split.
  - eexists _, _, _. split; [|split; [exact H1|split; [exact H2|exact H3]]]. lia.
  - destruct H1 as ([-> | ->] & _), H2 as ([-> | ->] & _), H3 as ([-> | ->] & _);
      simpl; (split; [set_solver | lia]).
Qed.

Lemma habitability_score_witness :
  exists score,
    data_fetcher.calculate_habitability_score three_planets = Ok score
    /\ Forall2 (fun r s =>
                 three_criteria three_planets r s
                 /\ s ∈ [0; 25; 35; 40; 60; 65; 75; 100]
                 /\ 0 <= s <= 100) (rows three_planets) score.
Proof.
  apply (habitability_score_three_criteria three_planets);
    repeat constructor.
Defined.

Example habitability_score_three_planets :
  data_fetcher.calculate_habitability_score three_planets = Ok [100; 0; 40].
Proof. reflexivity. Qed.

(** ** classify_planet_type *)

Lemma num_leb_trans a b c :
  num_leb a b = true -> num_leb b c = true -> num_leb a c = true.
Proof.
  rewrite !num_leb_le. intros H1 H2.
  destruct H1 as [y | x | p q Hpq].
  - constructor.
  - inversion H2; subst; constructor.
  - inversion H2; subst; constructor. eapply Qcle_trans; eassumption.
Qed.

Lemma classify_series df :
  numeric df "pl_rade" ->
  data_fetcher.classify_planet_type df
  = Ok (map (fun r => classify_value (value df r "pl_rade")) (rows df)).
Proof.
  intros Hn. unfold data_fetcher.classify_planet_type, column, value.
  destruct (has_col df "pl_rade") eqn:Hc; simpl.
  - pose proof (numeric_float_column _ _ Hc Hn) as Hf.
    unfold series_ge, series_lt. rewrite !cmp_series by exact Hf. simpl.
    f_equal. unfold where_, mask_not, mask_and, notna.
    rewrite !map_map.
    repeat (rewrite ?zip_with_map_same, ?map_map).
    reflexivity.
  - reflexivity.
Qed.

Lemma classify_value_category v :
  is_str v = false -> radius_category v (classify_value v).
Proof.
  intros Hs. destruct v as [|x|s]; [| |discriminate].
  - unfold radius_category, number_with. simpl.
    repeat split; try discriminate; try (intros (x & Hx & _); discriminate).
  - unfold radius_category, number_with, classify_value, cmp_value, is_null.
    unfold num_ltb.
    pose proof (num_leb_trans (qfrac 5 4) (qz 2) x eq_refl) as T1.
    pose proof (num_leb_trans (qz 2) (qz 4) x eq_refl) as T2.
    pose proof (num_leb_trans (qz 4) (qz 10) x eq_refl) as T3.
    assert (E : forall P : number -> Prop,
               (exists y, Num x = Num y /\ P y) <-> P x).
    { intros P. split; [intros (y & [= <-] & H); exact H | eauto]. }
    rewrite !E. unfold num_lt. rewrite <- !num_leb_le.
    destruct (num_leb (qfrac 5 4) x) eqn:B1, (num_leb (qz 2) x) eqn:B2,
             (num_leb (qz 4) x) eqn:B4, (num_leb (qz 10) x) eqn:B10;
      try (specialize (T1 eq_refl)); try (specialize (T2 eq_refl));
      try (specialize (T3 eq_refl)); try discriminate;
      simpl; intuition congruence.
Qed.

(** C3. For every frame whose radius column is a float64 column,
    [classify_planet_type] gives each row the category of its radius alone:
    'Rocky (Earth-like)' exactly when pl_rade < 1.25, 'Super-Earth' exactly
    when 1.25 <= pl_rade < 2.0, 'Mini-Neptune' exactly when
    2.0 <= pl_rade < 4.0, 'Neptune-like' exactly when 4.0 <= pl_rade < 10.0,
    'Jupiter-like' exactly when pl_rade >= 10.0, and 'Unknown' exactly when
    the radius is missing; the result is one of these six labels. *)
Theorem classify_planet_type_six_categories (df : DataFrame) :
  numeric df "pl_rade" ->
  exists planet_type,
    data_fetcher.classify_planet_type df = Ok planet_type
    /\ Forall2 (fun r t =>
                 radius_category (value df r "pl_rade") t
                 /\ t ∈ ["Rocky (Earth-like)"; "Super-Earth"; "Mini-Neptune";
                         "Neptune-like"; "Jupiter-like"; "Unknown"]%string)
         (rows df) planet_type.
Proof.
  intros Hn. rewrite (classify_series df Hn). eexists. split; [reflexivity|].
  apply Forall2_fmap_r, Forall2_same_length_lookup. split; [reflexivity|].
  intros i r r' Hi Hi'. rewrite Hi in Hi'. injection Hi' as <-.
  assert (Hs : is_str (value df r "pl_rade") = false).
  { unfold numeric in Hn. rewrite Forall_forall in Hn. apply Hn.
    eapply list_elem_of_lookup_2. exact Hi. }
  split; [apply classify_value_category; exact Hs|].
  unfold classify_value.
  repeat match goal with
         | |- context [if ?b then _ else _] => destruct b
         end; set_solver.
Qed.

Lemma classify_planet_type_witness :
  exists planet_type,
    data_fetcher.classify_planet_type three_planets = Ok planet_type
    /\ Forall2 (fun r t =>
                 radius_category (value three_planets r "pl_rade") t
                 /\ t ∈ ["Rocky (Earth-like)"; "Super-Earth"; "Mini-Neptune";
                         "Neptune-like"; "Jupiter-like"; "Unknown"]%string)
         (rows three_planets) planet_type.
Proof.
  apply (classify_planet_type_six_categories three_planets);
    repeat constructor.
Defined.

Example classify_three_planets :
  data_fetcher.classify_planet_type three_planets
  = Ok ["Super-Earth"; "Jupiter-like"; "Unknown"]%string.
Proof. reflexivity. Qed.

(** ** Rows and frames *)

Lemma get_set_cell c c' v r :
  get (set_cell c v r) c' = if decide (c = c') then v else get r c'.
Proof.
  unfold get, set_cell. simpl. destruct (decide (c = c')) as [->|Hne].
  - rewrite lookup_insert_eq. reflexivity.
  - rewrite lookup_insert_ne by exact Hne. reflexivity.
Qed.

Lemma get_set_cell_ne c c' v r : c <> c' -> get (set_cell c v r) c' = get r c'.
Proof. intros H. rewrite get_set_cell. destruct (decide (c = c')); congruence. Qed.

Lemma zip_with_map_l {A B C} (f : B -> A -> C) (g : A -> B) l :
  zip_with f (map g l) l = map (fun x => f (g x) x) l.
Proof. induction l; simpl; congruence. Qed.

Lemma has_col_iff df c : has_col df c = true <-> c ∈ columns df.
Proof. unfold has_col. apply bool_decide_eq_true. Qed.

Lemma to_numeric_cell_idem parse c :
  to_numeric_cell parse (to_numeric_cell parse c) = to_numeric_cell parse c.
Proof. destruct c as [| |s]; simpl; try reflexivity. destruct (parse s); reflexivity. Qed.

Lemma to_numeric_cell_not_str parse c : is_str (to_numeric_cell parse c) = false.
Proof. destruct c as [| |s]; simpl; try reflexivity. destruct (parse s); reflexivity. Qed.

Lemma coerce_row_label parse dfcols cols r :
  label (coerce_row parse dfcols cols r) = label r.
Proof.
  revert r. induction cols as [|c cols IH]; intros r; [reflexivity|].
  unfold coerce_row in *. simpl. rewrite IH. destruct (decide (c ∈ dfcols)); reflexivity.
Qed.

Lemma coerce_row_get parse dfcols cols r c :
  get (coerce_row parse dfcols cols r) c
  = if decide (c ∈ cols /\ c ∈ dfcols) then to_numeric_cell parse (get r c)
    else get r c.
Proof.
  revert r. induction cols as [|c0 cols IH]; intros r.
  - destruct (decide (c ∈ [] /\ c ∈ dfcols)) as [[H _]|_]; [|reflexivity].
    apply elem_of_nil in H. destruct H.
  - unfold coerce_row in *. simpl. rewrite IH. clear IH.
    destruct (decide (c0 ∈ dfcols)) as [H0|H0].
    + rewrite get_set_cell. destruct (decide (c0 = c)) as [->|Hne].
      * rewrite to_numeric_cell_idem.
        rewrite (decide_True (P := c ∈ c :: cols /\ c ∈ dfcols))
          by (split; [left|exact H0]).
        destruct (decide (c ∈ cols /\ c ∈ dfcols)); reflexivity.
      * apply decide_ext. rewrite elem_of_cons. intuition congruence.
    + apply decide_ext. rewrite elem_of_cons. intuition congruence.
Qed.

Lemma coerce_columns_rows parse cols df :
  coerce_columns parse cols df
  = Ok (mkFrame (columns df) (map (coerce_row parse (columns df) cols) (rows df))).
Proof.
  revert df. induction cols as [|c cols IH]; intros df.
  - simpl. unfold coerce_row. simpl. rewrite map_id. destruct df; reflexivity.
  - simpl. unfold column. destruct (has_col df c) eqn:Hc; simpl.
    + rewrite IH. f_equal. unfold assign. rewrite Hc. simpl. f_equal.
      unfold to_numeric. rewrite map_map, zip_with_map_l, map_map.
      apply map_ext. intros r. unfold coerce_row. simpl.
      apply has_col_iff in Hc. destruct (decide (c ∈ columns df)); [reflexivity|contradiction].
    + rewrite IH. f_equal. f_equal. apply map_ext. intros r.
      unfold coerce_row. simpl.
      destruct (decide (c ∈ columns df)) as [H|H]; [|reflexivity].
      apply has_col_iff in H. congruence.
Qed.

Lemma drop_seen_sublist c seen rs : sublist (drop_seen c seen rs) rs.
Proof.
  revert seen. induction rs as [|r rs IH]; intros seen; simpl; [constructor|].
  destruct (decide (get r c ∈ seen)).
  - apply sublist_cons, IH.
  - apply sublist_skip, IH.
Qed.

Lemma kept_rows_coerced parse df r :
  r ∈ kept_rows parse df ->
  exists r0, r0 ∈ rows df
    /\ r = coerce_row parse (columns df) data_fetcher.numeric_columns r0.
Proof.
  intros H. unfold kept_rows in H.
  apply (sublist_subseteq _ _ (drop_seen_sublist _ _ _)) in H.
  apply list_elem_of_filter in H as [_ H].
  apply list_elem_of_filter in H as [_ H].
  apply list_elem_of_fmap in H as (r0 & -> & H). eauto.
Qed.

Lemma kept_rows_float parse df c :
  c ∈ data_fetcher.numeric_columns -> c ∈ columns df ->
  float_column (kept_rows parse df) c.
Proof.
  intros Hc Hd. apply Forall_forall. intros r Hr.
  apply kept_rows_coerced in Hr as (r0 & _ & ->).
  rewrite coerce_row_get, decide_True by (split; assumption).
  apply to_numeric_cell_not_str.
Qed.

Lemma kept_rows_numeric parse df c :
  c ∈ data_fetcher.numeric_columns ->
  numeric (mkFrame (columns df) (kept_rows parse df)) c.
Proof.
  intros Hc. unfold numeric, value. simpl.
  destruct (has_col _ c) eqn:E.
  - apply has_col_iff in E. simpl in E. apply kept_rows_float; assumption.
  - apply Forall_forall. reflexivity.
Qed.

Lemma dropna_subset_ok cols df :
  Forall (fun c => c ∈ columns df) cols ->
  dropna_subset cols df
  = Ok (mkFrame (columns df)
          (filter (fun r => Forall (fun c => get r c <> Null) cols) (rows df))).
Proof.
  intros H. unfold dropna_subset, missing_column.
  replace (filter (fun c => c ∉ columns df) cols) with (@nil string); [reflexivity|].
  symmetry. induction H as [|c cols Hc _ IH]; [reflexivity|].
  rewrite filter_cons_False by (intros Hn; apply Hn; exact Hc). exact IH.
Qed.

Lemma in_numeric_columns c :
  bool_decide (c ∈ data_fetcher.numeric_columns) = true ->
  c ∈ data_fetcher.numeric_columns.
Proof. apply bool_decide_eq_true. Qed.

Lemma bind_ok {A B} (a : A) (k : A -> result B) : (Ok a ≫= k) = k a.
Proof. reflexivity. Qed.

Lemma elem_of_add_column cols c c' : c' ∈ cols -> c' ∈ add_column cols c.
Proof.
  intros H. unfold add_column. destruct (bool_decide (c ∈ cols)); [exact H|].
  apply elem_of_app. left. exact H.
Qed.

Lemma elem_of_add_column_ne cols c c' :
  c <> c' -> c' ∈ add_column cols c <-> c' ∈ cols.
Proof.
  intros Hne. unfold add_column. destruct (bool_decide (c ∈ cols)); [reflexivity|].
  rewrite elem_of_app, list_elem_of_singleton. intuition congruence.
Qed.

Lemma assign_mapped cols (f : Row -> Row) (G : Row -> cell) rs c :
  assign (mkFrame cols (map f rs)) c (map G rs)
  = mkFrame (add_column cols c) (map (fun r => set_cell c (G r) (f r)) rs).
Proof.
  unfold assign, add_column, has_col. simpl. f_equal. apply zip_with_map_same.
Qed.

Lemma assign_base cols (G : Row -> cell) rs c :
  assign (mkFrame cols rs) c (map G rs)
  = mkFrame (add_column cols c) (map (fun r => set_cell c (G r) r) rs).
Proof.
  unfold assign, add_column, has_col. simpl. f_equal. apply zip_with_map_l.
Qed.

Lemma column_mapped cols (f : Row -> Row) rs c :
  c ∈ cols ->
  column (mkFrame cols (map f rs)) c = Ok (map (fun r => get (f r) c) rs).
Proof.
  intros H. unfold column.
  assert (has_col (mkFrame cols (map f rs)) c = true) as ->
    by (apply has_col_iff; exact H).
  simpl. rewrite map_map. reflexivity.
Qed.

Lemma cut_mapped (g : Row -> cell) rs bins labels :
  Forall (fun r => is_str (g r) = false) rs ->
  cut (map g rs) bins labels = Ok (map (fun r => cut_value bins labels (g r)) rs).
Proof.
  intros H. apply map_result_map. intros r Hr.
  rewrite Forall_forall in H. specialize (H r Hr).
  destruct (g r); simpl; try reflexivity; [|discriminate].
  destruct (decide _); reflexivity.
Qed.

Lemma value_mapped cols rs r c c' v :
  c <> c' ->
  value (mkFrame (add_column cols c) rs) (set_cell c v r) c'
  = value (mkFrame cols []) r c'.
Proof.
  intros Hne. unfold value, has_col. simpl.
  rewrite (bool_decide_ext _ _ (elem_of_add_column_ne cols c c' Hne)).
  rewrite get_set_cell_ne by exact Hne. reflexivity.
Qed.

Lemma numeric_mapped cols rs c c' (G : Row -> cell) :
  c <> c' ->
  numeric (mkFrame cols rs) c' ->
  numeric (mkFrame (add_column cols c) (map (fun r => set_cell c (G r) r) rs)) c'.
Proof.
  intros Hne H. unfold numeric in *. simpl in *. rewrite Forall_fmap.
  eapply Forall_impl; [exact H|]. intros r Hr. simpl.
  rewrite value_mapped by exact Hne. exact Hr.
Qed.

Lemma column_missing cols rs c :
  c ∉ cols -> column (mkFrame cols rs) c = Err (KeyError c).
Proof.
  intros H. unfold column, has_col. simpl.
  rewrite bool_decide_eq_false_2 by exact H. reflexivity.
Qed.

Lemma empty_frame_cases df :
  df_empty df = true -> rows df = [] \/ columns df = [].
Proof.
  unfold df_empty. destruct (rows df); [left; reflexivity|].
  destruct (columns df); [right; reflexivity|discriminate].
Qed.

(** On a frame that has the column, also on an empty one. *)
Lemma drop_duplicates_present c df :
  c ∈ columns df ->
  drop_duplicates c df = Ok (mkFrame (columns df) (drop_seen c [] (rows df))).
Proof.
  intros Hc. unfold drop_duplicates. destruct (df_empty df) eqn:He.
  - destruct (empty_frame_cases df He) as [Hr|Hn].
    + rewrite Hr. destruct df as [cols rs]. simpl in Hr. subst rs. reflexivity.
    + rewrite Hn in Hc. apply elem_of_nil in Hc. destruct Hc.
  - replace (has_col df c) with true by (symmetry; apply has_col_iff; exact Hc).
    reflexivity.
Qed.

(** The cleaning pass of the fetcher in closed form. *)
Lemma clean_closed_form parse now df :
  df_empty df = false ->
  "pl_name" ∈ columns df ->
  data_fetcher.clean_exoplanet_data parse now df
  = if decide ("disc_year" ∈ columns df) then
      if decide ("sy_dist" ∈ columns df) then
        Ok (mkFrame (cleaned_columns df) (map (derive df now) (kept_rows parse df)))
      else Err (KeyError "sy_dist")
    else Err (KeyError "disc_year").
Proof.
  intros He Hn. unfold data_fetcher.clean_exoplanet_data. rewrite He.
  rewrite coerce_columns_rows, bind_ok.
  unfold dropna_all at 1. cbn [columns rows].
  rewrite dropna_subset_ok by (repeat constructor; exact Hn).
  rewrite bind_ok. cbn [columns rows].
  rewrite drop_duplicates_present by exact Hn.
  rewrite bind_ok. cbn [columns rows]. fold (kept_rows parse df).
  set (rs := kept_rows parse df).
  assert (N : forall c, bool_decide (c ∈ data_fetcher.numeric_columns) = true ->
                        numeric (mkFrame (columns df) rs) c).
  { intros c Hc. apply kept_rows_numeric, in_numeric_columns, Hc. }
  rewrite (calculate_series (mkFrame (columns df) rs)) by (apply N; reflexivity).
  rewrite bind_ok. cbn [rows]. rewrite map_map.
  rewrite assign_base.
  rewrite classify_series.
  2:{ apply (numeric_mapped _ rs "habitability_score" "pl_rade"); [discriminate|].
      apply N. reflexivity. }
  rewrite bind_ok. cbn [rows]. rewrite !map_map. rewrite assign_mapped.
  destruct (decide ("disc_year" ∈ columns df)) as [Hy|Hy].
  2:{ rewrite column_missing; [reflexivity|].
      rewrite !elem_of_add_column_ne by discriminate. exact Hy. }
  rewrite column_mapped by (do 2 apply elem_of_add_column; exact Hy).
  rewrite bind_ok.
  rewrite cut_mapped.
  2:{ apply Forall_forall. intros r Hr.
      rewrite !get_set_cell_ne by discriminate.
      pose proof (kept_rows_float parse df "disc_year") as F.
      unfold float_column in F. rewrite Forall_forall in F. apply F; [|exact Hy|exact Hr].
      apply in_numeric_columns. reflexivity. }
  rewrite bind_ok, assign_mapped.
  destruct (decide ("sy_dist" ∈ columns df)) as [Hd|Hd].
  2:{ rewrite column_missing; [reflexivity|].
      rewrite !elem_of_add_column_ne by discriminate. exact Hd. }
  rewrite column_mapped by (do 3 apply elem_of_add_column; exact Hd).
  rewrite bind_ok.
  rewrite cut_mapped.
  2:{ apply Forall_forall. intros r Hr.
      rewrite !get_set_cell_ne by discriminate.
      pose proof (kept_rows_float parse df "sy_dist") as F.
      unfold float_column in F. rewrite Forall_forall in F. apply F; [|exact Hd|exact Hr].
      apply in_numeric_columns. reflexivity. }
  rewrite bind_ok, assign_mapped. cbn [rows]. rewrite map_map, assign_mapped.
  unfold cleaned_columns. f_equal. f_equal. apply map_ext. intros r. unfold derive.
  rewrite !get_set_cell_ne by discriminate.
  rewrite value_mapped by discriminate.
  reflexivity.
Qed.

(** ** Binning *)

Lemma number_with_num x (P : number -> Prop) : number_with (Num x) P <-> P x.
Proof.
  unfold number_with. split; [intros (y & [= <-] & H); exact H | eauto].
Qed.

Lemma number_with_null (P : number -> Prop) : ~ number_with Null P.
Proof. intros (y & H & _). discriminate. Qed.

Lemma num_leb_mono x a b :
  num_leb a b = true -> num_leb x a = true -> num_leb x b = true.
Proof. intros H1 H2. eapply num_leb_trans; eassumption. Qed.

Lemma edges_below_cons x b bs :
  length (filter (fun b => num_ltb b x = true) (b :: bs))
  = ((if num_ltb b x then 1 else 0)
     + length (filter (fun b => num_ltb b x = true) bs))%nat.
Proof.
  rewrite filter_cons. destruct (num_ltb b x); simpl; reflexivity.
Qed.

Ltac settle_bin :=
  clear; cbn;
  match goal with
  | |- context [decide ?P] =>
      destruct (decide P) as [[H|H]|H];
      try discriminate H;
      try (exfalso; apply H; first [left; reflexivity | right; reflexivity])
  end;
  intuition congruence.

Lemma cut_value_era v :
  is_str v = false ->
  era_of v (cut_value data_fetcher.era_bins data_fetcher.era_labels v).
Proof.
  intros Hs. destruct v as [|x|s]; [| |discriminate].
  - unfold era_of, in_bin. simpl.
    repeat split; intros; try discriminate; try reflexivity;
      try (exfalso; eapply number_with_null; eassumption);
      apply number_with_null.
  - unfold era_of, in_bin, cut_value, data_fetcher.era_bins.
    rewrite !number_with_num. unfold num_lt. rewrite <- !num_leb_le.
    rewrite !edges_below_cons, filter_nil. unfold num_ltb.
    pose proof (num_leb_mono x (qz 0) (qz 2000) eq_refl) as T1.
    pose proof (num_leb_mono x (qz 2000) (qz 2010) eq_refl) as T2.
    pose proof (num_leb_mono x (qz 2010) (qz 2015) eq_refl) as T3.
    pose proof (num_leb_mono x (qz 2015) (qz 2020) eq_refl) as T4.
    pose proof (num_leb_mono x (qz 2020) (qz 2030) eq_refl) as T5.
    revert T1 T2 T3 T4 T5.
    generalize (num_leb x (qz 0)) (num_leb x (qz 2000)) (num_leb x (qz 2010))
               (num_leb x (qz 2015)) (num_leb x (qz 2020)) (num_leb x (qz 2030)).
    intros [] [] [] [] [] [] T1 T2 T3 T4 T5;
      try (specialize (T1 eq_refl)); try (specialize (T2 eq_refl));
      try (specialize (T3 eq_refl)); try (specialize (T4 eq_refl));
      try (specialize (T5 eq_refl)); try discriminate;
      settle_bin.
Qed.

Lemma cut_value_distance v :
  is_str v = false ->
  distance_of v (cut_value data_fetcher.distance_bins data_fetcher.distance_labels v).
Proof.
  intros Hs. destruct v as [|x|s]; [| |discriminate].
  - unfold distance_of, in_bin. simpl.
    repeat split; intros; try discriminate; try reflexivity;
      try (exfalso; eapply number_with_null; eassumption);
      apply number_with_null.
  - unfold distance_of, in_bin, cut_value, data_fetcher.distance_bins.
    rewrite !number_with_num. unfold num_lt. rewrite <- !num_leb_le.
    rewrite !edges_below_cons, filter_nil. unfold num_ltb.
    pose proof (num_leb_mono x (qz 0) (qz 50) eq_refl) as T1.
    pose proof (num_leb_mono x (qz 50) (qz 100) eq_refl) as T2.
    pose proof (num_leb_mono x (qz 100) (qz 500) eq_refl) as T3.
    pose proof (num_leb_mono x (qz 500) (qz 10000) eq_refl) as T4.
    revert T1 T2 T3 T4.
    generalize (num_leb x (qz 0)) (num_leb x (qz 50)) (num_leb x (qz 100))
               (num_leb x (qz 500)) (num_leb x (qz 10000)).
    intros [] [] [] [] [] T1 T2 T3 T4;
      try (specialize (T1 eq_refl)); try (specialize (T2 eq_refl));
      try (specialize (T3 eq_refl)); try (specialize (T4 eq_refl));
      try discriminate;
      settle_bin.
Qed.

(** The categories of a row the cleaning pass returns are those of its own
    year and distance. *)
Lemma kept_row_bins parse now df r :
  "disc_year" ∈ columns df -> "sy_dist" ∈ columns df ->
  r ∈ kept_rows parse df ->
  era_of (get (derive df now r) "disc_year") (get (derive df now r) "discovery_era")
  /\ distance_of (get (derive df now r) "sy_dist")
       (get (derive df now r) "distance_category").
Proof.
  intros Hy Hd Hr. unfold derive.
  repeat (rewrite get_set_cell; simpl).
  pose proof (kept_rows_float parse df "disc_year") as Fy.
  pose proof (kept_rows_float parse df "sy_dist") as Fd.
  unfold float_column in Fy, Fd. rewrite Forall_forall in Fy, Fd.
  split.
  - apply cut_value_era. apply Fy; [apply in_numeric_columns; reflexivity|exact Hy|exact Hr].
  - apply cut_value_distance.
    apply Fd; [apply in_numeric_columns; reflexivity|exact Hd|exact Hr].
Qed.

(** ** Deduplication *)

Lemma filter_map {A B} (P : B -> Prop) `{!forall y, Decision (P y)} (f : A -> B) l :
  filter P (map f l) = map f (filter (fun x => P (f x)) l).
Proof.
  induction l as [|a l IH]; [reflexivity|]. simpl.
  rewrite !filter_cons. destruct (decide (P (f a))); simpl; rewrite IH; reflexivity.
Qed.

Lemma drop_seen_map (f : Row -> Row) c seen l :
  (forall r, get (f r) c = get r c) ->
  drop_seen c seen (map f l) = map f (drop_seen c seen l).
Proof.
  intros Hf. revert seen. induction l as [|a l IH]; intros seen; [reflexivity|].
  simpl. rewrite Hf. destruct (decide (get a c ∈ seen)); simpl; rewrite IH; reflexivity.
Qed.

Lemma drop_seen_not_seen c seen l r :
  r ∈ drop_seen c seen l -> get r c ∉ seen.
Proof.
  revert seen. induction l as [|a l IH]; intros seen H; simpl in H.
  - apply elem_of_nil in H. destruct H.
  - destruct (decide (get a c ∈ seen)) as [Ha|Ha].
    + apply IH in H. intros Hs. apply H. right. exact Hs.
    + apply elem_of_cons in H as [->|H]; [exact Ha|].
      apply IH in H. intros Hs. apply H. right. exact Hs.
Qed.

Lemma drop_seen_NoDup c seen l :
  NoDup (map (fun r => get r c) (drop_seen c seen l)).
Proof.
  revert seen. induction l as [|a l IH]; intros seen; simpl; [constructor|].
  destruct (decide (get a c ∈ seen)); [apply IH|].
  simpl. apply NoDup_cons. split; [|apply IH].
  intros H. apply list_elem_of_fmap in H as (r & Hr & Hin).
  apply drop_seen_not_seen in Hin. apply Hin. rewrite Hr. left.
Qed.

Lemma drop_seen_filter_first (P : Row -> Prop) `{!forall r, Decision (P r)}
  c seen l r0 :
  r0 ∈ drop_seen c seen (filter P l) ->
  (forall r, r ∈ l -> get r c = get r0 c -> P r) ->
  exists before after,
    l = before ++ r0 :: after /\ Forall (fun r1 => get r1 c <> get r0 c) before.
Proof.
  revert seen. induction l as [|a l IH]; intros seen Hin HP.
  - rewrite filter_nil in Hin. simpl in Hin. apply elem_of_nil in Hin. destruct Hin.
  - assert (HP' : forall r, r ∈ l -> get r c = get r0 c -> P r).
    { intros r Hr. apply HP. right. exact Hr. }
    rewrite filter_cons in Hin. destruct (decide (P a)) as [Pa|Pa].
    + simpl in Hin. destruct (decide (get a c ∈ seen)) as [Ha|Ha].
      * pose proof (drop_seen_not_seen _ _ _ _ Hin) as Hn.
        destruct (IH _ Hin HP') as (l1 & l2 & -> & Hl).
        exists (a :: l1), l2. split; [reflexivity|].
        constructor; [|exact Hl]. intros E. apply Hn. rewrite <- E. left.
      * apply elem_of_cons in Hin as [->|Hin].
        -- exists [], l. split; [reflexivity|constructor].
        -- pose proof (drop_seen_not_seen _ _ _ _ Hin) as Hn.
           destruct (IH _ Hin HP') as (l1 & l2 & -> & Hl).
           exists (a :: l1), l2. split; [reflexivity|].
           constructor; [|exact Hl]. intros E. apply Hn. rewrite <- E. left.
    + destruct (IH _ Hin HP') as (l1 & l2 & -> & Hl).
      exists (a :: l1), l2. split; [reflexivity|].
      constructor; [|exact Hl]. intros E. apply Pa. apply HP; [left|exact E].
Qed.

Lemma label_set_cell c v r : label (set_cell c v r) = label r.
Proof. reflexivity. Qed.

Lemma fetcher_row_label parse now df r : label (fetcher_row parse now df r) = label r.
Proof. unfold fetcher_row, derive. rewrite !label_set_cell. apply coerce_row_label. Qed.

Ltac not_in_list :=
  let H := fresh "H" in
  intros H;
  repeat (apply elem_of_cons in H as [H|H]; [discriminate H|]);
  apply elem_of_nil in H; exact H.

Lemma coerce_row_pl_name parse dfcols r :
  get (coerce_row parse dfcols data_fetcher.numeric_columns r) "pl_name"
  = get r "pl_name".
Proof.
  rewrite coerce_row_get.
  rewrite decide_False; [reflexivity|].
  intros [H _]. revert H. unfold data_fetcher.numeric_columns. not_in_list.
Qed.

Lemma set_cell_chain_get (c1 c2 c3 c4 c5 c : string) v1 v2 v3 v4 v5 r :
  c1 <> c -> c2 <> c -> c3 <> c -> c4 <> c -> c5 <> c ->
  get (set_cell c1 v1 (set_cell c2 v2 (set_cell c3 v3 (set_cell c4 v4 (set_cell c5 v5 r))))) c
  = get r c.
Proof.
  intros. rewrite !get_set_cell_ne by assumption. reflexivity.
Qed.

(** The derived columns are the only entries [derive] touches. *)
Lemma derive_get df now r c :
  c ∉ ["habitability_score"; "planet_type"; "discovery_era"; "distance_category";
       "data_fetched_at"]%string ->
  get (derive df now r) c = get r c.
Proof.
  intros H. unfold derive.
  apply set_cell_chain_get; intros E; apply H; rewrite <- E; repeat constructor.
Qed.

Lemma fetcher_row_pl_name parse now df r :
  get (fetcher_row parse now df r) "pl_name" = get r "pl_name".
Proof.
  unfold fetcher_row. rewrite derive_get by not_in_list.
  apply coerce_row_pl_name.
Qed.

Lemma filter_filter_map {A B} (P1 P2 : B -> Prop) (f : A -> B)
  `{!forall y, Decision (P1 y)} `{!forall y, Decision (P2 y)}
  `{!forall x, Decision (P1 (f x) /\ P2 (f x))} l :
  filter P1 (filter P2 (map f l))
  = map f (filter (fun x => P1 (f x) /\ P2 (f x)) l).
Proof.
  induction l as [|a l IH]; [reflexivity|].
  cbn [map]. rewrite !filter_cons.
  destruct (decide (P2 (f a))) as [Q2|Q2].
  - rewrite filter_cons. destruct (decide (P1 (f a))) as [Q1|Q1].
    + rewrite decide_True by (split; assumption). cbn [map]. rewrite IH. reflexivity.
    + rewrite decide_False by (intros [? ?]; contradiction). exact IH.
  - rewrite decide_False by (intros [? ?]; contradiction). exact IH.
Qed.

Lemma kept_rows_fetcher_kept parse df :
  kept_rows parse df
  = map (coerce_row parse (columns df) data_fetcher.numeric_columns)
      (fetcher_kept parse df).
Proof.
  unfold kept_rows, fetcher_kept.
  rewrite <- drop_seen_map by (intros r; apply coerce_row_pl_name).
  f_equal.
  apply (filter_filter_map
           (fun r => Forall (fun c => get r c <> Null) ["pl_name"%string])
           (fun r => ~ Forall (fun c => get r c = Null) (columns df))
           (coerce_row parse (columns df) data_fetcher.numeric_columns)).
Qed.

Lemma fetcher_kept_first parse df r0 :
  "pl_name" ∈ columns df ->
  r0 ∈ fetcher_kept parse df -> first_occurrence (rows df) r0.
Proof.
  intros Hn Hr. unfold first_occurrence. unfold fetcher_kept in Hr.
  assert (Hnn : get r0 "pl_name" <> Null).
  { apply (sublist_subseteq _ _ (drop_seen_sublist _ _ _)) in Hr.
    apply list_elem_of_filter in Hr as [[Hq _] _].
    inversion Hq as [|? ? Hq' _]; subst.
    rewrite coerce_row_pl_name in Hq'. exact Hq'. }
  eapply drop_seen_filter_first; [exact Hr|].
  intros r _ E. split.
  - constructor; [|constructor]. rewrite coerce_row_pl_name, E. exact Hnn.
  - intros Hall. rewrite Forall_forall in Hall. specialize (Hall _ Hn).
    rewrite coerce_row_pl_name, E in Hall. contradiction.
Qed.

Lemma filter_all {A} (l : list A) : filter (fun _ => True) l = l.
Proof.
  induction l as [|a l IH]; [reflexivity|].
  rewrite filter_cons_True by exact I. rewrite IH. reflexivity.
Qed.

Lemma drop_seen_first c l r0 :
  r0 ∈ drop_seen c [] l ->
  exists before after,
    l = before ++ r0 :: after /\ Forall (fun r1 => get r1 c <> get r0 c) before.
Proof.
  intros H. apply (drop_seen_filter_first (fun _ => True) c [] l r0).
  - rewrite filter_all. exact H.
  - intros. exact I.
Qed.

Lemma missing_column_frame cols rs rs' l :
  missing_column (mkFrame cols rs) l = missing_column (mkFrame cols rs') l.
Proof. reflexivity. Qed.

Lemma missing_column_none df l :
  missing_column df l = None -> Forall (fun c => c ∈ columns df) l.
Proof.
  unfold missing_column. induction l as [|c l IH]; intros H; [constructor|].
  rewrite filter_cons in H. destruct (decide (c ∉ columns df)) as [Hc|Hc].
  - discriminate.
  - constructor; [|apply IH; exact H].
    destruct (decide (c ∈ columns df)); [assumption|contradiction].
Qed.

Lemma missing_column_present df l :
  Forall (fun c => c ∈ columns df) l -> missing_column df l = None.
Proof.
  intros H. unfold missing_column. induction H as [|c l Hc _ IH]; [reflexivity|].
  rewrite filter_cons_False by (intros Hn; apply Hn; exact Hc). exact IH.
Qed.

Lemma add_column_present cols c : c ∈ cols -> add_column cols c = cols.
Proof. intros H. unfold add_column. rewrite bool_decide_eq_true_2 by exact H. reflexivity. Qed.

Lemma column_base cols rs c :
  c ∈ cols -> column (mkFrame cols rs) c = Ok (map (fun r => get r c) rs).
Proof.
  intros H. unfold column.
  assert (has_col (mkFrame cols rs) c = true) as ->
    by (apply has_col_iff; exact H).
  reflexivity.
Qed.

(** The cleaning function of data_extraction.py in closed form, once the
    duplicates are dropped. *)
Lemma extraction_after_drop parse df :
  drop_duplicates "pl_name" df
  = Ok (mkFrame (columns df) (drop_seen "pl_name" [] (rows df))) ->
  data_extraction.clean_exoplanet_data parse df
  = if decide ("disc_year" ∈ columns df) then
      match missing_column df ["pl_rade"; "pl_eqt"; "pl_orbper"]%string with
      | Some c => Err (KeyError c)
      | None =>
          Ok (mkFrame (columns df)
                (map (extraction_row parse df) (extraction_kept parse df)))
      end
    else Err (KeyError "disc_year").
Proof.
  intros Hn. unfold data_extraction.clean_exoplanet_data.
  rewrite Hn, bind_ok.
  destruct (decide ("disc_year" ∈ columns df)) as [Hy|Hy].
  2:{ rewrite column_missing by exact Hy. reflexivity. }
  rewrite column_base by exact Hy. rewrite bind_ok.
  unfold to_numeric. rewrite map_map, assign_base.
  rewrite add_column_present by exact Hy.
  destruct (missing_column df _) as [c|] eqn:Hm.
  - unfold dropna_subset.
    rewrite (missing_column_frame _ _ (rows df)). destruct df as [cols rs].
    simpl in *. rewrite Hm. reflexivity.
  - rewrite dropna_subset_ok by (apply missing_column_none in Hm; exact Hm).
    rewrite bind_ok. cbn [columns rows].
    rewrite coerce_columns_rows, bind_ok. cbn [columns rows].
    f_equal. f_equal.
    rewrite (filter_map (fun r => Forall (fun c => get r c <> Null)
                                    ["pl_rade"; "pl_eqt"; "pl_orbper"]%string)).
    rewrite map_map. reflexivity.
Qed.

(** The cleaning function of data_extraction.py in closed form. *)
Lemma extraction_closed_form parse df :
  "pl_name" ∈ columns df ->
  data_extraction.clean_exoplanet_data parse df
  = if decide ("disc_year" ∈ columns df) then
      match missing_column df ["pl_rade"; "pl_eqt"; "pl_orbper"]%string with
      | Some c => Err (KeyError c)
      | None =>
          Ok (mkFrame (columns df)
                (map (extraction_row parse df) (extraction_kept parse df)))
      end
    else Err (KeyError "disc_year").
Proof.
  intros Hn. apply extraction_after_drop, drop_duplicates_present, Hn.
Qed.

Lemma extraction_row_label parse df r : label (extraction_row parse df r) = label r.
Proof. unfold extraction_row. rewrite coerce_row_label. reflexivity. Qed.

Lemma extraction_row_pl_name parse df r :
  get (extraction_row parse df r) "pl_name" = get r "pl_name".
Proof.
  unfold extraction_row. rewrite coerce_row_get.
  rewrite decide_False.
  - apply get_set_cell_ne. discriminate.
  - intros [H _]. revert H. unfold data_extraction.numeric_cols. not_in_list.
Qed.

Lemma empty_frame_no_rows df c :
  df_empty df = true -> c ∈ columns df -> rows df = [].
Proof.
  unfold df_empty. intros He Hc. destruct (rows df) as [|r rs]; [reflexivity|].
  destruct (columns df); [|discriminate]. apply elem_of_nil in Hc. destruct Hc.
Qed.

Lemma fetcher_keeps_first parse now df out :
  "pl_name" ∈ columns df ->
  data_fetcher.clean_exoplanet_data parse now df = Ok out ->
  keeps_first_of_each_name (fetcher_row parse now df) (rows df) (rows out).
Proof.
  intros Hn Hc. destruct (df_empty df) eqn:He.
  - unfold data_fetcher.clean_exoplanet_data in Hc. rewrite He in Hc.
    injection Hc as <-. rewrite (empty_frame_no_rows df _ He Hn).
    exists []. repeat split; constructor.
  - rewrite (clean_closed_form parse now df He Hn) in Hc.
    destruct (decide ("disc_year" ∈ columns df)); [|discriminate].
    destruct (decide ("sy_dist" ∈ columns df)); [|discriminate].
    injection Hc as <-. cbn [rows].
    exists (fetcher_kept parse df). split; [|split; [|split; [|split]]].
    + rewrite kept_rows_fetcher_kept, map_map. reflexivity.
    + unfold fetcher_kept. etransitivity; [apply drop_seen_sublist|].
      apply sublist_filter.
    + rewrite kept_rows_fetcher_kept, !map_map.
      rewrite (map_ext _ (fun r => get r "pl_name"))
        by (intros r; apply (fetcher_row_pl_name parse now df r)).
      unfold fetcher_kept. apply drop_seen_NoDup.
    + apply Forall_forall. intros r0 Hr. apply (fetcher_kept_first parse df r0 Hn Hr).
    + apply Forall_forall. intros r0 _. split.
      * apply fetcher_row_label.
      * apply fetcher_row_pl_name.
Qed.

Lemma extraction_keeps_first parse df out :
  "pl_name" ∈ columns df ->
  data_extraction.clean_exoplanet_data parse df = Ok out ->
  keeps_first_of_each_name (extraction_row parse df) (rows df) (rows out).
Proof.
  intros Hn Hc. rewrite (extraction_closed_form parse df Hn) in Hc.
  destruct (decide ("disc_year" ∈ columns df)); [|discriminate].
  destruct (missing_column df _); [discriminate|].
  injection Hc as <-. cbn [rows].
  exists (extraction_kept parse df). split; [|split; [|split; [|split]]].
  - reflexivity.
  - unfold extraction_kept. etransitivity; [apply sublist_filter|].
    apply drop_seen_sublist.
  - rewrite map_map.
    rewrite (map_ext _ (fun r => get r "pl_name"))
      by (intros r; apply (extraction_row_pl_name parse df r)).
    eapply sublist_NoDup; [apply (drop_seen_NoDup "pl_name" [] (rows df))|].
    unfold extraction_kept. apply (fmap_sublist _), sublist_filter.
  - apply Forall_forall. intros r0 Hr. unfold extraction_kept in Hr.
    apply list_elem_of_filter in Hr as [_ Hr].
    apply (drop_seen_first "pl_name" (rows df) r0 Hr).
  - apply Forall_forall. intros r0 _. split.
    + apply extraction_row_label.
    + apply extraction_row_pl_name.
Qed.

(** Every first occurrence reaches the output of the deduplication. *)
Lemma drop_seen_complete c seen before r0 after :
  Forall (fun r1 => get r1 c <> get r0 c) before ->
  get r0 c ∉ seen ->
  r0 ∈ drop_seen c seen (before ++ r0 :: after).
Proof.
  revert seen. induction before as [|a before IH]; intros seen F Hs.
  - cbn [app drop_seen]. rewrite decide_False by exact Hs. left.
  - apply Forall_cons in F as [Fa F]. cbn [app drop_seen].
    assert (get r0 c ∉ get a c :: seen) as Hs'.
    { intros H. apply elem_of_cons in H as [H|H]; [|contradiction].
      apply Fa. symmetry. exact H. }
    destruct (decide (get a c ∈ seen)); [apply IH; assumption|].
    right. apply IH; assumption.
Qed.

(** Every row has a first occurrence of its name. *)
Lemma first_occurrence_exists l r :
  r ∈ l ->
  exists r0, first_occurrence l r0 /\ get r0 "pl_name" = get r "pl_name".
Proof.
  induction l as [|a l IH]; intros Hr; [apply elem_of_nil in Hr; destruct Hr|].
  destruct (decide (get a "pl_name" = get r "pl_name")) as [E|E].
  - exists a. split; [|exact E]. exists [], l. split; [reflexivity|constructor].
  - apply elem_of_cons in Hr as [->|Hr]; [contradiction|].
    destruct (IH Hr) as (r0 & (before & after & El & F) & E0).
    exists r0. split; [|exact E0].
    exists (a :: before), after. split; [rewrite El; reflexivity|].
    constructor; [rewrite E0; exact E|exact F].
Qed.

Lemma fetcher_kept_complete parse df r0 :
  "pl_name" ∈ columns df ->
  first_occurrence (rows df) r0 -> get r0 "pl_name" <> Null ->
  r0 ∈ fetcher_kept parse df.
Proof.
  intros Hn (before & after & E & F) Hnn. unfold fetcher_kept. rewrite E.
  rewrite filter_app, filter_cons_True.
  - apply drop_seen_complete; [|apply not_elem_of_nil].
    apply Forall_forall. intros r Hr. apply list_elem_of_filter in Hr as [_ Hr].
    rewrite Forall_forall in F. apply F, Hr.
  - split.
    + constructor; [|constructor]. rewrite coerce_row_pl_name. exact Hnn.
    + intros Hall. rewrite Forall_forall in Hall. specialize (Hall _ Hn).
      rewrite coerce_row_pl_name in Hall. contradiction.
Qed.

Lemma extraction_kept_complete parse df r0 :
  first_occurrence (rows df) r0 ->
  Forall (fun c => get r0 c <> Null) ["pl_rade"; "pl_eqt"; "pl_orbper"]%string ->
  r0 ∈ extraction_kept parse df.
Proof.
  intros (before & after & E & F) Hc. unfold extraction_kept.
  apply list_elem_of_filter. split.
  - apply Forall_forall. intros c Hin. rewrite Forall_forall in Hc.
    rewrite get_set_cell_ne; [apply Hc, Hin|].
    intros <-. revert Hin. not_in_list.
  - rewrite E. apply drop_seen_complete; [exact F|apply not_elem_of_nil].
Qed.

(** The rows the fetcher's cleaning pass returns for a frame that is not
    empty. *)
Lemma clean_rows_fetcher parse now df out :
  df_empty df = false -> "pl_name" ∈ columns df ->
  data_fetcher.clean_exoplanet_data parse now df = Ok out ->
  rows out = map (fetcher_row parse now df) (fetcher_kept parse df).
Proof.
  intros He Hn Hc. rewrite (clean_closed_form parse now df He Hn) in Hc.
  destruct (decide ("disc_year" ∈ columns df)); [|discriminate].
  destruct (decide ("sy_dist" ∈ columns df)); [|discriminate].
  injection Hc as <-. cbn [rows].
  rewrite kept_rows_fetcher_kept, map_map. reflexivity.
Qed.

Lemma fetcher_reaches_output parse now df out r0 :
  "pl_name" ∈ columns df ->
  data_fetcher.clean_exoplanet_data parse now df = Ok out ->
  first_occurrence (rows df) r0 -> get r0 "pl_name" <> Null ->
  fetcher_row parse now df r0 ∈ rows out.
Proof.
  intros Hn Hc Hf Hnn. destruct (df_empty df) eqn:He.
  - exfalso. destruct Hf as (before & after & E & _).
    rewrite (empty_frame_no_rows df _ He Hn) in E.
    destruct before; discriminate.
  - rewrite (clean_rows_fetcher parse now df out He Hn Hc).
    apply list_elem_of_fmap. exists r0. split; [reflexivity|].
    apply fetcher_kept_complete; assumption.
Qed.

Lemma extraction_reaches_output parse df out r0 :
  "pl_name" ∈ columns df ->
  data_extraction.clean_exoplanet_data parse df = Ok out ->
  first_occurrence (rows df) r0 ->
  Forall (fun c => get r0 c <> Null) ["pl_rade"; "pl_eqt"; "pl_orbper"]%string ->
  extraction_row parse df r0 ∈ rows out.
Proof.
  intros Hn Hc Hf Hcrit. rewrite (extraction_closed_form parse df Hn) in Hc.
  destruct (decide ("disc_year" ∈ columns df)); [|discriminate].
  destruct (missing_column df _); [discriminate|].
  injection Hc as <-. cbn [rows].
  apply list_elem_of_fmap. exists r0. split; [reflexivity|].
  apply extraction_kept_complete; assumption.
Qed.

(** C4. For every input frame with a pl_name column, both cleaning functions
    deduplicate on the planet name: whenever one of them returns a frame, its
    rows are made of rows of the input taken in their input order, no two
    output rows have the same pl_name, and every row kept is the first of its
    name in the input.  Nothing else is lost to the deduplication: the
    fetcher's function returns the row made of the first occurrence of every
    name that is not null, so every such name of the input is a name of the
    output; the function of data_extraction.py returns the row made of every
    first occurrence that has its three critical values.  The fetcher's
    function does return a frame when the input also has disc_year and
    sy_dist (or is empty), the one of data_extraction.py when the input also
    has disc_year, pl_rade, pl_eqt and pl_orbper. *)
Theorem clean_deduplicates_on_planet_name parse now (df : DataFrame) :
  "pl_name" ∈ columns df ->
  (forall out,
      data_fetcher.clean_exoplanet_data parse now df = Ok out ->
      keeps_first_of_each_name (fetcher_row parse now df) (rows df) (rows out)
      /\ (forall r0,
            first_occurrence (rows df) r0 -> get r0 "pl_name" <> Null ->
            fetcher_row parse now df r0 ∈ rows out)
      /\ (forall r,
            r ∈ rows df -> get r "pl_name" <> Null ->
            get r "pl_name" ∈ map (fun r' => get r' "pl_name") (rows out)))
  /\ ("disc_year" ∈ columns df -> "sy_dist" ∈ columns df ->
      exists out, data_fetcher.clean_exoplanet_data parse now df = Ok out)
  /\ (forall out,
        data_extraction.clean_exoplanet_data parse df = Ok out ->
        keeps_first_of_each_name (extraction_row parse df) (rows df) (rows out)
        /\ (forall r0,
              first_occurrence (rows df) r0 ->
              Forall (fun c => get r0 c <> Null) ["pl_rade"; "pl_eqt"; "pl_orbper"]%string ->
              extraction_row parse df r0 ∈ rows out))
  /\ ("disc_year" ∈ columns df ->
      Forall (fun c => c ∈ columns df) ["pl_rade"; "pl_eqt"; "pl_orbper"]%string ->
      exists out, data_extraction.clean_exoplanet_data parse df = Ok out).
Proof.
  intros Hn. split; [|split; [|split]].
  - intros out Hc. split; [apply fetcher_keeps_first; assumption|]. split.
    + intros r0. apply fetcher_reaches_output; assumption.
    + intros r Hr Hnn.
      destruct (first_occurrence_exists (rows df) r Hr) as (r0 & Hf & E).
      apply list_elem_of_fmap. exists (fetcher_row parse now df r0). split.
      * rewrite fetcher_row_pl_name. symmetry. exact E.
      * apply (fetcher_reaches_output parse now df out r0 Hn Hc Hf).
        rewrite E. exact Hnn.
  - intros Hy Hd. destruct (df_empty df) eqn:He.
    + exists df. unfold data_fetcher.clean_exoplanet_data. rewrite He. reflexivity.
    + rewrite (clean_closed_form parse now df He Hn), !decide_True by assumption.
      eexists. reflexivity.
  - intros out Hc. split; [apply extraction_keeps_first; assumption|].
    intros r0. apply extraction_reaches_output; assumption.
  - intros Hy Hc. rewrite (extraction_closed_form parse df Hn).
    rewrite decide_True by exact Hy.
    rewrite (missing_column_present df _ Hc). eexists. reflexivity.
Qed.

Lemma clean_deduplicates_witness :
  exists out,
    data_fetcher.clean_exoplanet_data (fun _ => None) "2026-01-01 00:00:00" catalogue
    = Ok out
    /\ keeps_first_of_each_name
         (fetcher_row (fun _ => None) "2026-01-01 00:00:00" catalogue)
         (rows catalogue) (rows out)
    /\ (forall r0,
          first_occurrence (rows catalogue) r0 -> get r0 "pl_name" <> Null ->
          fetcher_row (fun _ => None) "2026-01-01 00:00:00" catalogue r0 ∈ rows out)
    /\ (forall r,
          r ∈ rows catalogue -> get r "pl_name" <> Null ->
          get r "pl_name" ∈ map (fun r' => get r' "pl_name") (rows out)).
Proof.
  destruct (clean_deduplicates_on_planet_name
              (fun _ => None) "2026-01-01 00:00:00" catalogue)
    as (First & Returns & _).
  - repeat constructor.
  - destruct Returns as [out E]; [repeat constructor ..|].
    exists out. split; [exact E|]. apply First. exact E.
Defined.

Example clean_catalogue_labels :
  match data_fetcher.clean_exoplanet_data (fun _ => None) "2026-01-01 00:00:00"
          catalogue with
  | Ok out => map (fun r => (label r, get r "discovery_era")) (rows out)
  | Err _ => []
  end
  = [(0, Str "2010-2015"); (1, Null); (4, Str "2015-2020")]%nat.
Proof. vm_compute. reflexivity. Qed.

Example extraction_catalogue_labels :
  match data_extraction.clean_exoplanet_data (fun _ => None) catalogue with
  | Ok out => map label (rows out)
  | Err _ => []
  end
  = [0; 1; 3; 4]%nat.
Proof. vm_compute. reflexivity. Qed.

(** ** The eras and the distance categories *)

(** C7. Whenever the frame is not empty and has the columns pl_name,
    disc_year and sy_dist, [clean_exoplanet_data] returns a frame in which
    every row stands for a planet of the input, the first row of its name,
    with the index label, the name, and the year and the distance (made
    numbers) of that row; the row's discovery_era is the label of the one
    bin its disc_year falls in, (0, 2000] 'Pre-2000', (2000, 2010] '2000s',
    (2010, 2015] '2010-2015', (2015, 2020] '2015-2020', (2020, 2030] '2020+',
    and its distance_category the label of the bin of its sy_dist, (0, 50],
    (50, 100], (100, 500], (500, 10000]; a year or distance that is missing
    or outside the bins has a null category.  Every planet of the input, the
    first row of each name that is not null, has such a row in the frame,
    with the era of its own year and the category of its own distance. *)
Theorem clean_bins_era_and_distance parse now (df : DataFrame) :
  df_empty df = false ->
  "pl_name" ∈ columns df -> "disc_year" ∈ columns df -> "sy_dist" ∈ columns df ->
  exists out,
    data_fetcher.clean_exoplanet_data parse now df = Ok out
    /\ Forall (fun r =>
                era_of (get r "disc_year") (get r "discovery_era")
                /\ distance_of (get r "sy_dist") (get r "distance_category")
                /\ exists r0,
                     first_occurrence (rows df) r0
                     /\ label r = label r0
                     /\ get r "pl_name" = get r0 "pl_name"
                     /\ get r "disc_year" = to_numeric_cell parse (get r0 "disc_year")
                     /\ get r "sy_dist" = to_numeric_cell parse (get r0 "sy_dist"))
         (rows out)
    /\ (forall r0,
          first_occurrence (rows df) r0 -> get r0 "pl_name" <> Null ->
          exists r,
            r ∈ rows out
            /\ label r = label r0
            /\ get r "pl_name" = get r0 "pl_name"
            /\ era_of (to_numeric_cell parse (get r0 "disc_year"))
                 (get r "discovery_era")
            /\ distance_of (to_numeric_cell parse (get r0 "sy_dist"))
                 (get r "distance_category")).
Proof.
  intros He Hn Hy Hd.
  assert (O : exists out, data_fetcher.clean_exoplanet_data parse now df = Ok out).
  { rewrite (clean_closed_form parse now df He Hn), !decide_True by assumption.
    eexists. reflexivity. }
  destruct O as [out E]. exists out. split; [exact E|].
  pose proof (clean_rows_fetcher parse now df out He Hn E) as R.
  assert (Y : forall r0 c,
             c ∉ ["habitability_score"; "planet_type"; "discovery_era";
                  "distance_category"; "data_fetched_at"]%string ->
             c ∈ data_fetcher.numeric_columns -> c ∈ columns df ->
             get (fetcher_row parse now df r0) c = to_numeric_cell parse (get r0 c)).
  { intros r0 c Hder Hc Hcd. unfold fetcher_row.
    rewrite derive_get by exact Hder.
    rewrite coerce_row_get, decide_True by (split; assumption). reflexivity. }
  assert (B : forall r0,
             r0 ∈ fetcher_kept parse df ->
             era_of (get (fetcher_row parse now df r0) "disc_year")
               (get (fetcher_row parse now df r0) "discovery_era")
             /\ distance_of (get (fetcher_row parse now df r0) "sy_dist")
                  (get (fetcher_row parse now df r0) "distance_category")).
  { intros r0 Hr. unfold fetcher_row.
    apply (kept_row_bins parse); [exact Hy|exact Hd|].
    rewrite kept_rows_fetcher_kept. apply list_elem_of_fmap. exists r0.
    split; [reflexivity|exact Hr]. }
  split.
  - rewrite R, Forall_fmap. apply Forall_forall. intros r0 Hr.
    destruct (B r0 Hr) as [Be Bd].
    change (era_of (get (fetcher_row parse now df r0) "disc_year")
              (get (fetcher_row parse now df r0) "discovery_era")
            /\ distance_of (get (fetcher_row parse now df r0) "sy_dist")
                 (get (fetcher_row parse now df r0) "distance_category")
            /\ exists r1,
                 first_occurrence (rows df) r1
                 /\ label (fetcher_row parse now df r0) = label r1
                 /\ get (fetcher_row parse now df r0) "pl_name" = get r1 "pl_name"
                 /\ get (fetcher_row parse now df r0) "disc_year"
                    = to_numeric_cell parse (get r1 "disc_year")
                 /\ get (fetcher_row parse now df r0) "sy_dist"
                    = to_numeric_cell parse (get r1 "sy_dist")).
    split; [exact Be|]. split; [exact Bd|]. exists r0.
    split; [apply (fetcher_kept_first parse df r0 Hn Hr)|].
    split; [apply fetcher_row_label|]. split; [apply fetcher_row_pl_name|].
    split; apply Y; try assumption;
      solve [not_in_list | apply in_numeric_columns; reflexivity].
  - intros r0 Hf Hnn. exists (fetcher_row parse now df r0).
    pose proof (fetcher_kept_complete parse df r0 Hn Hf Hnn) as Hk.
    split; [rewrite R; apply list_elem_of_fmap; exists r0; split;
            [reflexivity|exact Hk]|].
    split; [apply fetcher_row_label|]. split; [apply fetcher_row_pl_name|].
    destruct (B r0 Hk) as [Be Bd].
    rewrite (Y r0 "disc_year") in Be
      by solve [assumption | not_in_list | apply in_numeric_columns; reflexivity].
    rewrite (Y r0 "sy_dist") in Bd
      by solve [assumption | not_in_list | apply in_numeric_columns; reflexivity].
    split; assumption.
Qed.

Lemma clean_bins_witness :
  exists out,
    data_fetcher.clean_exoplanet_data (fun _ => None) "2026-01-01 00:00:00" catalogue
    = Ok out
    /\ Forall (fun r =>
                era_of (get r "disc_year") (get r "discovery_era")
                /\ distance_of (get r "sy_dist") (get r "distance_category")
                /\ exists r0,
                     first_occurrence (rows catalogue) r0
                     /\ label r = label r0
                     /\ get r "pl_name" = get r0 "pl_name"
                     /\ get r "disc_year"
                        = to_numeric_cell (fun _ => None) (get r0 "disc_year")
                     /\ get r "sy_dist"
                        = to_numeric_cell (fun _ => None) (get r0 "sy_dist"))
         (rows out)
    /\ (forall r0,
          first_occurrence (rows catalogue) r0 -> get r0 "pl_name" <> Null ->
          exists r,
            r ∈ rows out
            /\ label r = label r0
            /\ get r "pl_name" = get r0 "pl_name"
            /\ era_of (to_numeric_cell (fun _ => None) (get r0 "disc_year"))
                 (get r "discovery_era")
            /\ distance_of (to_numeric_cell (fun _ => None) (get r0 "sy_dist"))
                 (get r "distance_category")).
Proof.
  apply (clean_bins_era_and_distance (fun _ => None) "2026-01-01 00:00:00" catalogue);
    solve [reflexivity | repeat constructor].
Defined.

(** ** data_extraction.py: the critical columns *)

(** C10 (fails on the code). On a frame whose radius entry is a string that
    does not parse as a number, the cleaning function of data_extraction.py
    keeps the row, because the entry is not null when rows with missing
    critical values are dropped, and the later coercion turns the entry into
    a null: the returned frame has a row with a null pl_rade. *)
Theorem extraction_returns_null_radius (parse : string -> option number) :
  parse "unknown" = None ->
  exists out r,
    data_extraction.clean_exoplanet_data parse unparsed_radius = Ok out
    /\ r ∈ rows out
    /\ get r "pl_rade" = Null.
Proof.
  intros Hp.
  rewrite (extraction_closed_form parse unparsed_radius) by repeat constructor.
  eexists. eexists. split; [reflexivity|]. split.
  - cbn. left.
  - vm_compute. rewrite Hp. reflexivity.
Qed.

Lemma extraction_returns_null_radius_witness :
  exists out r,
    data_extraction.clean_exoplanet_data (fun _ => None) unparsed_radius = Ok out
    /\ r ∈ rows out
    /\ get r "pl_rade" = Null.
Proof.
  apply (extraction_returns_null_radius (fun _ => None)). reflexivity.
Defined.

(** What holds instead: the rows returned have their critical values when
    the critical columns of the input hold no string. *)
Lemma extraction_critical_values_when_numeric parse df out c :
  "pl_name" ∈ columns df ->
  c ∈ ["pl_rade"; "pl_eqt"; "pl_orbper"]%string ->
  float_column (rows df) c ->
  data_extraction.clean_exoplanet_data parse df = Ok out ->
  Forall (fun r => get r c <> Null) (rows out).
Proof.
  intros Hn Hc Hf E. rewrite (extraction_closed_form parse df Hn) in E.
  destruct (decide ("disc_year" ∈ columns df)); [|discriminate].
  destruct (missing_column df _); [discriminate|].
  injection E as <-. cbn [rows]. rewrite Forall_fmap.
  apply Forall_forall. intros r0 Hr. unfold extraction_kept in Hr.
  apply list_elem_of_filter in Hr as [Hcrit Hr].
  apply (sublist_subseteq _ _ (drop_seen_sublist _ _ _)) in Hr.
  unfold float_column in Hf. rewrite Forall_forall in Hf. specialize (Hf r0 Hr).
  rewrite Forall_forall in Hcrit. specialize (Hcrit c Hc).
  change (get (extraction_row parse df r0) c <> Null).
  unfold extraction_row. rewrite coerce_row_get.
  destruct (decide _); [|exact Hcrit].
  destruct (get (set_cell _ _ r0) c) as [|x|s] eqn:G; simpl;
    [contradiction|discriminate|].
  exfalso. assert (c <> "disc_year"%string) as Hne.
  { intros ->. revert Hc. not_in_list. }
  rewrite get_set_cell_ne in G by (intros X; apply Hne; symmetry; exact X).
  rewrite G in Hf. discriminate.
Qed.

(** ** fetch_exoplanet_data *)

Ltac caught Hx e :=
  specialize (Hx e eq_refl); unfold logged;
  destruct e as [[] ?]; cbn in *; try congruence;
  (eexists; split; [reflexivity|]; intros ? [= <-]; reflexivity).

Lemma fetch_returns W :
  (forall e, failure W = Some e -> class e <> NotException) ->
  exists log,
    data_fetcher.fetch_exoplanet_data W
    = (log, inr (match fetched W with Some df => df | None => empty_frame end))
    /\ (forall e, failure W = Some e -> last log = Some (Print (logged e))).
Proof.
  intros Hx. unfold data_fetcher.fetch_exoplanet_data, data_fetcher.fetch_body,
    fetched, failure in *.
  destruct (http_get W) as [e|response]; cbn in *; [caught Hx e|].
  destruct (status_error response) as [e|]; cbn in *; [caught Hx e|].
  destruct (body response) as [e|data]; cbn in *; [caught Hx e|].
  destruct (payload_len data) as [e|n]; cbn in *; [caught Hx e|].
  destruct (payload_frame data) as [e|df]; cbn in *; [caught Hx e|].
  eexists. split; [reflexivity|]. intros e' [=].
Qed.

(** C5. When every failure of the request, of the status check, of the
    decoding and of the construction of the frame is an instance of
    Exception (a timeout included), [fetch_exoplanet_data] returns a frame
    and propagates nothing; after a failure the frame is the empty frame and
    the last line printed reports the exception; the frame returned is not
    empty only when nothing failed, and it is then the frame of the answer. *)
Theorem fetch_never_propagates (W : World) :
  (forall e, failure W = Some e -> class e <> NotException) ->
  exists log df,
    data_fetcher.fetch_exoplanet_data W = (log, inr df)
    /\ (forall e, failure W = Some e ->
         df = empty_frame /\ last log = Some (Print (logged e)))
    /\ (df_empty df = false -> failure W = None /\ fetched W = Some df).
Proof.
  intros Hx. destruct (fetch_returns W Hx) as (log & E & L).
  exists log. eexists. split; [exact E|]. split.
  - intros e He. split; [|apply L; exact He].
    unfold fetched. rewrite He. reflexivity.
  - unfold fetched. destruct (failure W) as [e|]; [discriminate|].
    intros Hd. split; [reflexivity|].
    destruct (http_get W) as [e|r]; [discriminate|].
    destruct (body r) as [e|d]; [discriminate|].
    destruct (payload_frame d); [discriminate|reflexivity].
Qed.

Lemma fetch_never_propagates_witness :
  exists log df,
    data_fetcher.fetch_exoplanet_data timed_out = (log, inr df)
    /\ (forall e, failure timed_out = Some e ->
         df = empty_frame /\ last log = Some (Print (logged e)))
    /\ (df_empty df = false -> failure timed_out = None /\ fetched timed_out = Some df).
Proof.
  apply (fetch_never_propagates timed_out).
  intros e [= <-]. discriminate.
Defined.

Example fetch_timed_out :
  data_fetcher.fetch_exoplanet_data timed_out
  = ([ Print "🚀 Fetching ALL exoplanet data from NASA...";
       Print data_fetcher.rule;
       Print "📡 Connecting to NASA Exoplanet Archive...";
       HttpGet data_fetcher.base_url;
       Print "⚠️ Timeout occurred. The API might be slow. Please try again." ],
     inr empty_frame).
Proof. reflexivity. Qed.

(** An exception outside Exception, such as KeyboardInterrupt, is not caught. *)
Lemma fetch_propagates_non_exception W e :
  failure W = Some e -> class e = NotException ->
  (data_fetcher.fetch_exoplanet_data W).2 = inl e.
Proof.
  unfold data_fetcher.fetch_exoplanet_data, data_fetcher.fetch_body, failure.
  intros F C.
  destruct (http_get W) as [e0|response]; cbn in *.
  { injection F as ->. unfold data_fetcher.fetch_handlers. rewrite C. reflexivity. }
  destruct (status_error response) as [e0|]; cbn in *.
  { injection F as ->. unfold data_fetcher.fetch_handlers. rewrite C. reflexivity. }
  destruct (body response) as [e0|data]; cbn in *.
  { injection F as ->. unfold data_fetcher.fetch_handlers. rewrite C. reflexivity. }
  destruct (payload_len data) as [e0|n]; cbn in *.
  { injection F as ->. unfold data_fetcher.fetch_handlers. rewrite C. reflexivity. }
  destruct (payload_frame data) as [e0|df]; cbn in *; [|discriminate].
  injection F as ->. unfold data_fetcher.fetch_handlers. rewrite C. reflexivity.
Qed.

(** ** main *)

Lemma io_bind_trace {A B} (m : io A) (k : A -> io B) :
  (io_bind m k).1 = m.1 ++ match m.2 with inr a => (k a).1 | inl _ => [] end.
Proof.
  destruct m as [t [e|a]]; simpl; [rewrite app_nil_r; reflexivity|].
  destruct (k a). reflexivity.
Qed.

Lemma io_bind_result {A B} (m : io A) (k : A -> io B) :
  (io_bind m k).2 = match m.2 with inr a => (k a).2 | inl e => inl e end.
Proof. destruct m as [t [e|a]]; simpl; [reflexivity|]. destruct (k a). reflexivity. Qed.

Lemma calls_app t t' : calls (t ++ t') = calls t ++ calls t'.
Proof. apply omap_app. Qed.

Lemma csv_writes_app t t' : csv_writes (t ++ t') = csv_writes t ++ csv_writes t'.
Proof. apply omap_app. Qed.

Lemma quiet_bind {A B} (m : io A) (k : A -> io B) :
  quiet m -> (forall a, quiet (k a)) -> quiet (io_bind m k).
Proof.
  intros [C W] Hk. unfold quiet. rewrite io_bind_trace, calls_app, csv_writes_app, C, W.
  destruct (m.2) as [e|a]; [split; reflexivity|]. apply Hk.
Qed.

Lemma quiet_print {s} : quiet (print s).
Proof. split; reflexivity. Qed.

Lemma quiet_ret {A} (a : A) : quiet (io_ret a).
Proof. split; reflexivity. Qed.

Lemma quiet_raise {A} e : quiet (@raise A e).
Proof. split; reflexivity. Qed.

Lemma quiet_lift {A} (r : exn + A) : quiet (lift r).
Proof. split; reflexivity. Qed.

Lemma quiet_lift_result {A} (r : result A) : quiet (lift_result r).
Proof. destruct r; split; reflexivity. Qed.

Lemma quiet_when b m : quiet m -> quiet (data_fetcher.when b m).
Proof. intros H. destruct b; [exact H|apply quiet_ret]. Qed.

Lemma quiet_try {A} (m : io A) h :
  quiet m -> (forall e k, h e = Some k -> quiet k) -> quiet (try_except m h).
Proof.
  intros [C W] Hh. unfold quiet, try_except. destruct m as [t [e|a]]; simpl in *.
  - destruct (h e) as [k|] eqn:E; [|split; assumption].
    destruct (Hh e k E) as [C' W']. destruct k as [t' r]. simpl in *.
    rewrite calls_app, csv_writes_app, C, W, C', W'. split; reflexivity.
  - split; assumption.
Qed.

Ltac quiet_steps :=
  repeat first
    [ apply quiet_print | apply quiet_ret | apply quiet_raise | apply quiet_lift
    | apply quiet_lift_result | apply quiet_when
    | apply quiet_bind; [|intros ?]
    | match goal with |- quiet (match ?x with _ => _ end) => destruct x end ].

Lemma quiet_fetch W : quiet (data_fetcher.fetch_exoplanet_data W).
Proof.
  unfold data_fetcher.fetch_exoplanet_data, data_fetcher.fetch_body.
  apply quiet_bind; [apply quiet_print|intros _].
  apply quiet_bind; [apply quiet_print|intros _].
  apply quiet_try.
  - apply quiet_bind; [apply quiet_print|intros _].
    apply quiet_bind; [split; reflexivity|intros _].
    quiet_steps.
  - intros e k. unfold data_fetcher.fetch_handlers.
    destruct (class e); intros E; try discriminate E;
      injection E as <-; split; reflexivity.
Qed.

Lemma quiet_summary W df : quiet (data_fetcher.summary W df).
Proof. unfold data_fetcher.summary. quiet_steps. Qed.

Lemma save_to_csv_trace W df f :
  df_empty df = false ->
  calls (data_fetcher.save_to_csv W df f).1 = []
  /\ csv_writes (data_fetcher.save_to_csv W df f).1 = [(f, df)].
Proof.
  intros He. unfold data_fetcher.save_to_csv. rewrite He.
  destruct (to_csv_error W); split; reflexivity.
Qed.

Lemma call_trace {A} f (m : io A) : (call f m).1 = Call f :: m.1.
Proof. unfold call. rewrite io_bind_trace. reflexivity. Qed.

Lemma call_result {A} f (m : io A) : (call f m).2 = m.2.
Proof. unfold call. rewrite io_bind_result. reflexivity. Qed.

Lemma print_bind_trace {B} s (k : unit -> io B) :
  (io_bind (print s) k).1 = Print s :: (k tt).1.
Proof. unfold io_bind, print, emit. destruct (k tt). reflexivity. Qed.

Lemma call_bind_trace {A B} f (m : io A) (k : A -> io B) :
  (io_bind (call f m) k).1
  = Call f :: m.1 ++ match m.2 with inr a => (k a).1 | inl _ => [] end.
Proof. rewrite io_bind_trace, call_trace, call_result. reflexivity. Qed.

Lemma calls_print s t : calls (Print s :: t) = calls t.
Proof. reflexivity. Qed.

Lemma calls_call f t : calls (Call f :: t) = f :: calls t.
Proof. reflexivity. Qed.

Lemma csv_writes_print s t : csv_writes (Print s :: t) = csv_writes t.
Proof. reflexivity. Qed.

Lemma csv_writes_call f t : csv_writes (Call f :: t) = csv_writes t.
Proof. reflexivity. Qed.

(** C8. [main] enters its stages one after the other, fetch first, then
    clean, then save: it enters the cleaning only when the fetch returned a
    frame that is not empty, and the saving only when the cleaning returned a
    frame that is not empty; the CSV file is written in that last case only,
    once, with the cleaned frame. *)
Theorem main_runs_stages_in_order (W : World) :
  calls (data_fetcher.main W).1 = stages_run W
  /\ csv_writes (data_fetcher.main W).1 = files_written W.
Proof.
  unfold data_fetcher.main, stages_run, files_written, fetch_result.
  rewrite !print_bind_trace, call_bind_trace.
  rewrite !calls_print, !csv_writes_print, calls_call, csv_writes_call.
  rewrite calls_app, csv_writes_app.
  destruct (quiet_fetch W) as [Cf Wf]. rewrite Cf, Wf. cbn [app].
  destruct ((data_fetcher.fetch_exoplanet_data W).2) as [e|raw_df];
    [split; reflexivity|].
  destruct (df_empty raw_df); [split; reflexivity|].
  rewrite call_bind_trace, calls_call, csv_writes_call, calls_app, csv_writes_app.
  destruct (data_fetcher.clean_exoplanet_data _ _ raw_df) as [clean_df|err];
    [|split; reflexivity].
  cbn [lift_result io_ret fst snd app].
  change (calls []) with (@nil string).
  change (csv_writes []) with (@nil (string * DataFrame)). cbn [app].
  destruct (df_empty clean_df) eqn:Hc; [split; reflexivity|].
  rewrite call_bind_trace, calls_call, csv_writes_call, calls_app, csv_writes_app.
  destruct (save_to_csv_trace W clean_df "exoplanet_data.csv" Hc) as [Cs Ws].
  rewrite Cs, Ws. cbn [app].
  assert (Q : forall r : exn + unit,
             quiet (match r with
                    | inr _ =>
                        io_bind (data_fetcher.summary W clean_df)
                          (fun _ =>
                             io_bind
                               (print (nl ++ "🎉 All done! You can now use 'exoplanet_data.csv' in your Streamlit app"))
                               (fun _ =>
                                  print (nl ++ "💡 Next step: Run 'python database_setup.py' to create the database")))
                    | inl e => ([], inl e)
                    end)).
  { intros [e|[]]; [split; reflexivity|].
    apply quiet_bind; [apply quiet_summary|intros _].
    apply quiet_bind; [apply quiet_print|intros _]. apply quiet_print. }
  destruct ((data_fetcher.save_to_csv W clean_df "exoplanet_data.csv").2) as [e|[]];
    [split; reflexivity|].
  destruct (Q (inr tt)) as [Cq Wq]. rewrite Cq, Wq. split; reflexivity.
Qed.

Example main_answered :
  calls (data_fetcher.main answered).1
  = ["fetch_exoplanet_data"; "clean_exoplanet_data"; "save_to_csv"]%string
  /\ map fst (csv_writes (data_fetcher.main answered).1) = ["exoplanet_data.csv"%string].
Proof. vm_compute. split; reflexivity. Qed.

Example main_timed_out :
  calls (data_fetcher.main timed_out).1 = ["fetch_exoplanet_data"%string]
  /\ csv_writes (data_fetcher.main timed_out).1 = [].
Proof. vm_compute. split; reflexivity. Qed.

(** ** The store *)

Lemma keys_insert_or_ignore ts k p t :
  database_setup.keys (database_setup.insert_or_ignore ts k p t).1
  = match k with
    | Some k' => if decide (k' ∈ database_setup.keys t) then database_setup.keys t
                 else database_setup.keys t ++ [k']
    | None => database_setup.keys t
    end.
Proof.
  unfold database_setup.insert_or_ignore. destruct k as [k|]; [|reflexivity].
  destruct (decide (k ∈ database_setup.keys t)); [reflexivity|].
  unfold database_setup.keys. simpl. rewrite map_app. reflexivity.
Qed.

Lemma insert_or_ignore_unique ts k p t :
  unique_keys t -> unique_keys (database_setup.insert_or_ignore ts k p t).1.
Proof.
  unfold unique_keys. intros H. rewrite keys_insert_or_ignore.
  destruct k as [k|]; [|exact H].
  destruct (decide (k ∈ database_setup.keys t)) as [Hk|Hk]; [exact H|].
  apply NoDup_app. split; [exact H|]. split.
  - intros x Hx Hx'. apply list_elem_of_singleton in Hx'. subst. contradiction.
  - apply NoDup_singleton.
Qed.

Lemma insert_or_ignore_present ts k p t :
  k ∈ database_setup.keys t ->
  database_setup.insert_or_ignore ts (Some k) p t
  = (database_setup.take_rowid t, 0%nat).
Proof.
  intros H. unfold database_setup.insert_or_ignore.
  rewrite decide_True by exact H. reflexivity.
Qed.

Lemma insert_or_ignore_absent ts k p t :
  k ∉ database_setup.keys t ->
  exists i,
    database_setup.entries (database_setup.insert_or_ignore ts (Some k) p t).1
    = database_setup.entries t ++ [database_setup.mkEntry i k p ts]
    /\ Forall (fun e => (database_setup.id e < i)%nat) (database_setup.entries t).
Proof.
  intros H. unfold database_setup.insert_or_ignore.
  rewrite decide_False by exact H. eexists. split; [reflexivity|].
  apply Forall_forall. intros e He. unfold database_setup.next_id.
  assert (database_setup.id e ∈ database_setup.sequence t
            :: map database_setup.id (database_setup.entries t)) as Hin.
  { right. apply list_elem_of_fmap. eauto. }
  apply max_list_elem_of_le in Hin. lia.
Qed.

Lemma keys_filter_sublist P `{!forall e, Decision (P e)} (es : list database_setup.entry) :
  sublist (map database_setup.key (filter P es)) (map database_setup.key es).
Proof. apply (fmap_sublist _), sublist_filter. Qed.

Lemma insert_or_replace_unique ts k p t t' :
  unique_keys t ->
  database_setup.insert_or_replace ts k p t = Some t' ->
  unique_keys t'.
Proof.
  unfold unique_keys, database_setup.insert_or_replace. intros H E.
  destruct k as [k|]; [|discriminate]. injection E as <-.
  unfold database_setup.keys. simpl. rewrite map_app. simpl.
  apply NoDup_app. split; [|split].
  - eapply sublist_NoDup; [exact H|]. apply keys_filter_sublist.
  - intros x Hx Hx'. apply list_elem_of_singleton in Hx'. subst.
    apply list_elem_of_fmap in Hx as (e & He & Hin).
    apply list_elem_of_filter in Hin as [Hne _]. congruence.
  - apply NoDup_singleton.
Qed.

Lemma filter_none {A} (P : A -> Prop) `{!forall x, Decision (P x)} l :
  Forall (fun x => ~ P x) l -> filter P l = [].
Proof.
  induction 1 as [|x l Hx _ IH]; [reflexivity|].
  rewrite filter_cons_False by exact Hx. exact IH.
Qed.

Lemma insert_or_replace_rows ts k p t t' :
  database_setup.insert_or_replace ts (Some k) p t = Some t' ->
  (exists i, rows_with k t' = [database_setup.mkEntry i k p ts])
  /\ (forall k', k' <> k -> rows_with k' t' = rows_with k' t).
Proof.
  unfold database_setup.insert_or_replace. intros [= <-]. unfold rows_with. simpl.
  split.
  - eexists. rewrite filter_app.
    rewrite filter_none.
    + rewrite filter_cons_True by reflexivity. reflexivity.
    + apply Forall_forall. intros e He.
      apply list_elem_of_filter in He as [Hne _]. exact Hne.
  - intros k' Hk. rewrite filter_app, list_filter_filter.
    rewrite filter_cons_False by (simpl; congruence). rewrite filter_nil, app_nil_r.
    apply list_filter_iff. intros e. split; [intros [? ?]; assumption|].
    intros He. split; [exact He|congruence].
Qed.

Lemma set_table_same n t db :
  database_setup.tables db !! n = Some t -> database_setup.set_table n t db = db.
Proof.
  intros H. unfold database_setup.set_table. rewrite insert_id by exact H.
  destruct db; reflexivity.
Qed.

Lemma tables_update_table n f db n' :
  database_setup.tables (update_table n f db) !! n'
  = if decide (n' = n) then f <$> database_setup.tables db !! n
    else database_setup.tables db !! n'.
Proof.
  unfold update_table. destruct (database_setup.tables db !! n) as [t|] eqn:E.
  - simpl. destruct (decide (n' = n)) as [->|Hne].
    + rewrite lookup_insert_eq. reflexivity.
    + rewrite lookup_insert_ne by congruence. reflexivity.
  - destruct (decide (n' = n)) as [->|Hne]; [rewrite E|]; reflexivity.
Qed.

Lemma indexes_update_table n f db :
  database_setup.indexes (update_table n f db) = database_setup.indexes db.
Proof. unfold update_table. destruct (database_setup.tables db !! n); reflexivity. Qed.

Lemma database_eq db db' :
  database_setup.tables db = database_setup.tables db' ->
  database_setup.indexes db = database_setup.indexes db' -> db = db'.
Proof. destruct db, db'. simpl. intros -> ->. reflexivity. Qed.

Lemma update_table_compose n f g db :
  update_table n g (update_table n f db) = update_table n (fun t => g (f t)) db.
Proof.
  apply database_eq; [|rewrite !indexes_update_table; reflexivity].
  apply map_eq. intros n'. rewrite !tables_update_table.
  destruct (decide (n' = n)); [|reflexivity].
  rewrite decide_True by reflexivity.
  destruct (database_setup.tables db !! n); reflexivity.
Qed.

Lemma update_table_id n db : update_table n (fun t => t) db = db.
Proof.
  unfold update_table. destruct (database_setup.tables db !! n) eqn:E; [|reflexivity].
  apply set_table_same. exact E.
Qed.

Lemma foldl_update_table {A} n (F : database_setup.table -> A -> database_setup.table)
  (l : list A) db :
  foldl (fun db x => update_table n (fun t => F t x) db) db l
  = update_table n (fun t => foldl F t l) db.
Proof.
  revert db. induction l as [|x l IH]; intros db; simpl.
  - symmetry. apply update_table_id.
  - rewrite IH, update_table_compose. reflexivity.
Qed.

Lemma insert_planet_update render ts db row :
  database_setup.insert_planet render ts db row
  = update_table "planets"
      (fun t => (database_setup.insert_or_ignore ts
                   (database_setup.sql_text render (get row "pl_name"))
                   (tail (map (fun col => get row col) database_setup.planet_columns))
                   t).1) db.
Proof. reflexivity. Qed.

Lemma insert_grouped_update name cols render ts db row :
  database_setup.insert_grouped name cols render ts db row
  = update_table name
      (fun t => default t
                  (database_setup.insert_or_replace ts
                     (database_setup.sql_text render (get row "hostname"))
                     (map (fun col => get row col) cols) t)) db.
Proof.
  unfold database_setup.insert_grouped, update_table.
  destruct (database_setup.tables db !! name) as [t|] eqn:E; [|reflexivity].
  destruct (database_setup.insert_or_replace _ _ _ t); simpl; [reflexivity|].
  symmetry. apply set_table_same. exact E.
Qed.

Lemma foldl_ext_eq {A B} (f g : A -> B -> A) a l :
  (forall a b, f a b = g a b) -> foldl f a l = foldl g a l.
Proof.
  intros H. revert a. induction l as [|b l IH]; intros a; simpl; [reflexivity|].
  rewrite H. apply IH.
Qed.

(** The loader in closed form: three passes, one per table. *)
Lemma insert_data_closed_form render ts db df :
  database_setup.insert_data_from_csv render ts db df
  = star_data ← star_frame df;
    system_data ← system_frame df;
    Ok (update_table "systems"
          (grouped_pass database_setup.system_data_columns render ts system_data)
          (update_table "stars"
             (grouped_pass database_setup.star_data_columns render ts
                (database_setup.rename_columns star_data
                   ("hostname" :: database_setup.star_data_columns)))
             (update_table "planets" (planets_pass render ts df) db))).
Proof.
  unfold database_setup.insert_data_from_csv.
  fold (star_frame df). fold (system_frame df).
  destruct (star_frame df) as [sd|e]; [|reflexivity].
  rewrite !bind_ok.
  destruct (system_frame df) as [yd|e]; [|reflexivity].
  rewrite !bind_ok. f_equal.
  rewrite (foldl_ext_eq _ _ _ _ (insert_grouped_update "systems" _ render ts)).
  rewrite (foldl_update_table "systems"). f_equal.
  rewrite (foldl_ext_eq _ _ _ _ (insert_grouped_update "stars" _ render ts)).
  rewrite (foldl_update_table "stars"). f_equal.
  rewrite (foldl_ext_eq _ _ _ _ (insert_planet_update render ts)).
  rewrite (foldl_update_table "planets"). reflexivity.
Qed.

(** *** INSERT OR IGNORE, row after row *)

Section ignore_fold.
Context (K : Row -> option string) (P : Row -> list cell).

Lemma ignore_fold_unique ts t l :
  unique_keys t -> unique_keys (ignore_fold K P ts t l).
Proof.
  revert t. induction l as [|row l IH]; intros t H; [exact H|].
  apply IH, insert_or_ignore_unique, H.
Qed.

Lemma insert_or_ignore_keys_mono ts k p t x :
  x ∈ database_setup.keys t ->
  x ∈ database_setup.keys (database_setup.insert_or_ignore ts k p t).1.
Proof.
  intros H. rewrite keys_insert_or_ignore. destruct k as [k|]; [|exact H].
  destruct (decide _); [exact H|]. apply elem_of_app. left. exact H.
Qed.

Lemma ignore_fold_keys_mono ts t l x :
  x ∈ database_setup.keys t -> x ∈ database_setup.keys (ignore_fold K P ts t l).
Proof.
  revert t. induction l as [|row l IH]; intros t H; [exact H|].
  apply IH, insert_or_ignore_keys_mono, H.
Qed.

Lemma ignore_fold_covers ts t l row k :
  row ∈ l -> K row = Some k -> k ∈ database_setup.keys (ignore_fold K P ts t l).
Proof.
  revert t. induction l as [|r l IH]; intros t Hin Hk.
  - apply elem_of_nil in Hin. destruct Hin.
  - apply elem_of_cons in Hin as [<-|Hin]; [|apply IH; assumption].
    simpl. apply ignore_fold_keys_mono. rewrite keys_insert_or_ignore, Hk.
    destruct (decide _) as [H|H]; [exact H|].
    apply elem_of_app. right. left.
Qed.

Lemma ignore_fold_fixed ts t l :
  (forall row k, row ∈ l -> K row = Some k -> k ∈ database_setup.keys t) ->
  database_setup.entries (ignore_fold K P ts t l) = database_setup.entries t.
Proof.
  revert t. induction l as [|r l IH]; intros t H; [reflexivity|].
  cbn [ignore_fold foldl]. unfold ignore_fold in IH.
  assert (E : (database_setup.insert_or_ignore ts (K r) (P r) t).1
              = database_setup.take_rowid t).
  { destruct (K r) as [k|] eqn:Hk; [|reflexivity].
    rewrite insert_or_ignore_present; [reflexivity|].
    apply (H r k); [left|exact Hk]. }
  rewrite E. rewrite IH; [reflexivity|].
  intros row k Hin. apply H. right. exact Hin.
Qed.

(** A second pass over the same rows inserts nothing. *)
Lemma ignore_fold_twice ts ts' t l :
  database_setup.entries (ignore_fold K P ts' (ignore_fold K P ts t l) l)
  = database_setup.entries (ignore_fold K P ts t l).
Proof.
  apply ignore_fold_fixed. intros row k Hin Hk.
  eapply ignore_fold_covers; eassumption.
Qed.
End ignore_fold.

(** *** INSERT OR REPLACE, row after row *)

Lemma logical_insert_or_replace ts k p t :
  database_setup.logical (default t (database_setup.insert_or_replace ts k p t))
  = match k with
    | Some k' => replace_step (database_setup.logical t) (k', p)
    | None => database_setup.logical t
    end.
Proof.
  destruct k as [k|]; [|reflexivity]. simpl.
  unfold database_setup.logical, replace_step. simpl.
  rewrite map_app.
  rewrite (filter_map (fun y : string * list cell => y.1 <> k)). reflexivity.
Qed.

Lemma insert_or_replace_default_unique ts k p t :
  unique_keys t ->
  unique_keys (default t (database_setup.insert_or_replace ts k p t)).
Proof.
  intros H. destruct (database_setup.insert_or_replace ts k p t) as [t'|] eqn:E.
  - simpl. eapply insert_or_replace_unique; eassumption.
  - exact H.
Qed.

Lemma grouped_pass_unique cols render ts data t :
  unique_keys t -> unique_keys (grouped_pass cols render ts data t).
Proof.
  unfold grouped_pass. generalize (rows data). intros l. revert t.
  induction l as [|row l IH]; intros t H; [exact H|].
  apply IH, insert_or_replace_default_unique, H.
Qed.

Lemma logical_grouped_pass cols render ts data t :
  database_setup.logical (grouped_pass cols render ts data t)
  = foldl replace_step (database_setup.logical t) (keyed cols render data).
Proof.
  unfold grouped_pass, keyed. generalize (rows data). intros l. revert t.
  induction l as [|row l IH]; intros t; [reflexivity|].
  cbn [foldl omap list_omap]. rewrite IH, logical_insert_or_replace.
  destruct (database_setup.sql_text render (get row "hostname")); reflexivity.
Qed.

Lemma replace_fold_split (acc l : list (string * list cell)) :
  foldl replace_step acc l
  = filter (fun y => y.1 ∉ map fst l) acc ++ foldl replace_step [] l.
Proof.
  revert acc. induction l as [|x l IH]; intros acc.
  - simpl. rewrite app_nil_r. symmetry.
    rewrite <- (filter_all acc) at 2. apply list_filter_iff.
    intros y. split; [intros _; exact I|]. intros _ H. apply elem_of_nil in H. exact H.
  - simpl. rewrite (IH (replace_step acc x)), (IH (replace_step [] x)).
    unfold replace_step at 1 3. rewrite filter_nil, app_nil_l.
    rewrite filter_app, list_filter_filter, <- app_assoc. f_equal.
    apply list_filter_iff. intros y. rewrite elem_of_cons. simpl. tauto.
Qed.

Lemma replace_fold_keys (acc l : list (string * list cell)) y :
  y ∈ foldl replace_step acc l -> y ∈ acc \/ y.1 ∈ map fst l.
Proof.
  revert acc. induction l as [|x l IH]; intros acc H; [left; exact H|].
  simpl in H. apply IH in H as [H|H].
  - unfold replace_step in H. apply elem_of_app in H as [H|H].
    + apply list_elem_of_filter in H as [_ H]. left. exact H.
    + apply list_elem_of_singleton in H. subst. right. left.
  - right. right. exact H.
Qed.

(** A second pass with the same rows leaves the logical contents alone. *)
Lemma replace_fold_twice (acc l : list (string * list cell)) :
  foldl replace_step (foldl replace_step acc l) l = foldl replace_step acc l.
Proof.
  rewrite (replace_fold_split (foldl replace_step acc l)).
  rewrite (replace_fold_split acc l) at 1.
  rewrite filter_app, list_filter_filter.
  rewrite (filter_none _ (foldl replace_step [] l)).
  - rewrite app_nil_r. rewrite (replace_fold_split acc l). f_equal.
    apply list_filter_iff. tauto.
  - apply Forall_forall. intros y Hy Hn.
    apply replace_fold_keys in Hy as [Hy|Hy]; [apply elem_of_nil in Hy; exact Hy|].
    contradiction.
Qed.

(** *** The three passes of the loader *)

Lemma planets_pass_twice render ts ts' df t :
  database_setup.entries (planets_pass render ts' df (planets_pass render ts df t))
  = database_setup.entries (planets_pass render ts df t).
Proof. unfold planets_pass. apply ignore_fold_twice. Qed.

Lemma planets_pass_unique render ts df t :
  unique_keys t -> unique_keys (planets_pass render ts df t).
Proof. unfold planets_pass. apply ignore_fold_unique. Qed.

Lemma grouped_pass_twice cols render ts ts' data t :
  database_setup.logical
    (grouped_pass cols render ts' data (grouped_pass cols render ts data t))
  = database_setup.logical (grouped_pass cols render ts data t).
Proof. rewrite !logical_grouped_pass. apply replace_fold_twice. Qed.

Lemma update_table_unique n f db :
  (forall t, unique_keys t -> unique_keys (f t)) ->
  db_unique db -> db_unique (update_table n f db).
Proof.
  intros Hf H n' t. rewrite tables_update_table.
  destruct (decide (n' = n)) as [->|Hne]; [|apply H].
  destruct (database_setup.tables db !! n) as [t0|] eqn:E; [|discriminate].
  intros [= <-]. apply Hf. eapply H. exact E.
Qed.

Lemma loader_unique render ts db df db' :
  db_unique db ->
  database_setup.insert_data_from_csv render ts db df = Ok db' ->
  db_unique db'.
Proof.
  intros H. rewrite insert_data_closed_form.
  destruct (star_frame df) as [sd|e]; [|discriminate]. rewrite bind_ok.
  destruct (system_frame df) as [yd|e]; [|discriminate]. rewrite bind_ok.
  intros [= <-].
  apply update_table_unique; [intros t; apply grouped_pass_unique|].
  apply update_table_unique; [intros t; apply grouped_pass_unique|].
  apply update_table_unique; [intros t; apply planets_pass_unique|].
  exact H.
Qed.

(** *** The statements of the schema *)

Lemma with_table_lookup n k c db n' :
  database_setup.tables (with_table n k c db) !! n'
  = match database_setup.tables db !! n' with
    | Some t => Some t
    | None => if decide (n' = n) then Some (fresh_table k c) else None
    end.
Proof.
  unfold with_table.
  destruct (database_setup.tables db !! n) as [t|] eqn:E.
  - destruct (database_setup.tables db !! n') as [t'|] eqn:E'; [reflexivity|].
    destruct (decide (n' = n)) as [->|]; [congruence|reflexivity].
  - simpl. destruct (decide (n' = n)) as [->|Hne].
    + rewrite lookup_insert_eq, E. reflexivity.
    + rewrite lookup_insert_ne by congruence.
      destruct (database_setup.tables db !! n'); reflexivity.
Qed.

Lemma with_table_indexes n k c db :
  database_setup.indexes (with_table n k c db) = database_setup.indexes db.
Proof.
  unfold with_table. destruct (database_setup.tables db !! n); reflexivity.
Qed.

Lemma with_index_present name db :
  name ∈ database_setup.indexes db -> with_index name db = db.
Proof.
  intros H. apply database_eq; [reflexivity|]. unfold with_index.
  cbn [database_setup.indexes]. set_solver.
Qed.

(** CREATE TABLE IF NOT EXISTS goes through, or raises: [A] is what decides,
    said of any database in which [n] is a table or an index as in [db]. *)
Lemma create_table_step n k c db (A : Prop) :
  (A <-> is_Some (database_setup.tables db !! n) \/ n ∉ database_setup.indexes db) ->
  (database_setup.create_table n k c db = Some (with_table n k c db) /\ A)
  \/ (database_setup.create_table n k c db = None /\ ~ A).
Proof.
  intros HA. unfold database_setup.create_table, with_table.
  destruct (database_setup.tables db !! n) as [t|] eqn:E.
  - left. split; [reflexivity|]. apply HA. left. eauto.
  - destruct (decide (n ∈ database_setup.indexes db)) as [Hi|Hi].
    + right. split; [reflexivity|]. rewrite HA.
      intros [[t H]|H]; [discriminate|contradiction].
    + left. split; [reflexivity|]. apply HA. right. exact Hi.
Qed.

(** CREATE INDEX IF NOT EXISTS goes through, or raises. *)
Lemma create_index_step name tbl col db t (B : Prop) :
  database_setup.tables db !! tbl = Some t ->
  (B <-> database_setup.tables db !! name = None
         /\ (name ∈ database_setup.indexes db
             \/ col ∈ database_setup.table_columns t)) ->
  (database_setup.create_index name tbl col db = Some (with_index name db) /\ B)
  \/ (database_setup.create_index name tbl col db = None /\ ~ B).
Proof.
  intros Ht HB. unfold database_setup.create_index. rewrite Ht.
  destruct (decide (is_Some (database_setup.tables db !! name))) as [[t' Hs]|Hs].
  { right. split; [reflexivity|]. rewrite HB. intros [H _]. congruence. }
  assert (database_setup.tables db !! name = None) as Hn.
  { destruct (database_setup.tables db !! name); [exfalso; apply Hs; eauto|reflexivity]. }
  destruct (decide (name ∈ database_setup.indexes db)) as [Hi|Hi].
  { left. split; [rewrite with_index_present by exact Hi; reflexivity|].
    apply HB. split; [exact Hn|left; exact Hi]. }
  destruct (decide (col ∈ database_setup.table_columns t)) as [Hc|Hc].
  - left. split; [reflexivity|]. apply HB. split; [exact Hn|right; exact Hc].
  - right. split; [reflexivity|]. rewrite HB. intros [_ [H|H]]; contradiction.
Qed.

Lemma create_table_some n k c db db' :
  database_setup.create_table n k c db = Some db' -> db' = with_table n k c db.
Proof.
  destruct (create_table_step n k c db _ (iff_refl _)) as [[E _]|[E _]];
    rewrite E; [intros [= <-]; reflexivity|discriminate].
Qed.

Lemma create_index_some name tbl col db db' :
  database_setup.create_index name tbl col db = Some db' -> db' = with_index name db.
Proof.
  unfold database_setup.create_index.
  destruct (database_setup.tables db !! tbl) as [t|] eqn:Ht; [|discriminate].
  destruct (create_index_step name tbl col db t _ Ht (iff_refl _)) as [[E _]|[E _]];
    unfold database_setup.create_index in E; rewrite Ht in E; rewrite E;
    [intros [= <-]; reflexivity|discriminate].
Qed.

(** What holds of the file and is kept by every statement holds of the file
    afterwards, whether the statements all went through or not. *)
Lemma execute_preserves (I : database_setup.Database -> Prop) stmts db :
  Forall (fun s : database_setup.statement =>
            forall d d', I d -> s d = Some d' -> I d') stmts ->
  I db -> I (database_setup.execute stmts db).1.
Proof.
  intros H. revert db. induction H as [|s stmts Hs _ IH]; intros db Hdb; [exact Hdb|].
  cbn [database_setup.execute]. destruct (s db) as [db'|] eqn:E; [|exact Hdb].
  apply IH. eapply Hs; eassumption.
Qed.

Lemma create_database_preserves (I : database_setup.Database -> Prop) file :
  (forall n k c d, I d -> I (with_table n k c d)) ->
  (forall n d, I d -> I (with_index n d)) ->
  I file -> I (database_setup.create_database file).1.
Proof.
  intros HT HI. unfold database_setup.create_database. apply execute_preserves.
  repeat (apply Forall_cons_2;
          [intros d d' Hd E;
           first [apply create_table_some in E | apply create_index_some in E];
           subst d'; first [apply HT | apply HI]; exact Hd|]).
  apply Forall_nil_2.
Qed.

Lemma with_table_unique n k c db : db_unique db -> db_unique (with_table n k c db).
Proof.
  intros H n' t. rewrite with_table_lookup.
  destruct (database_setup.tables db !! n') as [t'|] eqn:E.
  - intros [= <-]. eapply H. exact E.
  - destruct (decide (n' = n)); [|discriminate]. intros [= <-]. apply NoDup_nil. exact I.
Qed.

Lemma create_database_unique file :
  db_unique file -> db_unique (database_setup.create_database file).1.
Proof.
  apply (create_database_preserves db_unique).
  - intros n k c d. apply with_table_unique.
  - intros n d H. exact H.
Qed.

(** The tables of the file with the schema of the script. *)
Lemma script_schema_lookup file n :
  database_setup.tables (script_schema file) !! n
  = match database_setup.tables file !! n with
    | Some t => Some t
    | None =>
        if decide (n = "planets") then
          Some (fresh_table "pl_name" database_setup.planet_data_columns)
        else if decide (n = "stars") then
          Some (fresh_table "hostname" database_setup.star_data_columns)
        else if decide (n = "systems") then
          Some (fresh_table "hostname" database_setup.system_data_columns)
        else None
    end.
Proof.
  unfold script_schema, with_index. cbn [database_setup.tables].
  rewrite !with_table_lookup.
  destruct (database_setup.tables file !! n); [reflexivity|].
  destruct (decide (n = "planets")); [reflexivity|].
  destruct (decide (n = "stars")); reflexivity.
Qed.


Lemma script_schema_tables file :
  dom (database_setup.tables (script_schema file))
  = dom (database_setup.tables file) ∪ {["planets"; "stars"; "systems"]}.
Proof.
  apply set_eq. intros n. rewrite elem_of_dom, script_schema_lookup.
  rewrite elem_of_union, elem_of_dom.
  destruct (database_setup.tables file !! n) as [t|].
  - split; [intros _; left; eauto|intros _; eauto].
  - destruct (decide (n = "planets")) as [->|N1].
    { split; [intros _; right; set_solver|intros _; eauto]. }
    destruct (decide (n = "stars")) as [->|N2].
    { split; [intros _; right; set_solver|intros _; eauto]. }
    destruct (decide (n = "systems")) as [->|N3].
    { split; [intros _; right; set_solver|intros _; eauto]. }
    split; [intros [t H]; discriminate|].
    intros [[t H]|H]; [discriminate|]. set_solver.
Qed.

Ltac member_of_list := cbn; repeat constructor.

(** [create_database] goes through exactly on the accepted files, and then
    makes the schema of the script. *)
Lemma with_index_elem name n d :
  name <> n ->
  name ∈ database_setup.indexes (with_index n d) <-> name ∈ database_setup.indexes d.
Proof.
  intros H. unfold with_index. cbn [database_setup.indexes]. set_solver.
Qed.

Lemma create_database_outcome file :
  (accepted file
   /\ database_setup.create_database file = (script_schema file, database_setup.Returned))
  \/ (~ accepted file
      /\ (database_setup.create_database file).2 = database_setup.Raised).
Proof.
  set (d1 := with_table "planets" "pl_name" database_setup.planet_data_columns file).
  set (d2 := with_table "stars" "hostname" database_setup.star_data_columns d1).
  set (d3 := with_table "systems" "hostname" database_setup.system_data_columns d2).
  assert (L1 : forall n, n <> "planets"%string ->
                 database_setup.tables d1 !! n = database_setup.tables file !! n).
  { intros n Hn. unfold d1. rewrite with_table_lookup, decide_False by exact Hn.
    destruct (database_setup.tables file !! n); reflexivity. }
  assert (L2 : forall n, n <> "planets"%string -> n <> "stars"%string ->
                 database_setup.tables d2 !! n = database_setup.tables file !! n).
  { intros n Hn Hs. unfold d2. rewrite with_table_lookup, decide_False by exact Hs.
    rewrite (L1 n Hn). destruct (database_setup.tables file !! n); reflexivity. }
  assert (L3 : forall n, n <> "planets"%string -> n <> "stars"%string ->
                 n <> "systems"%string ->
                 database_setup.tables d3 !! n = database_setup.tables file !! n).
  { intros n Hn Hs Hy. unfold d3. rewrite with_table_lookup, decide_False by exact Hy.
    rewrite (L2 n Hn Hs). destruct (database_setup.tables file !! n); reflexivity. }
  assert (I3 : database_setup.indexes d3 = database_setup.indexes file).
  { unfold d3, d2, d1. rewrite !with_table_indexes. reflexivity. }
  assert (P3 : database_setup.tables d3 !! "planets"
               = Some (default (fresh_table "pl_name" database_setup.planet_data_columns)
                         (database_setup.tables file !! "planets"))).
  { unfold d3, d2, d1. rewrite !with_table_lookup.
    destruct (database_setup.tables file !! "planets"); reflexivity. }
  assert (Y3 : database_setup.tables d3 !! "systems"
               = Some (default (fresh_table "hostname" database_setup.system_data_columns)
                         (database_setup.tables file !! "systems"))).
  { unfold d3, d2, d1. rewrite !with_table_lookup.
    destruct (database_setup.tables file !! "systems"); reflexivity. }
  assert (C : forall tbl kc cols col,
             col ∈ database_setup.table_columns (fresh_table kc cols) ->
             (col ∈ database_setup.table_columns
                      (default (fresh_table kc cols) (database_setup.tables file !! tbl))
              <-> forall t, database_setup.tables file !! tbl = Some t ->
                            col ∈ database_setup.table_columns t)).
  { intros tbl kc cols col Hf. destruct (database_setup.tables file !! tbl) as [t|].
    - cbn [default from_option]. split; [intros H t' [= <-]; exact H|].
      intros H. apply H. reflexivity.
    - cbn [default from_option]. split; [intros _ t' E; discriminate|].
      intros _. exact Hf. }
  unfold database_setup.create_database, accepted, script_indexes.
  cbn [database_setup.execute]. rewrite !Forall_cons, !Forall_nil. cbn [fst snd].
  destruct (create_table_step "planets" "pl_name" database_setup.planet_data_columns file
              (is_Some (database_setup.tables file !! "planets")
               \/ "planets" ∉ database_setup.indexes file) (iff_refl _))
    as [[E A1]|[E A1]]; rewrite E;
    [|right; split; [intros [[H _] _]; exact (A1 H)|reflexivity]]. clear E.
  fold d1.
  destruct (create_table_step "stars" "hostname" database_setup.star_data_columns d1
              (is_Some (database_setup.tables file !! "stars")
               \/ "stars" ∉ database_setup.indexes file))
    as [[E A2]|[E A2]].
  { rewrite (L1 "stars") by discriminate. unfold d1. rewrite with_table_indexes.
    reflexivity. }
  2:{ rewrite E. right. split; [intros [(_ & H & _) _]; exact (A2 H)|reflexivity]. }
  rewrite E. clear E. fold d2.
  destruct (create_table_step "systems" "hostname" database_setup.system_data_columns d2
              (is_Some (database_setup.tables file !! "systems")
               \/ "systems" ∉ database_setup.indexes file))
    as [[E A3]|[E A3]].
  { rewrite (L2 "systems") by discriminate. unfold d2, d1.
    rewrite !with_table_indexes. reflexivity. }
  2:{ rewrite E. right. split; [intros [(_ & _ & H & _) _]; exact (A3 H)|reflexivity]. }
  rewrite E. clear E. fold d3.
  destruct (create_index_step "idx_discoverymethod" "planets" "discoverymethod" d3 _
              (database_setup.tables file !! "idx_discoverymethod" = None
               /\ ("idx_discoverymethod" ∈ database_setup.indexes file
                   \/ forall t, database_setup.tables file !! "planets" = Some t ->
                                "discoverymethod" ∈ database_setup.table_columns t)) P3)
    as [[E B1]|[E B1]].
  { rewrite (L3 "idx_discoverymethod") by discriminate. rewrite I3.
    rewrite (C "planets" "pl_name" database_setup.planet_data_columns "discoverymethod")
      by member_of_list. reflexivity. }
  2:{ rewrite E. right. split; [intros [_ (H & _)]; exact (B1 H)|reflexivity]. }
  rewrite E. clear E.
  set (e1 := with_index "idx_discoverymethod" d3).
  destruct (create_index_step "idx_disc_year" "planets" "disc_year" e1 _
              (database_setup.tables file !! "idx_disc_year" = None
               /\ ("idx_disc_year" ∈ database_setup.indexes file
                   \/ forall t, database_setup.tables file !! "planets" = Some t ->
                                "disc_year" ∈ database_setup.table_columns t)) P3)
    as [[E B2]|[E B2]].
  { change (database_setup.tables e1) with (database_setup.tables d3).
    rewrite (L3 "idx_disc_year") by discriminate.
    rewrite (C "planets" "pl_name" database_setup.planet_data_columns "disc_year")
      by member_of_list.
    unfold e1. rewrite !with_index_elem by discriminate. rewrite I3.
    reflexivity. }
  2:{ rewrite E. right. split; [intros [_ (_ & H & _)]; exact (B2 H)|reflexivity]. }
  rewrite E. clear E.
  set (e2 := with_index "idx_disc_year" e1).
  destruct (create_index_step "idx_hostname" "planets" "hostname" e2 _
              (database_setup.tables file !! "idx_hostname" = None
               /\ ("idx_hostname" ∈ database_setup.indexes file
                   \/ forall t, database_setup.tables file !! "planets" = Some t ->
                                "hostname" ∈ database_setup.table_columns t)) P3)
    as [[E B3]|[E B3]].
  { change (database_setup.tables e2) with (database_setup.tables d3).
    rewrite (L3 "idx_hostname") by discriminate.
    rewrite (C "planets" "pl_name" database_setup.planet_data_columns "hostname")
      by member_of_list.
    unfold e2, e1. rewrite !with_index_elem by discriminate. rewrite I3.
    reflexivity. }
  2:{ rewrite E. right. split; [intros [_ (_ & _ & H & _)]; exact (B3 H)|reflexivity]. }
  rewrite E. clear E.
  set (e3 := with_index "idx_hostname" e2).
  destruct (create_index_step "idx_habitability" "planets" "habitability_score" e3 _
              (database_setup.tables file !! "idx_habitability" = None
               /\ ("idx_habitability" ∈ database_setup.indexes file
                   \/ forall t, database_setup.tables file !! "planets" = Some t ->
                                "habitability_score" ∈ database_setup.table_columns t)) P3)
    as [[E B4]|[E B4]].
  { change (database_setup.tables e3) with (database_setup.tables d3).
    rewrite (L3 "idx_habitability") by discriminate.
    rewrite (C "planets" "pl_name" database_setup.planet_data_columns "habitability_score")
      by member_of_list.
    unfold e3, e2, e1. rewrite !with_index_elem by discriminate. rewrite I3.
    reflexivity. }
  2:{ rewrite E. right. split; [intros [_ (_ & _ & _ & H & _)]; exact (B4 H)|reflexivity]. }
  rewrite E. clear E.
  set (e4 := with_index "idx_habitability" e3).
  destruct (create_index_step "idx_planet_type" "planets" "planet_type" e4 _
              (database_setup.tables file !! "idx_planet_type" = None
               /\ ("idx_planet_type" ∈ database_setup.indexes file
                   \/ forall t, database_setup.tables file !! "planets" = Some t ->
                                "planet_type" ∈ database_setup.table_columns t)) P3)
    as [[E B5]|[E B5]].
  { change (database_setup.tables e4) with (database_setup.tables d3).
    rewrite (L3 "idx_planet_type") by discriminate.
    rewrite (C "planets" "pl_name" database_setup.planet_data_columns "planet_type")
      by member_of_list.
    unfold e4, e3, e2, e1. rewrite !with_index_elem by discriminate. rewrite I3.
    reflexivity. }
  2:{ rewrite E. right. split; [intros [_ (_ & _ & _ & _ & H & _)]; exact (B5 H)|reflexivity]. }
  rewrite E. clear E.
  set (e5 := with_index "idx_planet_type" e4).
  destruct (create_index_step "idx_distance" "systems" "sy_dist" e5 _
              (database_setup.tables file !! "idx_distance" = None
               /\ ("idx_distance" ∈ database_setup.indexes file
                   \/ forall t, database_setup.tables file !! "systems" = Some t ->
                                "sy_dist" ∈ database_setup.table_columns t)) Y3)
    as [[E B6]|[E B6]].
  { change (database_setup.tables e5) with (database_setup.tables d3).
    rewrite (L3 "idx_distance") by discriminate.
    rewrite (C "systems" "hostname" database_setup.system_data_columns "sy_dist")
      by member_of_list.
    unfold e5, e4, e3, e2, e1. rewrite !with_index_elem by discriminate. rewrite I3.
    reflexivity. }
  2:{ rewrite E. right. split; [intros [_ (_ & _ & _ & _ & _ & H & _)]; exact (B6 H)|reflexivity]. }
  rewrite E. clear E.
  left. split; [|reflexivity].
  split; [exact (conj A1 (conj A2 (conj A3 I)))|].
  exact (conj B1 (conj B2 (conj B3 (conj B4 (conj B5 (conj B6 I)))))).
Qed.

Lemma create_database_new_file :
  database_setup.create_database database_setup.new_file
  = (script_schema database_setup.new_file, database_setup.Returned).
Proof.
  destruct (create_database_outcome database_setup.new_file) as [[_ E]|[N _]];
    [exact E|].
  exfalso. apply N. unfold accepted, script_indexes.
  split; repeat (apply Forall_cons_2; [|]); try apply Forall_nil_2; cbn [fst snd].
  - right. apply not_elem_of_empty.
  - right. apply not_elem_of_empty.
  - right. apply not_elem_of_empty.
  - split; [reflexivity|right; intros t H; discriminate].
  - split; [reflexivity|right; intros t H; discriminate].
  - split; [reflexivity|right; intros t H; discriminate].
  - split; [reflexivity|right; intros t H; discriminate].
  - split; [reflexivity|right; intros t H; discriminate].
  - split; [reflexivity|right; intros t H; discriminate].
Qed.

Lemma master_tables_nonempty db n :
  n ∈ dom (database_setup.tables db) ->
  master_tables db = dom (database_setup.tables db) ∪ {["sqlite_sequence"]}.
Proof.
  intros H. unfold master_tables. rewrite decide_False; [reflexivity|].
  intros E. rewrite E in H. apply elem_of_empty in H. exact H.
Qed.

Lemma fresh_database_tables :
  dom (database_setup.tables fresh_database) = {["planets"; "stars"; "systems"]}.
Proof.
  unfold fresh_database. rewrite create_database_new_file. cbn [fst].
  rewrite script_schema_tables. cbn [database_setup.tables database_setup.new_file].
  set_solver.
Qed.

Lemma fresh_database_master :
  master_tables fresh_database = {["planets"; "stars"; "systems"; "sqlite_sequence"]}.
Proof.
  rewrite (master_tables_nonempty fresh_database "planets"), fresh_database_tables;
    set_solver.
Qed.

(** C6 (as amended). [create_database] returns on a new file, and the
    tables it has made are exactly planets, stars and systems; the file
    holds a fourth table, sqlite_sequence, which SQLite keeps for the
    AUTOINCREMENT ids.  Every insert of the loader keeps the key of each
    table unique: INSERT OR IGNORE keeps it, and with a name already in the
    table it writes no row and leaves every row as it is; INSERT OR REPLACE
    keeps it, and afterwards the table has one row with the inserted key,
    holding the new values, and the rows of the other keys as before; so
    [create_database] and a whole run of [insert_data_from_csv] keep the
    keys unique. *)
Theorem store_tables_keep_unique_keys (render : number -> string) (ts : string) :
  (database_setup.create_database database_setup.new_file).2 = database_setup.Returned
  /\ dom (database_setup.tables
            (database_setup.create_database database_setup.new_file).1)
     = {["planets"; "stars"; "systems"]}
  /\ master_tables (database_setup.create_database database_setup.new_file).1
     = {["planets"; "stars"; "systems"; "sqlite_sequence"]}
  /\ (forall file,
        db_unique file -> db_unique (database_setup.create_database file).1)
  /\ (forall k p t,
        unique_keys t -> unique_keys (database_setup.insert_or_ignore ts k p t).1)
  /\ (forall k p t,
        k ∈ database_setup.keys t ->
        database_setup.entries (database_setup.insert_or_ignore ts (Some k) p t).1
        = database_setup.entries t
        /\ (database_setup.insert_or_ignore ts (Some k) p t).2 = 0%nat)
  /\ (forall k p t t',
        unique_keys t -> database_setup.insert_or_replace ts k p t = Some t' ->
        unique_keys t')
  /\ (forall k p t t',
        database_setup.insert_or_replace ts (Some k) p t = Some t' ->
        (exists i, rows_with k t' = [database_setup.mkEntry i k p ts])
        /\ (forall k', k' <> k -> rows_with k' t' = rows_with k' t))
  /\ (forall db df db',
        db_unique db ->
        database_setup.insert_data_from_csv render ts db df = Ok db' ->
        db_unique db').
Proof.
  split; [|split; [|split; [|split; [|split; [|split; [|split; [|split]]]]]]].
  - rewrite create_database_new_file. reflexivity.
  - apply fresh_database_tables.
  - apply fresh_database_master.
  - apply create_database_unique.
  - intros k p t. apply insert_or_ignore_unique.
  - intros k p t H. rewrite (insert_or_ignore_present ts k p t H). split; reflexivity.
  - intros k p t t'. apply insert_or_replace_unique.
  - intros k p t t'. apply insert_or_replace_rows.
  - intros db df db'. apply loader_unique.
Qed.

(** C6 as stated fails: the store [create_database] makes does not consist
    of the three tables only. *)
Lemma store_has_a_fourth_table :
  master_tables (database_setup.create_database database_setup.new_file).1
  <> {["planets"; "stars"; "systems"]}.
Proof.
  change (master_tables fresh_database <> {["planets"; "stars"; "systems"]}).
  rewrite fresh_database_master. intros E.
  assert ("sqlite_sequence" ∈ ({["planets"; "stars"; "systems"]} : gset string)) as H
      by (rewrite <- E; set_solver).
  set_solver.
Qed.

(** ** Loading twice *)

Lemma row_count_contents db n : row_count db n = length <$> contents db n.
Proof.
  unfold row_count, contents. destruct (database_setup.tables db !! n); [|reflexivity].
  simpl. unfold database_setup.logical. rewrite length_map. reflexivity.
Qed.

(** C9. When a run of [insert_data_from_csv] has succeeded, a second run with
    the same frame on the resulting database succeeds as well; it leaves
    every row of the planets table as it is, id and created_at included, and
    every table has the same logical contents (keys and non-autogenerated
    values, in the same order) and the same number of rows as after the
    first run. *)
Theorem load_twice_same_contents (render : number -> string) (ts ts' : string)
  (db db1 : database_setup.Database) (df : DataFrame) :
  database_setup.insert_data_from_csv render ts db df = Ok db1 ->
  exists db2,
    database_setup.insert_data_from_csv render ts' db1 df = Ok db2
    /\ database_setup.entries <$> database_setup.tables db2 !! "planets"
       = database_setup.entries <$> database_setup.tables db1 !! "planets"
    /\ (forall n, contents db2 n = contents db1 n)
    /\ (forall n, row_count db2 n = row_count db1 n).
Proof.
  rewrite !insert_data_closed_form.
  destruct (star_frame df) as [sd|e]; [|discriminate]. rewrite !bind_ok.
  destruct (system_frame df) as [yd|e]; [|discriminate]. rewrite !bind_ok.
  intros [= <-]. eexists. split; [reflexivity|].
  assert (C : forall n,
             contents
               (update_table "systems"
                  (grouped_pass database_setup.system_data_columns render ts' yd)
                  (update_table "stars"
                     (grouped_pass database_setup.star_data_columns render ts'
                        (database_setup.rename_columns sd
                           ("hostname" :: database_setup.star_data_columns)))
                     (update_table "planets" (planets_pass render ts' df)
                        (update_table "systems"
                           (grouped_pass database_setup.system_data_columns render ts yd)
                           (update_table "stars"
                              (grouped_pass database_setup.star_data_columns render ts
                                 (database_setup.rename_columns sd
                                    ("hostname" :: database_setup.star_data_columns)))
                              (update_table "planets" (planets_pass render ts df) db))))))
               n
             = contents
                 (update_table "systems"
                    (grouped_pass database_setup.system_data_columns render ts yd)
                    (update_table "stars"
                       (grouped_pass database_setup.star_data_columns render ts
                          (database_setup.rename_columns sd
                             ("hostname" :: database_setup.star_data_columns)))
                       (update_table "planets" (planets_pass render ts df) db)))
                 n).
  { intros n. unfold contents. rewrite !tables_update_table.
    destruct (decide (n = "systems")) as [->|N1].
    - cbn [decide]. repeat (rewrite decide_False by discriminate).
      rewrite !decide_True by reflexivity.
      destruct (database_setup.tables db !! "systems"); [|reflexivity].
      simpl. rewrite grouped_pass_twice. reflexivity.
    - destruct (decide (n = "stars")) as [->|N2].
      + repeat (rewrite decide_False by discriminate).
        rewrite !decide_True by reflexivity.
        repeat (rewrite decide_False by discriminate).
        destruct (database_setup.tables db !! "stars"); [|reflexivity].
        simpl. rewrite grouped_pass_twice. reflexivity.
      + destruct (decide (n = "planets")) as [->|N3].
        * repeat (rewrite decide_False by discriminate).
          rewrite !decide_True by reflexivity.
          repeat (rewrite decide_False by discriminate).
          destruct (database_setup.tables db !! "planets"); [|reflexivity].
          cbn [fmap option_fmap option_map]. unfold database_setup.logical.
          rewrite planets_pass_twice. reflexivity.
        * reflexivity. }
  split; [|split].
  - rewrite !tables_update_table.
    repeat (rewrite decide_False by discriminate).
    rewrite !decide_True by reflexivity.
    repeat (rewrite decide_False by discriminate).
    destruct (database_setup.tables db !! "planets"); [|reflexivity].
    rewrite !decide_True by reflexivity. cbn [fmap option_fmap option_map].
    rewrite planets_pass_twice. reflexivity.
  - exact C.
  - intros n. rewrite !row_count_contents, C. reflexivity.
Qed.

Lemma load_twice_witness :
  exists db2,
    database_setup.insert_data_from_csv (fun _ => "0"%string) "2026-01-02 00:00:00"
      loaded_once csv_frame = Ok db2
    /\ database_setup.entries <$> database_setup.tables db2 !! "planets"
       = database_setup.entries <$> database_setup.tables loaded_once !! "planets"
    /\ (forall n, contents db2 n = contents loaded_once n)
    /\ (forall n, row_count db2 n = row_count loaded_once n).
Proof.
  apply (load_twice_same_contents (fun _ => "0"%string) "2026-01-01 00:00:00"
           "2026-01-02 00:00:00" fresh_database loaded_once csv_frame).
  vm_compute. reflexivity.
Defined.

Example loaded_once_contents :
  contents loaded_once "stars"
  = Some [("51 Peg"%string,
           [Num (qz 5758); Null; Null; Null; Null; Null; int_cell 2]);
          ("TRAPPIST-1"%string,
           [Num (qz 2566); Null; Null; Null; Null; Null; int_cell 2])]
  /\ row_count loaded_once "planets" = Some 3%nat.
Proof. vm_compute. split; reflexivity. Qed.

(** ** The Explorer query *)

Lemma to_int_not_nil z : Z.to_int z <> Decimal.Pos Decimal.Nil /\ Z.to_int z <> Decimal.Neg Decimal.Nil.
Proof.
  destruct z as [|p|p]; simpl; split; try discriminate;
    intros [= H]; revert H; apply DecimalPos.Unsigned.to_uint_nonnil.
Qed.

Lemma str_int_inj a b : str_int a = str_int b -> a = b.
Proof.
  unfold str_int. intros H. apply DecimalZ.to_int_inj.
  destruct (to_int_not_nil a) as [A1 A2], (to_int_not_nil b) as [B1 B2].
  pose proof (NilZero.isi _ A1 A2) as Ha. pose proof (NilZero.isi _ B1 B2) as Hb.
  rewrite H in Ha. rewrite Ha in Hb. injection Hb as ->. reflexivity.
Qed.

Lemma append_assoc (a b c : string) : (a +:+ b) +:+ c = a +:+ (b +:+ c).
Proof.
  induction a as [|x a IH]; [reflexivity|].
  change (String x ((a +:+ b) +:+ c) = String x (a +:+ (b +:+ c))).
  f_equal. exact IH.
Qed.

Lemma append_length (a b : string) :
  String.length (a +:+ b) = (String.length a + String.length b)%nat.
Proof.
  induction a as [|x a IH]; [reflexivity|].
  change (S (String.length (a +:+ b)) = S (String.length a + String.length b)).
  f_equal. exact IH.
Qed.

Lemma append_cancel_l (a b c : string) : a +:+ b = a +:+ c -> b = c.
Proof.
  induction a as [|x a IH]; [auto|].
  change (String x (a +:+ b) = String x (a +:+ c) -> b = c).
  intros [= H]. apply IH, H.
Qed.

Lemma append_cancel_r (a b t : string) : a +:+ t = b +:+ t -> a = b.
Proof.
  revert b. induction a as [|x a IH]; intros [|y b] H.
  - reflexivity.
  - apply (f_equal String.length) in H.
    change (String.length t = S (String.length (b +:+ t))) in H.
    rewrite append_length in H. lia.
  - apply (f_equal String.length) in H.
    change (S (String.length (a +:+ t)) = String.length t) in H.
    rewrite append_length in H. lia.
  - change (String x (a +:+ t) = String y (b +:+ t)) in H.
    injection H as -> H. f_equal. apply IH, H.
Qed.

Lemma concat_snoc sep (l : list string) x :
  String.concat sep (l ++ [x])
  = match l with
    | [] => EmptyString
    | _ => String.concat sep l +:+ sep
    end +:+ x.
Proof.
  induction l as [|y l IH]; [reflexivity|].
  destruct l as [|z l].
  - simpl. rewrite append_assoc. reflexivity.
  - change (String.concat sep ((y :: z :: l) ++ [x]))
      with (y +:+ sep +:+ String.concat sep ((z :: l) ++ [x])).
    rewrite IH.
    change (String.concat sep (y :: z :: l))
      with (y +:+ sep +:+ String.concat sep (z :: l)).
    rewrite !append_assoc. reflexivity.
Qed.

Lemma conditions_last str_float f :
  exists before,
    forall h,
      App.conditions str_float (with_min_habitability f h)
      = before ++ ["habitability_score >= " +:+ str_int h].
Proof.
  exists (removelast (App.conditions str_float f)). intros h.
  unfold App.conditions, with_min_habitability.
  cbn [App.selected_methods App.year_range App.radius_range App.temp_range
         App.selected_types App.min_habitability].
  rewrite !List.app_assoc. rewrite removelast_last. reflexivity.
Qed.

(** C1 (as amended). The Explorer page passes no bound parameters: the
    statement handed to the database is the fixed SELECT ... WHERE 1=1 text,
    then " AND " and the conditions joined by " AND ", then the fixed
    ORDER BY ... LIMIT 1000 text, with the filter values written into the
    conditions; so equal selections give the same text, and two selections
    that differ only in the minimum habitability score give different
    texts. *)
Theorem explorer_query_interpolates_filters (str_float : number -> string) :
  (forall f,
      App.explorer_query str_float f
      = ((App.query_head +:+ " AND "
            +:+ String.concat " AND " (App.conditions str_float f))
           +:+ App.query_tail, []))
  /\ (forall f h1 h2,
        (App.explorer_query str_float (with_min_habitability f h1)).1
        = (App.explorer_query str_float (with_min_habitability f h2)).1 ->
        h1 = h2).
Proof.
  assert (Q : forall f,
             App.explorer_query str_float f
             = ((App.query_head +:+ " AND "
                   +:+ String.concat " AND " (App.conditions str_float f))
                  +:+ App.query_tail, [])).
  { intros f. unfold App.explorer_query.
    destruct (App.conditions str_float f) as [|c cs] eqn:E; [|reflexivity].
    exfalso. unfold App.conditions in E.
    apply (f_equal length) in E. rewrite !length_app in E. simpl in E. lia. }
  split; [exact Q|].
  intros f h1 h2. rewrite !Q. cbn [fst].
  destruct (conditions_last str_float f) as [before B]. rewrite !B, !concat_snoc.
  rewrite !append_assoc.
  intros H. apply append_cancel_l in H. apply append_cancel_l in H.
  rewrite <- !append_assoc in H. apply append_cancel_r in H.
  rewrite !append_assoc in H. apply append_cancel_l in H.
  apply append_cancel_l in H. apply str_int_inj, H.
Qed.

(** C1 as stated fails: the text of the query changes with the selection. *)
Lemma explorer_query_text_not_fixed :
  ~ (forall (str_float : number -> string) (f1 f2 : App.Filters),
        (App.explorer_query str_float f1).1 = (App.explorer_query str_float f2).1).
Proof.
  intros H.
  specialize (H (fun _ => "0"%string) default_filters
                (with_min_habitability default_filters 50)).
  apply (f_equal String.length) in H. vm_compute in H. discriminate.
Qed.

Example explorer_query_default :
  App.conditions (fun _ => "0.0"%string) default_filters
  = [ "disc_year BETWEEN 2000 AND 2025"; "pl_rade BETWEEN 0.0 AND 0.0";
      "pl_eqt BETWEEN 0 AND 3000"; "habitability_score >= 0" ]%string.
Proof. reflexivity. Qed.

(** * Further properties *)

(** ** What the cleaning functions raise and return *)

Lemma missing_column_head df c l :
  missing_column df (c :: l)
  = if decide (c ∈ columns df) then missing_column df l else Some c.
Proof.
  unfold missing_column. rewrite filter_cons.
  destruct (decide (c ∈ columns df)) as [H|H].
  - rewrite decide_False by (intros Hn; apply Hn; exact H). reflexivity.
  - rewrite decide_True by exact H. reflexivity.
Qed.

Lemma dropna_subset_missing c df :
  c ∉ columns df -> dropna_subset [c] df = Err (KeyError c).
Proof.
  intros H. unfold dropna_subset. rewrite missing_column_head.
  rewrite decide_False by exact H. reflexivity.
Qed.

(** The fetcher's cleaning pass on a frame that is not empty, by the first
    column it needs and does not find. *)
Lemma clean_nonempty_cases parse now df :
  df_empty df = false ->
  data_fetcher.clean_exoplanet_data parse now df
  = match missing_column df ["pl_name"; "disc_year"; "sy_dist"]%string with
    | Some c => Err (KeyError c)
    | None =>
        Ok (mkFrame (cleaned_columns df) (map (derive df now) (kept_rows parse df)))
    end.
Proof.
  intros He. rewrite !missing_column_head.
  destruct (decide ("pl_name" ∈ columns df)) as [Hn|Hn].
  - rewrite (clean_closed_form parse now df He Hn).
    destruct (decide ("disc_year" ∈ columns df)); [|reflexivity].
    destruct (decide ("sy_dist" ∈ columns df)); reflexivity.
  - unfold data_fetcher.clean_exoplanet_data. rewrite He.
    rewrite coerce_columns_rows, bind_ok.
    rewrite dropna_subset_missing by exact Hn. reflexivity.
Qed.

(** X1. [data_fetcher.clean_exoplanet_data] returns an empty frame as it is.
    On a frame that is not empty it raises KeyError for the first of pl_name,
    disc_year and sy_dist that is not a column, and with all three it returns
    a frame whose columns are those of the input followed by the derived
    columns that were not there already. *)
Theorem clean_raises_or_returns parse now (df : DataFrame) :
  (df_empty df = true -> data_fetcher.clean_exoplanet_data parse now df = Ok df)
  /\ (df_empty df = false ->
      match missing_column df ["pl_name"; "disc_year"; "sy_dist"]%string with
      | Some c => data_fetcher.clean_exoplanet_data parse now df = Err (KeyError c)
      | None =>
          exists out,
            data_fetcher.clean_exoplanet_data parse now df = Ok out
            /\ columns out = cleaned_columns df
            /\ (length (rows out) <= length (rows df))%nat
      end).
Proof.
  split.
  - intros He. unfold data_fetcher.clean_exoplanet_data. rewrite He. reflexivity.
  - intros He. rewrite (clean_nonempty_cases parse now df He).
    destruct (missing_column df _); [reflexivity|].
    eexists. split; [reflexivity|]. split; [reflexivity|].
    cbn [rows]. rewrite length_map, kept_rows_fetcher_kept, length_map.
    unfold fetcher_kept.
    etransitivity; [apply sublist_length, drop_seen_sublist|].
    apply length_filter.
Qed.

Lemma drop_duplicates_rowless c df :
  rows df = [] ->
  drop_duplicates c df = Ok (mkFrame (columns df) (drop_seen c [] (rows df))).
Proof.
  intros Hr. unfold drop_duplicates, df_empty. rewrite Hr.
  destruct df as [cols rs]. simpl in Hr. subst rs. reflexivity.
Qed.

(** The closed form holds on empty frames too, with or without pl_name. *)
Lemma extraction_cases parse df :
  "pl_name" ∈ columns df \/ df_empty df = true ->
  data_extraction.clean_exoplanet_data parse df
  = if decide ("disc_year" ∈ columns df) then
      match missing_column df ["pl_rade"; "pl_eqt"; "pl_orbper"]%string with
      | Some c => Err (KeyError c)
      | None =>
          Ok (mkFrame (columns df)
                (map (extraction_row parse df) (extraction_kept parse df)))
      end
    else Err (KeyError "disc_year").
Proof.
  intros [Hn|He]; [apply extraction_closed_form, Hn|].
  destruct (empty_frame_cases df He) as [Hr|Hc].
  - apply extraction_after_drop, drop_duplicates_rowless, Hr.
  - rewrite decide_False by (rewrite Hc; apply not_elem_of_nil).
    unfold data_extraction.clean_exoplanet_data, drop_duplicates.
    rewrite He, bind_ok. destruct df as [cols rs]. simpl in Hc. subst cols.
    rewrite column_missing by apply not_elem_of_nil. reflexivity.
Qed.

Lemma extraction_needs_pl_name parse df :
  df_empty df = false -> "pl_name" ∉ columns df ->
  data_extraction.clean_exoplanet_data parse df = Err (KeyError "pl_name").
Proof.
  intros He Hn. unfold data_extraction.clean_exoplanet_data, drop_duplicates.
  rewrite He. replace (has_col df "pl_name") with false; [reflexivity|].
  symmetry. apply bool_decide_eq_false. exact Hn.
Qed.

(** X2. On a frame that is not empty, [data_extraction.clean_exoplanet_data]
    raises KeyError 'pl_name' when there is no pl_name column.  On a frame
    that has pl_name, and on every empty frame (where the duplicates are not
    looked for), it raises KeyError 'disc_year' when there is no disc_year
    column, else a KeyError for a critical column that is missing; with
    these columns it returns a frame with the columns of the input and no
    more rows than the input. *)
Theorem extraction_raises_or_returns parse (df : DataFrame) :
  (df_empty df = false -> "pl_name" ∉ columns df ->
   data_extraction.clean_exoplanet_data parse df = Err (KeyError "pl_name"))
  /\ ("pl_name" ∈ columns df \/ df_empty df = true -> "disc_year" ∉ columns df ->
      data_extraction.clean_exoplanet_data parse df = Err (KeyError "disc_year"))
  /\ ("pl_name" ∈ columns df \/ df_empty df = true -> "disc_year" ∈ columns df ->
      ~ Forall (fun c => c ∈ columns df) ["pl_rade"; "pl_eqt"; "pl_orbper"]%string ->
      exists c,
        (c ∈ ["pl_rade"; "pl_eqt"; "pl_orbper"]%string)
        /\ (c ∉ columns df)
        /\ data_extraction.clean_exoplanet_data parse df = Err (KeyError c))
  /\ ("pl_name" ∈ columns df \/ df_empty df = true -> "disc_year" ∈ columns df ->
      Forall (fun c => c ∈ columns df) ["pl_rade"; "pl_eqt"; "pl_orbper"]%string ->
      exists out,
        data_extraction.clean_exoplanet_data parse df = Ok out
        /\ columns out = columns df
        /\ (length (rows out) <= length (rows df))%nat).
Proof.
  split; [|split; [|split]].
  - apply extraction_needs_pl_name.
  - intros Hn Hy. rewrite (extraction_cases parse df Hn).
    rewrite decide_False by exact Hy. reflexivity.
  - intros Hn Hy Hc. rewrite (extraction_cases parse df Hn).
    rewrite decide_True by exact Hy.
    destruct (missing_column df _) as [c|] eqn:E.
    + exists c. split; [|split; [|reflexivity]].
      * unfold missing_column in E. apply head_Some_elem_of in E.
        apply list_elem_of_filter in E as [_ E]. exact E.
      * unfold missing_column in E. apply head_Some_elem_of in E.
        apply list_elem_of_filter in E as [E _]. exact E.
    + exfalso. apply Hc. apply missing_column_none. exact E.
  - intros Hn Hy Hc. rewrite (extraction_cases parse df Hn).
    rewrite decide_True by exact Hy.
    rewrite (missing_column_present df _ Hc).
    eexists. split; [reflexivity|]. split; [reflexivity|].
    cbn [rows]. rewrite length_map. unfold extraction_kept.
    etransitivity; [apply length_filter|].
    apply sublist_length, drop_seen_sublist.
Qed.

Example extraction_of_empty_frames :
  data_extraction.clean_exoplanet_data (fun _ => None) empty_frame
  = Err (KeyError "disc_year")
  /\ data_extraction.clean_exoplanet_data (fun _ => None)
       (mkFrame ["disc_year"; "pl_rade"; "pl_eqt"; "pl_orbper"] [])
     = Ok (mkFrame ["disc_year"; "pl_rade"; "pl_eqt"; "pl_orbper"] []).
Proof. split; reflexivity. Qed.

(** ** The rows of a cleaned frame *)

Lemma numeric_column_not_derived c :
  c ∈ data_fetcher.numeric_columns ->
  c ∉ ["habitability_score"; "planet_type"; "discovery_era"; "distance_category";
       "data_fetched_at"]%string.
Proof.
  unfold data_fetcher.numeric_columns. intros H.
  repeat (apply elem_of_cons in H as [->|H]; [not_in_list|]).
  apply elem_of_nil in H. destruct H.
Qed.

Lemma has_col_cleaned df rs c :
  c ∉ ["habitability_score"; "planet_type"; "discovery_era"; "distance_category";
       "data_fetched_at"]%string ->
  has_col (mkFrame (cleaned_columns df) rs) c = has_col df c.
Proof.
  intros H. unfold has_col, cleaned_columns. cbn [columns].
  apply bool_decide_ext.
  rewrite !elem_of_add_column_ne; [reflexivity|..];
    intros E; apply H; rewrite <- E; repeat constructor.
Qed.

Lemma value_cleaned df now rs r0 c :
  c ∉ ["habitability_score"; "planet_type"; "discovery_era"; "distance_category";
       "data_fetched_at"]%string ->
  value (mkFrame (cleaned_columns df) rs) (derive df now r0) c = value df r0 c.
Proof.
  intros H. unfold value. rewrite has_col_cleaned by exact H.
  rewrite derive_get by exact H. reflexivity.
Qed.

Lemma derive_get_score df now r :
  get (derive df now r) "habitability_score" = int_cell (score_value df r).
Proof.
  unfold derive. rewrite !get_set_cell_ne by discriminate.
  rewrite get_set_cell, decide_True by reflexivity. reflexivity.
Qed.

Lemma derive_get_type df now r :
  get (derive df now r) "planet_type" = Str (classify_value (value df r "pl_rade")).
Proof.
  unfold derive. rewrite !get_set_cell_ne by discriminate.
  rewrite get_set_cell, decide_True by reflexivity. reflexivity.
Qed.

Lemma derive_get_fetched_at df now r :
  get (derive df now r) "data_fetched_at" = Str now.
Proof. unfold derive. rewrite get_set_cell, decide_True by reflexivity. reflexivity. Qed.

Lemma kept_rows_named parse df r :
  r ∈ kept_rows parse df -> get r "pl_name" <> Null.
Proof.
  unfold kept_rows. intros H.
  apply (sublist_subseteq _ _ (drop_seen_sublist _ _ _)) in H.
  apply list_elem_of_filter in H as [Hq _].
  inversion Hq; subst. assumption.
Qed.

(** X3. In the frame the fetcher's cleaning pass returns for a frame that is
    not empty, every row has a planet name, its habitability_score is the
    three-criterion score of its own pl_rade, pl_eqt and pl_orbper, its
    planet_type is the category of its own pl_rade, and its data_fetched_at
    is the time of the run; and no column of the numeric list holds a
    string. *)
Theorem cleaned_rows_are_consistent parse now (df out : DataFrame) :
  df_empty df = false ->
  data_fetcher.clean_exoplanet_data parse now df = Ok out ->
  Forall (fun r =>
            get r "pl_name" <> Null
            /\ (exists s, get r "habitability_score" = int_cell s
                          /\ three_criteria out r s)
            /\ (exists t, get r "planet_type" = Str t
                          /\ radius_category (value out r "pl_rade") t)
            /\ get r "data_fetched_at" = Str now)
    (rows out)
  /\ (forall c, c ∈ data_fetcher.numeric_columns -> numeric out c).
Proof.
  intros He E. rewrite (clean_nonempty_cases parse now df He) in E.
  destruct (missing_column df _); [discriminate|]. injection E as <-.
  assert (V : forall r0 c,
             c ∈ data_fetcher.numeric_columns ->
             value (mkFrame (cleaned_columns df)
                      (map (derive df now) (kept_rows parse df)))
               (derive df now r0) c
             = value df r0 c).
  { intros r0 c Hc. apply value_cleaned, numeric_column_not_derived, Hc. }
  assert (N : forall r0 c,
             r0 ∈ kept_rows parse df -> c ∈ data_fetcher.numeric_columns ->
             is_str (value df r0 c) = false).
  { intros r0 c Hr Hc. pose proof (kept_rows_numeric parse df c Hc) as K.
    unfold numeric in K. rewrite Forall_forall in K. apply (K r0 Hr). }
  split.
  - cbn [rows]. rewrite Forall_fmap. apply Forall_forall. intros r0 Hr.
    change (get (derive df now r0) "pl_name" <> Null
            /\ (exists s, get (derive df now r0) "habitability_score" = int_cell s
                          /\ three_criteria
                               (mkFrame (cleaned_columns df)
                                  (map (derive df now) (kept_rows parse df)))
                               (derive df now r0) s)
            /\ (exists t, get (derive df now r0) "planet_type" = Str t
                          /\ radius_category
                               (value (mkFrame (cleaned_columns df)
                                         (map (derive df now) (kept_rows parse df)))
                                  (derive df now r0) "pl_rade") t)
            /\ get (derive df now r0) "data_fetched_at" = Str now).
    split; [|split; [|split]].
    + rewrite derive_get by not_in_list. apply (kept_rows_named parse df r0 Hr).
    + exists (score_value df r0). split; [apply derive_get_score|].
      unfold three_criteria.
      rewrite !V by (apply in_numeric_columns; reflexivity).
      eexists _, _, _. split; [|split; [|split]].
      2: apply (points_criterion 35); lia.
      2: apply (points_criterion 40); lia.
      2: apply (points_criterion 25); lia.
      unfold score_value. lia.
    + exists (classify_value (value df r0 "pl_rade")). split; [apply derive_get_type|].
      rewrite V by (apply in_numeric_columns; reflexivity).
      apply classify_value_category, N; [exact Hr|].
      apply in_numeric_columns. reflexivity.
    + apply derive_get_fetched_at.
  - intros c Hc. unfold numeric. cbn [rows]. rewrite Forall_fmap.
    apply Forall_forall. intros r0 Hr.
    change (is_str (value (mkFrame (cleaned_columns df)
                             (map (derive df now) (kept_rows parse df)))
                      (derive df now r0) c) = false).
    rewrite V by exact Hc. apply N; assumption.
Qed.

Lemma cleaned_rows_witness :
  Forall (fun r =>
            get r "pl_name" <> Null
            /\ (exists s, get r "habitability_score" = int_cell s
                          /\ three_criteria cleaned_catalogue r s)
            /\ (exists t, get r "planet_type" = Str t
                          /\ radius_category (value cleaned_catalogue r "pl_rade") t)
            /\ get r "data_fetched_at" = Str "2026-01-01 00:00:00")
    (rows cleaned_catalogue)
  /\ (forall c, c ∈ data_fetcher.numeric_columns -> numeric cleaned_catalogue c).
Proof.
  apply (cleaned_rows_are_consistent (fun _ => None) "2026-01-01 00:00:00"
           catalogue cleaned_catalogue).
  - reflexivity.
  - vm_compute. reflexivity.
Defined.

(** X4. When the critical columns pl_rade, pl_eqt and pl_orbper of the input
    hold no string, every row [data_extraction.clean_exoplanet_data] returns
    has a value in each of them. *)
Theorem extraction_keeps_measured_rows parse (df out : DataFrame) :
  "pl_name" ∈ columns df ->
  float_column (rows df) "pl_rade" ->
  float_column (rows df) "pl_eqt" ->
  float_column (rows df) "pl_orbper" ->
  data_extraction.clean_exoplanet_data parse df = Ok out ->
  Forall (fun r => get r "pl_rade" <> Null
                   /\ get r "pl_eqt" <> Null
                   /\ get r "pl_orbper" <> Null) (rows out).
Proof.
  intros Hn H1 H2 H3 E.
  pose proof (extraction_critical_values_when_numeric parse df out "pl_rade" Hn
                ltac:(repeat constructor) H1 E) as F1.
  pose proof (extraction_critical_values_when_numeric parse df out "pl_eqt" Hn
                ltac:(repeat constructor) H2 E) as F2.
  pose proof (extraction_critical_values_when_numeric parse df out "pl_orbper" Hn
                ltac:(repeat constructor) H3 E) as F3.
  rewrite Forall_forall in F1, F2, F3. apply Forall_forall. intros r Hr.
  split; [|split]; auto.
Qed.

Lemma extraction_keeps_measured_witness :
  Forall (fun r => get r "pl_rade" <> Null
                   /\ get r "pl_eqt" <> Null
                   /\ get r "pl_orbper" <> Null) (rows measured_cleaned).
Proof.
  apply (extraction_keeps_measured_rows (fun _ => None) measured measured_cleaned).
  - repeat constructor.
  - repeat constructor.
  - repeat constructor.
  - repeat constructor.
  - vm_compute. reflexivity.
Defined.

(** ** The requests and the outcome of the fetcher script *)

Lemma requests_app t t' : requests (t ++ t') = requests t ++ requests t'.
Proof. apply omap_app. Qed.

Lemma offline_bind {A B} (m : io A) (k : A -> io B) :
  offline m -> (forall a, offline (k a)) -> offline (io_bind m k).
Proof.
  intros Hm Hk. unfold offline. rewrite io_bind_trace, requests_app, Hm.
  destruct (m.2) as [e|a]; [reflexivity|]. apply Hk.
Qed.

Lemma offline_print s : offline (print s).
Proof. reflexivity. Qed.

Lemma offline_ret {A} (a : A) : offline (io_ret a).
Proof. reflexivity. Qed.

Lemma offline_raise {A} e : offline (@raise A e).
Proof. reflexivity. Qed.

Lemma offline_lift {A} (r : exn + A) : offline (lift r).
Proof. reflexivity. Qed.

Lemma offline_lift_result {A} (r : result A) : offline (lift_result r).
Proof. destruct r; reflexivity. Qed.

Lemma offline_to_csv f df : offline (emit (ToCsv f df)).
Proof. reflexivity. Qed.

Lemma offline_when b m : offline m -> offline (data_fetcher.when b m).
Proof. intros H. destruct b; [exact H|apply offline_ret]. Qed.

Lemma offline_call {A} f (m : io A) : offline m -> offline (call f m).
Proof. intros H. unfold offline. rewrite call_trace. exact H. Qed.

Ltac offline_steps :=
  repeat first
    [ apply offline_print | apply offline_ret | apply offline_raise | apply offline_lift
    | apply offline_lift_result | apply offline_to_csv | apply offline_when
    | apply offline_call
    | apply offline_bind; [|intros ?]
    | match goal with |- offline (match ?x with _ => _ end) => destruct x end ].

Lemma offline_summary W df : offline (data_fetcher.summary W df).
Proof. unfold data_fetcher.summary. offline_steps. Qed.

Lemma offline_save_to_csv W df f : offline (data_fetcher.save_to_csv W df f).
Proof. unfold data_fetcher.save_to_csv. offline_steps. Qed.

(** The events of [fetch_exoplanet_data]: three lines, the request, and
    then neither a request nor a file. *)
Lemma fetch_trace_request W :
  exists t,
    (data_fetcher.fetch_exoplanet_data W).1
    = Print "🚀 Fetching ALL exoplanet data from NASA..."
        :: Print data_fetcher.rule
        :: Print "📡 Connecting to NASA Exoplanet Archive..."
        :: HttpGet data_fetcher.base_url :: t
    /\ requests t = [] /\ csv_writes t = [].
Proof.
  unfold data_fetcher.fetch_exoplanet_data, data_fetcher.fetch_body.
  destruct (http_get W) as [e|response]; cbn.
  { destruct e as [[] ?]; cbn; eexists; split; try reflexivity; split; reflexivity. }
  destruct (status_error response) as [e|]; cbn.
  { destruct e as [[] ?]; cbn; eexists; split; try reflexivity; split; reflexivity. }
  destruct (body response) as [e|data]; cbn.
  { destruct e as [[] ?]; cbn; eexists; split; try reflexivity; split; reflexivity. }
  destruct (payload_len data) as [e|n]; cbn.
  { destruct e as [[] ?]; cbn; eexists; split; try reflexivity; split; reflexivity. }
  destruct (payload_frame data) as [e|df]; cbn.
  { destruct e as [[] ?]; cbn; eexists; split; try reflexivity; split; reflexivity. }
  eexists; split; try reflexivity; split; reflexivity.
Qed.

(** X5. Whatever the service does, [fetch_exoplanet_data] sends exactly one
    request, to the fixed address of the archive, and so does [main]: no
    retry follows a failure, and in [main] the request comes before any file
    is written. *)
Theorem fetcher_sends_one_request (W : World) :
  requests (data_fetcher.fetch_exoplanet_data W).1 = [data_fetcher.base_url]
  /\ requests (data_fetcher.main W).1 = [data_fetcher.base_url]
  /\ exists t1 t2,
       (data_fetcher.main W).1 = t1 ++ HttpGet data_fetcher.base_url :: t2
       /\ requests t1 = [] /\ csv_writes t1 = [] /\ requests t2 = [].
Proof.
  destruct (fetch_trace_request W) as (t & E & R & _).
  assert (M : exists t2,
             (data_fetcher.main W).1
             = [ Print "🌌 NASA Exoplanet Data Fetcher"; Print data_fetcher.rule;
                 Call "fetch_exoplanet_data";
                 Print "🚀 Fetching ALL exoplanet data from NASA...";
                 Print data_fetcher.rule;
                 Print "📡 Connecting to NASA Exoplanet Archive..." ]
               ++ HttpGet data_fetcher.base_url :: t2
             /\ requests t2 = []).
  { unfold data_fetcher.main. rewrite !print_bind_trace, call_bind_trace, E.
    eexists. split; [reflexivity|]. rewrite requests_app, R. cbn [app].
    destruct ((data_fetcher.fetch_exoplanet_data W).2) as [e|raw_df]; [reflexivity|].
    change (offline
              (if df_empty raw_df
               then print (nl ++ "❌ Failed to fetch data. Please check your internet connection and try again.")
               else
                 io_bind
                   (call "clean_exoplanet_data"
                      (lift_result
                         (data_fetcher.clean_exoplanet_data (parse_number W) (now W) raw_df)))
                   (fun clean_df =>
                      if df_empty clean_df
                      then print (nl ++ "❌ Failed to clean data.")
                      else
                        io_bind
                          (call "save_to_csv"
                             (data_fetcher.save_to_csv W clean_df "exoplanet_data.csv"))
                          (fun _ =>
                             io_bind (data_fetcher.summary W clean_df)
                               (fun _ =>
                                  io_bind
                                    (print (nl ++ "🎉 All done! You can now use 'exoplanet_data.csv' in your Streamlit app"))
                                    (fun _ =>
                                       print (nl ++ "💡 Next step: Run 'python database_setup.py' to create the database"))))))).
    destruct (df_empty raw_df); [apply offline_print|].
    apply offline_bind; [apply offline_call, offline_lift_result|intros clean_df].
    destruct (df_empty clean_df); [apply offline_print|].
    apply offline_bind; [apply offline_call, offline_save_to_csv|intros _].
    apply offline_bind; [apply offline_summary|intros _].
    apply offline_bind; [apply offline_print|intros _]. apply offline_print. }
  assert (U : forall pre t0,
             requests pre = [] -> requests t0 = [] ->
             requests (pre ++ HttpGet data_fetcher.base_url :: t0)
             = [data_fetcher.base_url]).
  { intros pre t0 Hp Ht.
    change (HttpGet data_fetcher.base_url :: t0)
      with ([HttpGet data_fetcher.base_url] ++ t0).
    rewrite !requests_app, Hp, Ht. reflexivity. }
  split; [rewrite E; apply (U [_; _; _] t); [reflexivity|exact R]|].
  destruct M as (t2 & M & R2). split.
  - rewrite M. apply U; [reflexivity|exact R2].
  - eexists _, t2. split; [exact M|]. split; [reflexivity|]. split; [reflexivity|exact R2].
Qed.

Lemma bind_result_print {B} s (k : unit -> io B) : (io_bind (print s) k).2 = (k tt).2.
Proof. unfold io_bind, print, emit. destruct (k tt). reflexivity. Qed.

Lemma series_gt_float rs c t :
  float_column rs c -> exists m, series_gt (map (fun r => get r c) rs) t = Ok m.
Proof.
  unfold series_gt. induction 1 as [|r rs Hr _ [m IH]]; [eexists; reflexivity|].
  cbn [map map_result]. rewrite IH.
  destruct (get r c); [eexists; reflexivity..|discriminate].
Qed.

Lemma numbers_of_float rs c :
  float_column rs c ->
  exists xs, data_fetcher.numbers_of (map (fun r => get r c) rs) = Ok xs.
Proof.
  induction 1 as [|r rs Hr _ [xs IH]]; [eexists; reflexivity|].
  cbn [map data_fetcher.numbers_of].
  destruct (get r c); [eexists; exact IH|rewrite IH; eexists; reflexivity|discriminate].
Qed.

(** The summary raises nothing when the score and the year hold no string. *)
Lemma summary_result W df :
  float_column (rows df) "habitability_score" ->
  float_column (rows df) "disc_year" ->
  (data_fetcher.summary W df).2 = inr tt.
Proof.
  intros Hs Hy. unfold data_fetcher.summary.
  rewrite !bind_result_print.
  assert (C : forall c (f : list cell -> string),
             (data_fetcher.when (has_col df c)
                (io_bind (lift_result (column df c)) (fun s => print (f s)))).2
             = inr tt).
  { intros c f. unfold data_fetcher.when, column. destruct (has_col df c); reflexivity. }
  rewrite io_bind_result, C. rewrite io_bind_result, C.
  rewrite io_bind_result.
  assert (S1 : (data_fetcher.when (has_col df "habitability_score")
                  (io_bind (lift_result (column df "habitability_score"))
                     (fun s =>
                        io_bind (lift_result (series_gt s (qz 50)))
                          (fun m =>
                             print ("Potentially Habitable: "
                                      ++ str_nat (length (filter (fun b => b = true) m))))))).2
               = inr tt).
  { unfold data_fetcher.when, column.
    destruct (has_col df "habitability_score"); [|reflexivity].
    destruct (series_gt_float _ _ (qz 50) Hs) as [m E].
    cbn [lift_result io_ret io_bind]. rewrite E. reflexivity. }
  rewrite S1. rewrite io_bind_result.
  assert (S2 : (data_fetcher.when (has_col df "disc_year")
                  (io_bind (lift_result (column df "disc_year"))
                     (fun s =>
                        io_bind (lift_result (data_fetcher.numbers_of s))
                          (fun valid_years =>
                             match valid_years with
                             | [] => io_ret tt
                             | y :: ys =>
                                 print ("Date Range: "
                                          ++ format_0f W (foldl data_fetcher.num_min y ys)
                                          ++ " - "
                                          ++ format_0f W (foldl data_fetcher.num_max y ys))
                             end)))).2
               = inr tt).
  { unfold data_fetcher.when, column.
    destruct (has_col df "disc_year"); [|reflexivity].
    destruct (numbers_of_float _ _ Hy) as [xs E].
    cbn [lift_result io_ret io_bind]. rewrite E. destruct xs; reflexivity. }
  rewrite S2. reflexivity.
Qed.

Lemma save_to_csv_result W df f :
  df_empty df = false ->
  (data_fetcher.save_to_csv W df f).2
  = match to_csv_error W with Some e => inl e | None => inr tt end.
Proof.
  intros He. unfold data_fetcher.save_to_csv. rewrite He.
  destruct (to_csv_error W); reflexivity.
Qed.

Lemma cleaned_summarised parse now df out :
  df_empty df = false ->
  data_fetcher.clean_exoplanet_data parse now df = Ok out ->
  float_column (rows out) "habitability_score" /\ float_column (rows out) "disc_year".
Proof.
  intros He E. rewrite (clean_nonempty_cases parse now df He) in E.
  destruct (missing_column df _) eqn:M; [discriminate|]. injection E as <-.
  apply missing_column_none in M.
  assert ("disc_year" ∈ columns df) as Hy.
  { rewrite Forall_forall in M. apply M. repeat constructor. }
  unfold float_column. cbn [rows]. rewrite !Forall_fmap. split.
  - apply Forall_forall. intros r0 _.
    change (is_str (get (derive df now r0) "habitability_score") = false).
    rewrite derive_get_score. reflexivity.
  - apply Forall_forall. intros r0 Hr.
    change (is_str (get (derive df now r0) "disc_year") = false).
    rewrite derive_get by not_in_list.
    pose proof (kept_rows_float parse df "disc_year"
                  ltac:(apply in_numeric_columns; reflexivity) Hy) as F.
    unfold float_column in F. rewrite Forall_forall in F. apply F, Hr.
Qed.

(** X6. [main] raises in three cases only: the fetch let an exception
    through, the cleaning raised a KeyError, or the CSV file could not be
    written; in every other case it returns, and the summary it prints of a
    cleaned frame raises nothing. *)
Theorem main_returns_or_raises (W : World) :
  (data_fetcher.main W).2 = main_outcome W.
Proof.
  unfold data_fetcher.main, main_outcome, fetch_result.
  rewrite !bind_result_print, io_bind_result, call_result.
  destruct ((data_fetcher.fetch_exoplanet_data W).2) as [e|raw_df]; [reflexivity|].
  destruct (df_empty raw_df) eqn:Hr; [reflexivity|].
  rewrite io_bind_result, call_result.
  destruct (data_fetcher.clean_exoplanet_data _ _ raw_df) as [clean_df|err] eqn:E;
    [|reflexivity].
  cbn [lift_result io_ret snd].
  destruct (df_empty clean_df) eqn:Hc; [reflexivity|].
  rewrite io_bind_result, call_result, (save_to_csv_result W clean_df _ Hc).
  destruct (to_csv_error W); [reflexivity|].
  destruct (cleaned_summarised _ _ _ _ Hr E) as [Hs Hy].
  rewrite io_bind_result, (summary_result W clean_df Hs Hy).
  rewrite bind_result_print. reflexivity.
Qed.

(** X7. An exception of the request that is not an instance of Exception,
    such as KeyboardInterrupt, is caught by neither handler of
    [fetch_exoplanet_data]: it leaves the function, and [main] with it. *)
Theorem fetch_lets_base_exceptions_through (W : World) (e : exn) :
  failure W = Some e -> class e = NotException ->
  (data_fetcher.fetch_exoplanet_data W).2 = inl e
  /\ (data_fetcher.main W).2 = inl e.
Proof.
  intros F C. pose proof (fetch_propagates_non_exception W e F C) as P.
  split; [exact P|].
  unfold data_fetcher.main.
  rewrite !bind_result_print, io_bind_result, call_result, P. reflexivity.
Qed.

Lemma fetch_lets_base_exceptions_through_witness :
  (data_fetcher.fetch_exoplanet_data interrupted).2
  = inl (mkExn NotException "KeyboardInterrupt")
  /\ (data_fetcher.main interrupted).2 = inl (mkExn NotException "KeyboardInterrupt").
Proof.
  apply (fetch_lets_base_exceptions_through interrupted
           (mkExn NotException "KeyboardInterrupt")); reflexivity.
Defined.

(** ** Creating the database *)




(** A planets table with the name column only: the first index on it cannot
    be made, and stars and systems, made before, stay in the file. *)
Example create_database_narrow_planets :
  (database_setup.create_database narrow_planets).2 = database_setup.Raised
  /\ database_setup.tables (database_setup.create_database narrow_planets).1 !! "planets"
     = database_setup.tables narrow_planets !! "planets"
  /\ database_setup.tables (database_setup.create_database narrow_planets).1 !! "stars"
     = Some (fresh_table "hostname" database_setup.star_data_columns)
  /\ database_setup.tables (database_setup.create_database narrow_planets).1 !! "systems"
     = Some (fresh_table "hostname" database_setup.system_data_columns).
Proof. repeat split; vm_compute; reflexivity. Qed.

(** ** What the loader needs and what it leaves alone *)

Lemma groupby_agg_ok df by_ aggs :
  (exists out, database_setup.groupby_agg df by_ aggs = Ok out)
  <-> Forall (fun c => c ∈ columns df) (by_ :: map fst aggs).
Proof.
  unfold database_setup.groupby_agg. split.
  - intros [out E]. apply missing_column_none.
    destruct (missing_column df _); [discriminate|reflexivity].
  - intros H. rewrite (missing_column_present _ _ H). eexists. reflexivity.
Qed.

Lemma groupby_agg_err df by_ aggs e :
  database_setup.groupby_agg df by_ aggs = Err e ->
  exists c, e = KeyError c /\ c ∈ by_ :: map fst aggs /\ c ∉ columns df.
Proof.
  unfold database_setup.groupby_agg.
  destruct (missing_column df _) as [c|] eqn:M; [|discriminate].
  intros [= <-]. exists c. split; [reflexivity|].
  unfold missing_column in M. apply head_Some_elem_of in M.
  apply list_elem_of_filter in M as [Hn Hin]. split; assumption.
Qed.

Lemma loader_ok_iff render ts db df :
  (exists db', database_setup.insert_data_from_csv render ts db df = Ok db')
  <-> Forall (fun c => c ∈ columns df) grouping_columns.
Proof.
  rewrite insert_data_closed_form. split.
  - intros [db' E].
    destruct (star_frame df) as [sd|e] eqn:S; [|discriminate]. rewrite bind_ok in E.
    destruct (system_frame df) as [yd|e] eqn:Y; [|discriminate].
    assert (S' : Forall (fun c => c ∈ columns df)
                   ["hostname"; "st_teff"; "st_rad"; "st_mass"; "st_met"; "st_logg";
                    "st_age"; "pl_name"]%string).
    { apply (proj1 (groupby_agg_ok df "hostname" star_aggs)). exists sd. exact S. }
    assert (Y' : Forall (fun c => c ∈ columns df)
                   ["hostname"; "sy_snum"; "sy_pnum"; "sy_dist"; "sy_gaiamag"]%string).
    { apply (proj1 (groupby_agg_ok df "hostname" system_aggs)). exists yd. exact Y. }
    unfold grouping_columns.
    apply Forall_cons in Y' as [_ Y'].
    change (Forall (fun c => c ∈ columns df)
              (["hostname"; "st_teff"; "st_rad"; "st_mass"; "st_met"; "st_logg";
                "st_age"; "pl_name"]%string
               ++ ["sy_snum"; "sy_pnum"; "sy_dist"; "sy_gaiamag"]%string)).
    apply Forall_app. split; assumption.
  - intros H. unfold grouping_columns in H.
    change (Forall (fun c => c ∈ columns df)
              (["hostname"; "st_teff"; "st_rad"; "st_mass"; "st_met"; "st_logg";
                "st_age"; "pl_name"]%string
               ++ ["sy_snum"; "sy_pnum"; "sy_dist"; "sy_gaiamag"]%string)) in H.
    apply Forall_app in H as [S' Y'].
    assert (Hh : "hostname" ∈ columns df) by (apply Forall_cons in S' as [Hh _]; exact Hh).
    destruct (proj2 (groupby_agg_ok df "hostname" star_aggs) S') as [sd S].
    destruct (proj2 (groupby_agg_ok df "hostname" system_aggs)
                (Forall_cons_2 (fun c => c ∈ columns df) _ _ Hh Y')) as [yd Y].
    change (star_frame df = Ok sd) in S. change (system_frame df = Ok yd) in Y.
    rewrite S, bind_ok, Y, bind_ok.
    eexists. reflexivity.
Qed.

(** X9. [insert_data_from_csv] returns exactly when the frame has the twelve
    columns it groups by and aggregates (hostname, the six star columns,
    pl_name and the four system columns), and raises a KeyError otherwise;
    none of the other planet columns is needed, and neither is any table:
    on a database without tables it returns the database as it was. *)
Theorem loader_needs_grouping_columns (render : number -> string) (ts : string)
  (db : database_setup.Database) (df : DataFrame) :
  ((exists db', database_setup.insert_data_from_csv render ts db df = Ok db')
   <-> Forall (fun c => c ∈ columns df) grouping_columns)
  /\ (forall e, database_setup.insert_data_from_csv render ts db df = Err e ->
        exists c, e = KeyError c /\ c ∈ grouping_columns /\ c ∉ columns df)
  /\ (database_setup.tables db = ∅ ->
      Forall (fun c => c ∈ columns df) grouping_columns ->
      database_setup.insert_data_from_csv render ts db df = Ok db).
Proof.
  split; [apply loader_ok_iff|]. split.
  - intros e. rewrite insert_data_closed_form.
    destruct (star_frame df) as [sd|e1] eqn:S.
    + rewrite bind_ok. destruct (system_frame df) as [yd|e2] eqn:Y; [discriminate|].
      intros H. change (@Err database_setup.Database e2 = Err e) in H.
      injection H as <-.
      destruct (groupby_agg_err df "hostname" system_aggs e2 Y) as (c & -> & Hin & Hn).
      exists c. split; [reflexivity|]. split; [|exact Hn].
      revert Hin. unfold grouping_columns, system_aggs. cbn [map fst].
      rewrite !elem_of_cons, elem_of_nil. tauto.
    + intros H. change (@Err database_setup.Database e1 = Err e) in H.
      injection H as <-.
      destruct (groupby_agg_err df "hostname" star_aggs e1 S) as (c & -> & Hin & Hn).
      exists c. split; [reflexivity|]. split; [|exact Hn].
      revert Hin. unfold grouping_columns, star_aggs. cbn [map fst].
      rewrite !elem_of_cons, elem_of_nil. tauto.
  - intros Ht H. destruct (proj2 (loader_ok_iff render ts db df) H) as [db' E].
    rewrite E. f_equal. rewrite insert_data_closed_form in E.
    destruct (star_frame df) as [sd|e]; [|discriminate]. rewrite bind_ok in E.
    destruct (system_frame df) as [yd|e]; [|discriminate]. rewrite bind_ok in E.
    injection E as <-.
    assert (U : forall n f db0,
               database_setup.tables db0 = ∅ -> update_table n f db0 = db0).
    { intros n f db0 H0. unfold update_table. rewrite H0, lookup_empty. reflexivity. }
    rewrite (U "planets"), (U "stars"), (U "systems") by exact Ht. reflexivity.
Qed.

(** *** The planets table *)





(** ** What the scoring functions raise *)

Lemma cmp_series_err op s t :
  ~ Forall (fun c => is_str c = false) s ->
  map_result (fun v => cmp_cell op v t) s = Err TypeError.
Proof.
  induction s as [|c s IH]; intros H; [exfalso; apply H; constructor|].
  cbn [map_result]. destruct c as [|x|str]; [| |reflexivity].
  - cbn [cmp_cell]. rewrite bind_ok. rewrite IH; [reflexivity|].
    intros F. apply H. constructor; [reflexivity|exact F].
  - cbn [cmp_cell]. rewrite bind_ok. rewrite IH; [reflexivity|].
    intros F. apply H. constructor; [reflexivity|exact F].
Qed.

Lemma numeric_or_not df c : numeric df c \/ ~ numeric df c.
Proof.
  unfold numeric.
  destruct (Forall_dec (fun r => is_str (value df r c) = false) (rows df)) as [H|H];
    [left|right]; exact H.
Qed.

Lemma not_numeric_column df c :
  ~ numeric df c ->
  has_col df c = true
  /\ ~ Forall (fun v => is_str v = false) (map (fun r => get r c) (rows df)).
Proof.
  intros H. unfold numeric, value in H. destruct (has_col df c).
  - split; [reflexivity|]. rewrite Forall_fmap. exact H.
  - exfalso. apply H. apply Forall_forall. reflexivity.
Qed.

Lemma criterion_block_err df c lo hi pts (F : Row -> Z) :
  ~ numeric df c ->
  (if has_col df c then
     col ← column df c;
     m1 ← series_ge col lo;
     m2 ← series_le col hi;
     Ok (series_add (map F (rows df)) (series_mul (astype_int (mask_and m1 m2)) pts))
   else Ok (map F (rows df)))
  = Err TypeError.
Proof.
  intros H. destruct (not_numeric_column df c H) as [Hc Hs].
  unfold column. rewrite Hc, bind_ok. unfold series_ge.
  rewrite (cmp_series_err _ _ lo Hs). reflexivity.
Qed.

Lemma calculate_err df :
  ~ (numeric df "pl_rade" /\ numeric df "pl_eqt" /\ numeric df "pl_orbper") ->
  data_fetcher.calculate_habitability_score df = Err TypeError.
Proof.
  intros H. unfold data_fetcher.calculate_habitability_score.
  destruct (numeric_or_not df "pl_rade") as [Hr|Hr];
    [|rewrite (criterion_block_err df "pl_rade" _ _ 35 (fun _ => 0) Hr); reflexivity].
  rewrite (criterion_block df "pl_rade" _ _ 35 (fun _ => 0) Hr), bind_ok.
  destruct (numeric_or_not df "pl_eqt") as [He|He];
    [|rewrite (criterion_block_err df "pl_eqt" _ _ 40 _ He); reflexivity].
  rewrite (criterion_block df "pl_eqt" _ _ 40 _ He), bind_ok.
  destruct (numeric_or_not df "pl_orbper") as [Ho|Ho];
    [|rewrite (criterion_block_err df "pl_orbper" _ _ 25 _ Ho); reflexivity].
  exfalso. apply H. split; [|split]; assumption.
Qed.

Lemma classify_err df :
  ~ numeric df "pl_rade" -> data_fetcher.classify_planet_type df = Err TypeError.
Proof.
  intros H. destruct (not_numeric_column df "pl_rade" H) as [Hc Hs].
  unfold data_fetcher.classify_planet_type, column. rewrite Hc, bind_ok.
  unfold series_lt. rewrite (cmp_series_err _ _ (qfrac 5 4) Hs). reflexivity.
Qed.

(** X11. [calculate_habitability_score] returns exactly when none of the
    columns pl_rade, pl_eqt and pl_orbper holds a string, a missing column
    counting as one without strings, and [classify_planet_type] exactly when
    pl_rade holds none; otherwise they raise TypeError.  Neither raises a
    KeyError. *)
Theorem scoring_raises_on_strings (df : DataFrame) :
  ((exists score, data_fetcher.calculate_habitability_score df = Ok score)
   <-> numeric df "pl_rade" /\ numeric df "pl_eqt" /\ numeric df "pl_orbper")
  /\ (forall e, data_fetcher.calculate_habitability_score df = Err e -> e = TypeError)
  /\ ((exists planet_type, data_fetcher.classify_planet_type df = Ok planet_type)
      <-> numeric df "pl_rade")
  /\ (forall e, data_fetcher.classify_planet_type df = Err e -> e = TypeError).
Proof.
  assert (D : forall P Q R : Prop,
             P \/ ~ P -> Q \/ ~ Q -> R \/ ~ R -> (P /\ Q /\ R) \/ ~ (P /\ Q /\ R))
    by tauto.
  pose proof (D _ _ _ (numeric_or_not df "pl_rade") (numeric_or_not df "pl_eqt")
                (numeric_or_not df "pl_orbper")) as [N|N].
  - destruct N as (Hr & He & Ho). pose proof (calculate_series df Hr He Ho) as C.
    pose proof (classify_series df Hr) as T.
    split; [|split; [|split]].
    + split; [intros _; tauto|]. intros _. eexists. exact C.
    + intros e. rewrite C. discriminate.
    + split; [intros _; exact Hr|]. intros _. eexists. exact T.
    + intros e. rewrite T. discriminate.
  - pose proof (calculate_err df N) as C.
    split; [|split; [|split]].
    + split; [intros [s E]; rewrite C in E; discriminate|]. intros H. contradiction.
    + intros e. rewrite C. intros [= <-]. reflexivity.
    + destruct (numeric_or_not df "pl_rade") as [Hr|Hr].
      * split; [intros _; exact Hr|]. intros _. eexists. exact (classify_series df Hr).
      * split; [|intros H; contradiction].
        intros [t E]. rewrite (classify_err df Hr) in E. discriminate.
    + intros e. destruct (numeric_or_not df "pl_rade") as [Hr|Hr].
      * rewrite (classify_series df Hr). discriminate.
      * rewrite (classify_err df Hr). intros [= <-]. reflexivity.
Qed.

Example scoring_text_radius :
  data_fetcher.calculate_habitability_score text_radius = Err TypeError
  /\ data_fetcher.classify_planet_type text_radius = Err TypeError.
Proof. split; reflexivity. Qed.

(** ** The values in the text of the query *)

(** X12. The selected discovery methods and planet types reach the text of
    the Explorer query as they are, between quotes and with no escaping: one
    selected value that holds the separator ',' between quotes gives the
    same statement as the two values on either side of it selected
    together. *)
Theorem explorer_query_splices_values (str_float : number -> string)
  (f : App.Filters) (m1 m2 t1 t2 : string) :
  App.explorer_query str_float
    (with_selections f [m1 +:+ "','" +:+ m2] [t1 +:+ "','" +:+ t2])
  = App.explorer_query str_float (with_selections f [m1; m2] [t1; t2]).
Proof.
  unfold App.explorer_query, App.conditions, with_selections.
  cbn [App.selected_methods App.selected_types App.year_range App.radius_range
         App.temp_range App.min_habitability String.concat].
  reflexivity.
Qed.

(** *** The stars and the systems tables *)
















Example grouped_rows_csv_frame :
  grouped_rows (fun _ => "0"%string) csv_frame star_aggs
  = [ ("51 Peg"%string, [Num (qz 5758); Null; Null; Null; Null; Null; int_cell 2]);
      ("TRAPPIST-1"%string, [Num (qz 2566); Null; Null; Null; Null; Null; int_cell 2]) ].
Proof. vm_compute. reflexivity. Qed.

(** ** The ids of the rows *)


















(** The marks and the ids after the sample runs: four statements on a new
    table leave the mark at four, and the row that follows an ignored one
    skips an id. *)
Example marks_after_loading :
  database_setup.sequence <$> database_setup.tables loaded_once !! "planets" = Some 4%nat
  /\ ids <$> database_setup.tables loaded_once !! "planets" = Some [1; 2; 3]%nat
  /\ database_setup.sequence <$> database_setup.tables one_planet_loaded !! "planets"
     = Some 5%nat
  /\ ids <$> database_setup.tables one_planet_loaded !! "planets" = Some [1; 2; 4]%nat.
Proof. repeat split; vm_compute; reflexivity. Qed.

(** ** Cleaning a cleaned frame *)

Lemma lookup_set_cell c c' v r :
  cells (set_cell c v r) !! c' = if decide (c = c') then Some v else cells r !! c'.
Proof.
  unfold set_cell. cbn [cells]. destruct (decide (c = c')) as [->|Hne].
  - apply lookup_insert_eq.
  - apply lookup_insert_ne. exact Hne.
Qed.

Lemma lookup_set_cell_ne c c' v r :
  c <> c' -> cells (set_cell c v r) !! c' = cells r !! c'.
Proof. intros H. rewrite lookup_set_cell, decide_False by exact H. reflexivity. Qed.

Lemma set_cell_same c v r : cells r !! c = Some v -> set_cell c v r = r.
Proof.
  intros H. unfold set_cell. rewrite insert_id by exact H. destruct r; reflexivity.
Qed.

Lemma to_numeric_cell_fixed parse v : is_str v = false -> to_numeric_cell parse v = v.
Proof. destruct v; [reflexivity|reflexivity|discriminate]. Qed.

Lemma coerce_row_lookup parse dfcols cols r c :
  cells (coerce_row parse dfcols cols r) !! c
  = if decide (c ∈ cols /\ c ∈ dfcols) then Some (to_numeric_cell parse (get r c))
    else cells r !! c.
Proof.
  revert r. induction cols as [|c0 cols IH]; intros r.
  - destruct (decide (c ∈ [] /\ c ∈ dfcols)) as [[H _]|_]; [|reflexivity].
    apply elem_of_nil in H. destruct H.
  - unfold coerce_row in *. simpl. rewrite IH. clear IH.
    destruct (decide (c0 ∈ dfcols)) as [H0|H0].
    + rewrite get_set_cell, lookup_set_cell. destruct (decide (c0 = c)) as [->|Hne].
      * rewrite to_numeric_cell_idem.
        rewrite (decide_True (P := c ∈ c :: cols /\ c ∈ dfcols))
          by (split; [left|exact H0]).
        destruct (decide (c ∈ cols /\ c ∈ dfcols)); reflexivity.
      * apply decide_ext. rewrite elem_of_cons. intuition congruence.
    + apply decide_ext. rewrite elem_of_cons. intuition congruence.
Qed.

(** The coercion loop leaves a row alone whose entries in the columns it
    goes through are there and are no strings. *)
Lemma coerce_row_fixed parse dfcols cols r :
  (forall c, c ∈ cols -> c ∈ dfcols ->
             exists v, cells r !! c = Some v /\ is_str v = false) ->
  coerce_row parse dfcols cols r = r.
Proof.
  induction cols as [|c0 cols IH]; intros H; [reflexivity|].
  unfold coerce_row in *. cbn [foldl].
  assert (E : (if decide (c0 ∈ dfcols)
               then set_cell c0 (to_numeric_cell parse (get r c0)) r else r) = r).
  { destruct (decide (c0 ∈ dfcols)) as [H0|H0]; [|reflexivity].
    destruct (H c0 ltac:(left) H0) as (v & Hv & Hs).
    assert (get r c0 = v) as -> by (unfold get; rewrite Hv; reflexivity).
    apply set_cell_same. rewrite (to_numeric_cell_fixed parse v Hs). exact Hv. }
  rewrite E. apply IH. intros c Hc. apply H. right. exact Hc.
Qed.

Lemma lookup_derive df now r c :
  c ∉ ["habitability_score"; "planet_type"; "discovery_era"; "distance_category";
       "data_fetched_at"]%string ->
  cells (derive df now r) !! c = cells r !! c.
Proof.
  intros H. unfold derive.
  rewrite !lookup_set_cell_ne; [reflexivity|..];
    intros E; apply H; rewrite <- E; repeat constructor.
Qed.

Lemma lookup_derive_score df now r :
  cells (derive df now r) !! "habitability_score" = Some (int_cell (score_value df r)).
Proof.
  unfold derive. rewrite !lookup_set_cell_ne by discriminate.
  rewrite lookup_set_cell, decide_True by reflexivity. reflexivity.
Qed.

Lemma lookup_derive_type df now r :
  cells (derive df now r) !! "planet_type"
  = Some (Str (classify_value (value df r "pl_rade"))).
Proof.
  unfold derive. rewrite !lookup_set_cell_ne by discriminate.
  rewrite lookup_set_cell, decide_True by reflexivity. reflexivity.
Qed.

Lemma lookup_derive_era df now r :
  cells (derive df now r) !! "discovery_era"
  = Some (cut_value data_fetcher.era_bins data_fetcher.era_labels (get r "disc_year")).
Proof.
  unfold derive. rewrite !lookup_set_cell_ne by discriminate.
  rewrite lookup_set_cell, decide_True by reflexivity. reflexivity.
Qed.

Lemma lookup_derive_distance df now r :
  cells (derive df now r) !! "distance_category"
  = Some (cut_value data_fetcher.distance_bins data_fetcher.distance_labels
            (get r "sy_dist")).
Proof.
  unfold derive. rewrite !lookup_set_cell_ne by discriminate.
  rewrite lookup_set_cell, decide_True by reflexivity. reflexivity.
Qed.

Lemma lookup_derive_fetched_at df now r :
  cells (derive df now r) !! "data_fetched_at" = Some (Str now).
Proof. unfold derive. rewrite lookup_set_cell, decide_True by reflexivity. reflexivity. Qed.

(** The derived columns of a row that has them already. *)
Lemma derive_again df now now' rs r :
  derive (mkFrame (cleaned_columns df) rs) now' (derive df now r)
  = set_cell "data_fetched_at" (Str now') (derive df now r).
Proof.
  assert (V : forall c,
             c ∉ ["habitability_score"; "planet_type"; "discovery_era";
                  "distance_category"; "data_fetched_at"]%string ->
             value (mkFrame (cleaned_columns df) rs) (derive df now r) c = value df r c).
  { intros c Hc. apply value_cleaned, Hc. }
  assert (S1 : score_value (mkFrame (cleaned_columns df) rs) (derive df now r)
               = score_value df r).
  { unfold score_value. rewrite !V by not_in_list. reflexivity. }
  generalize (lookup_derive_score df now r) (lookup_derive_type df now r)
    (lookup_derive_era df now r) (lookup_derive_distance df now r).
  generalize (derive_get df now r "disc_year" ltac:(not_in_list))
    (derive_get df now r "sy_dist" ltac:(not_in_list)).
  generalize (V "pl_rade" ltac:(not_in_list)). revert S1.
  generalize (derive df now r). intros r' S1 Vr Gy Gd L1 L2 L3 L4.
  unfold derive. rewrite S1, Vr, Gy, Gd.
  rewrite (set_cell_same "habitability_score" _ r' L1).
  rewrite (set_cell_same "planet_type" _ r' L2).
  rewrite (set_cell_same "discovery_era" _ r' L3).
  rewrite (set_cell_same "distance_category" _ r' L4).
  reflexivity.
Qed.

Lemma filter_all_true {A} (P : A -> Prop) `{!forall x, Decision (P x)} l :
  Forall P l -> filter P l = l.
Proof.
  induction 1 as [|x l Hx _ IH]; [reflexivity|].
  rewrite filter_cons_True by exact Hx. rewrite IH. reflexivity.
Qed.

Lemma drop_seen_distinct c seen l :
  Forall (fun r => get r c ∉ seen) l ->
  NoDup (map (fun r => get r c) l) ->
  drop_seen c seen l = l.
Proof.
  revert seen. induction l as [|a l IH]; intros seen F N; [reflexivity|].
  apply Forall_cons in F as [Fa F]. cbn [map] in N. apply NoDup_cons in N as [Na N].
  cbn [drop_seen]. rewrite decide_False by exact Fa. f_equal.
  apply IH; [|exact N]. apply Forall_forall. intros r Hr.
  rewrite Forall_forall in F. intros Hin. apply elem_of_cons in Hin as [Hin|Hin].
  - apply Na. rewrite <- Hin. apply list_elem_of_fmap. exists r. split; [reflexivity|exact Hr].
  - apply (F r Hr Hin).
Qed.

(** The rows the cleaning pass keeps of its own output: all of them. *)
Lemma kept_rows_cleaned parse now df :
  "pl_name" ∈ columns df ->
  kept_rows parse (mkFrame (cleaned_columns df) (map (derive df now) (kept_rows parse df)))
  = map (derive df now) (kept_rows parse df).
Proof.
  intros Hn. unfold kept_rows at 1. cbn [rows columns].
  assert (C : map (coerce_row parse (cleaned_columns df) data_fetcher.numeric_columns)
                (map (derive df now) (kept_rows parse df))
              = map (derive df now) (kept_rows parse df)).
  { rewrite <- (map_id (map (derive df now) (kept_rows parse df))) at 2.
    apply Forall_fmap_ext_1. rewrite Forall_fmap. apply Forall_forall. intros r Hr.
    change (coerce_row parse (cleaned_columns df) data_fetcher.numeric_columns
              (derive df now r) = derive df now r).
    apply coerce_row_fixed. intros c Hc Hd.
    pose proof (numeric_column_not_derived c Hc) as Hnd.
    assert (c ∈ columns df) as Hcd.
    { revert Hd. unfold cleaned_columns.
      rewrite !elem_of_add_column_ne; [auto|..];
        intros E; apply Hnd; rewrite <- E; repeat constructor. }
    rewrite (lookup_derive df now r c Hnd).
    apply kept_rows_coerced in Hr as (r0 & _ & ->).
    rewrite coerce_row_lookup, decide_True by (split; assumption).
    eexists. split; [reflexivity|apply to_numeric_cell_not_str]. }
  rewrite C.
  assert (Nm : Forall (fun r => get r "pl_name" <> Null)
                 (map (derive df now) (kept_rows parse df))).
  { rewrite Forall_fmap. apply Forall_forall. intros r Hr.
    change (get (derive df now r) "pl_name" <> Null).
    rewrite derive_get by not_in_list. apply (kept_rows_named parse df r Hr). }
  rewrite (filter_all_true
             (fun r => ~ Forall (fun c => get r c = Null) (cleaned_columns df))).
  2:{ eapply Forall_impl; [exact Nm|]. intros r Hr F. apply Hr.
      rewrite Forall_forall in F. apply F. unfold cleaned_columns.
      repeat apply elem_of_add_column. exact Hn. }
  rewrite (filter_all_true (fun r => Forall (fun c => get r c <> Null) ["pl_name"%string])).
  2:{ eapply Forall_impl; [exact Nm|]. intros r Hr. repeat constructor. exact Hr. }
  apply drop_seen_distinct.
  - apply Forall_forall. intros r _ H. apply elem_of_nil in H. exact H.
  - rewrite map_map.
    rewrite (map_ext (fun r => get (derive df now r) "pl_name")
               (fun r => get r "pl_name"))
      by (intros r; apply derive_get; not_in_list).
    apply drop_seen_NoDup.
Qed.

Lemma cleaned_columns_again df rs :
  cleaned_columns (mkFrame (cleaned_columns df) rs) = cleaned_columns df.
Proof.
  unfold cleaned_columns at 1. cbn [columns].
  assert (P : forall c, c ∈ ["habitability_score"; "planet_type"; "discovery_era";
                             "distance_category"; "data_fetched_at"]%string ->
                        c ∈ cleaned_columns df).
  { intros c Hc. unfold cleaned_columns, add_column.
    repeat (apply elem_of_cons in Hc as [->|Hc];
            [repeat (case_bool_decide; [try assumption|]);
             repeat (first [assumption
                           | apply elem_of_app; right; left
                           | apply elem_of_app; left])|]).
    apply elem_of_nil in Hc. destruct Hc. }
  rewrite (add_column_present _ "habitability_score") by (apply P; repeat constructor).
  rewrite (add_column_present _ "planet_type") by (apply P; repeat constructor).
  rewrite (add_column_present _ "discovery_era") by (apply P; repeat constructor).
  rewrite (add_column_present _ "distance_category") by (apply P; repeat constructor).
  rewrite (add_column_present _ "data_fetched_at") by (apply P; repeat constructor).
  reflexivity.
Qed.

(** X15. Cleaning is idempotent up to the timestamp: when
    [data_fetcher.clean_exoplanet_data] has returned a frame, running it on
    that frame returns the same columns and the same rows, in the same
    order, with data_fetched_at set to the time of the second run and every
    other entry as it was (an empty frame comes back as it is); at the same
    time of the run it returns the very same frame. *)
Theorem clean_is_idempotent parse now now' (df out : DataFrame) :
  data_fetcher.clean_exoplanet_data parse now df = Ok out ->
  data_fetcher.clean_exoplanet_data parse now' out
  = Ok (if df_empty out then out
        else mkFrame (columns out)
               (map (set_cell "data_fetched_at" (Str now')) (rows out)))
  /\ data_fetcher.clean_exoplanet_data parse now out = Ok out.
Proof.
  intros H. destruct (df_empty df) eqn:He.
  { unfold data_fetcher.clean_exoplanet_data in H. rewrite He in H. injection H as <-.
    rewrite He. unfold data_fetcher.clean_exoplanet_data. rewrite He.
    split; reflexivity. }
  rewrite (clean_nonempty_cases parse now df He) in H.
  destruct (missing_column df _) eqn:M; [discriminate|]. injection H as <-.
  apply missing_column_none in M.
  destruct (df_empty (mkFrame (cleaned_columns df)
                        (map (derive df now) (kept_rows parse df)))) eqn:Ho.
  { unfold data_fetcher.clean_exoplanet_data. rewrite Ho. split; reflexivity. }
  assert (Hn : "pl_name" ∈ columns df).
  { rewrite Forall_forall in M. apply M. repeat constructor. }
  assert (G : forall t,
             data_fetcher.clean_exoplanet_data parse t
               (mkFrame (cleaned_columns df) (map (derive df now) (kept_rows parse df)))
             = Ok (mkFrame (cleaned_columns df)
                     (map (set_cell "data_fetched_at" (Str t))
                        (map (derive df now) (kept_rows parse df))))).
  { intros t. rewrite (clean_nonempty_cases parse t _ Ho).
    rewrite missing_column_present.
    2:{ cbn [columns]. eapply Forall_impl; [exact M|]. intros c Hc.
        unfold cleaned_columns. repeat apply elem_of_add_column. exact Hc. }
    rewrite cleaned_columns_again, (kept_rows_cleaned parse now df Hn).
    f_equal. f_equal. rewrite !map_map. apply map_ext. intros r.
    apply derive_again. }
  cbn [columns rows]. split; [apply G|].
  rewrite G. f_equal. f_equal.
  rewrite <- (map_id (map (derive df now) (kept_rows parse df))) at 2.
  apply Forall_fmap_ext_1. rewrite Forall_fmap. apply Forall_forall. intros r _.
  change (set_cell "data_fetched_at" (Str now) (derive df now r) = derive df now r).
  apply set_cell_same, lookup_derive_fetched_at.
Qed.

Lemma clean_is_idempotent_witness :
  data_fetcher.clean_exoplanet_data (fun _ => None) "2026-02-01 00:00:00"
    cleaned_catalogue
  = Ok (if df_empty cleaned_catalogue then cleaned_catalogue
        else mkFrame (columns cleaned_catalogue)
               (map (set_cell "data_fetched_at" (Str "2026-02-01 00:00:00"))
                  (rows cleaned_catalogue)))
  /\ data_fetcher.clean_exoplanet_data (fun _ => None) "2026-01-01 00:00:00"
       cleaned_catalogue
     = Ok cleaned_catalogue.
Proof.
  apply (clean_is_idempotent (fun _ => None) "2026-01-01 00:00:00"
           "2026-02-01 00:00:00" catalogue cleaned_catalogue).
  vm_compute. reflexivity.
Defined.

(** ** The cleaning of data_extraction.py on its own output *)

Lemma extraction_row_fixed parse df r :
  extraction_row parse df (extraction_row parse df r) = extraction_row parse df r.
Proof.
  assert (N : "disc_year" ∉ data_extraction.numeric_cols).
  { unfold data_extraction.numeric_cols. not_in_list. }
  assert (L : cells (extraction_row parse df r) !! "disc_year"
              = Some (to_numeric_cell parse (get r "disc_year"))).
  { unfold extraction_row. rewrite coerce_row_lookup.
    rewrite decide_False by (intros [H _]; apply N, H).
    rewrite lookup_set_cell, decide_True by reflexivity. reflexivity. }
  assert (F : forall c,
             c ∈ data_extraction.numeric_cols -> c ∈ columns df ->
             exists v, cells (extraction_row parse df r) !! c = Some v
                       /\ is_str v = false).
  { intros c Hc Hd. unfold extraction_row. rewrite coerce_row_lookup.
    rewrite decide_True by (split; assumption).
    eexists. split; [reflexivity|apply to_numeric_cell_not_str]. }
  revert L F. generalize (extraction_row parse df r). intros r' L F.
  unfold extraction_row.
  assert (get r' "disc_year" = to_numeric_cell parse (get r "disc_year")) as ->
      by (unfold get; rewrite L; reflexivity).
  rewrite to_numeric_cell_idem, (set_cell_same _ _ r' L).
  apply coerce_row_fixed, F.
Qed.

Lemma extraction_row_again parse df r :
  set_cell "disc_year"
    (to_numeric_cell parse (get (extraction_row parse df r) "disc_year"))
    (extraction_row parse df r)
  = extraction_row parse df r.
Proof.
  assert (N : "disc_year" ∉ data_extraction.numeric_cols).
  { unfold data_extraction.numeric_cols. not_in_list. }
  assert (L : cells (extraction_row parse df r) !! "disc_year"
              = Some (to_numeric_cell parse (get r "disc_year"))).
  { unfold extraction_row. rewrite coerce_row_lookup.
    rewrite decide_False by (intros [H _]; apply N, H).
    rewrite lookup_set_cell, decide_True by reflexivity. reflexivity. }
  revert L. generalize (extraction_row parse df r). intros r' L.
  assert (get r' "disc_year" = to_numeric_cell parse (get r "disc_year")) as ->
      by (unfold get; rewrite L; reflexivity).
  rewrite to_numeric_cell_idem. apply set_cell_same, L.
Qed.

Lemma filter_ext_in {A} (P Q : A -> Prop) `{!forall x, Decision (P x)}
  `{!forall x, Decision (Q x)} l :
  Forall (fun x => P x <-> Q x) l -> filter P l = filter Q l.
Proof.
  induction 1 as [|x l Hx _ IH]; [reflexivity|].
  rewrite !filter_cons, IH. destruct (decide (P x)) as [p|p], (decide (Q x)) as [q|q];
    tauto.
Qed.

(** X16. On its own output the cleaning function of data_extraction.py is
    [dropna] on the critical columns and nothing else: it returns the
    columns as they are and exactly those rows, unchanged and in their
    order, that have a value in each of pl_rade, pl_eqt and pl_orbper.  So a
    row the first run left with a null critical value goes in the second. *)
Theorem extraction_again_drops_nulls parse (df out : DataFrame) :
  data_extraction.clean_exoplanet_data parse df = Ok out ->
  data_extraction.clean_exoplanet_data parse out
  = Ok (mkFrame (columns out)
          (filter (fun r => Forall (fun c => get r c <> Null)
                              ["pl_rade"; "pl_eqt"; "pl_orbper"]%string)
             (rows out))).
Proof.
  intros H.
  assert (Hn : "pl_name" ∈ columns df \/ df_empty df = true).
  { destruct (decide ("pl_name" ∈ columns df)) as [Hn|Hn]; [left; exact Hn|].
    destruct (df_empty df) eqn:He; [right; reflexivity|].
    rewrite (extraction_needs_pl_name parse df He Hn) in H. discriminate. }
  rewrite (extraction_cases parse df Hn) in H.
  destruct (decide ("disc_year" ∈ columns df)) as [Hy|]; [|discriminate].
  destruct (missing_column df _) eqn:M; [discriminate|]. injection H as <-.
  assert (Hn' : "pl_name" ∈ columns df
                \/ df_empty (mkFrame (columns df)
                               (map (extraction_row parse df) (extraction_kept parse df)))
                   = true).
  { destruct Hn as [Hn|He]; [left; exact Hn|right].
    destruct (empty_frame_cases df He) as [Hr|Hc].
    - unfold extraction_kept. rewrite Hr. reflexivity.
    - rewrite Hc in Hy. apply elem_of_nil in Hy. destruct Hy. }
  rewrite (extraction_cases parse
             (mkFrame (columns df)
                (map (extraction_row parse df) (extraction_kept parse df))) Hn').
  cbn [columns rows].
  rewrite decide_True by exact Hy.
  rewrite (missing_column_frame (columns df) _ (rows df)).
  replace (missing_column (mkFrame (columns df) (rows df))
             ["pl_rade"; "pl_eqt"; "pl_orbper"]%string)
    with (@None string) by (symmetry; exact M).
  f_equal. f_equal.
  change (map (extraction_row parse df)
            (filter
               (fun r =>
                  Forall (fun c =>
                            get (set_cell "disc_year"
                                   (to_numeric_cell parse (get r "disc_year")) r) c
                            <> Null)
                    ["pl_rade"; "pl_eqt"; "pl_orbper"]%string)
               (drop_seen "pl_name" []
                  (map (extraction_row parse df) (extraction_kept parse df))))
          = filter (fun r => Forall (fun c => get r c <> Null)
                               ["pl_rade"; "pl_eqt"; "pl_orbper"]%string)
              (map (extraction_row parse df) (extraction_kept parse df))).
  rewrite (drop_seen_distinct "pl_name" []
             (map (extraction_row parse df) (extraction_kept parse df))).
  2:{ apply Forall_forall. intros r _ Hin. apply elem_of_nil in Hin. exact Hin. }
  2:{ rewrite map_map.
      rewrite (map_ext _ (fun r => get r "pl_name"))
        by (intros r; apply (extraction_row_pl_name parse df r)).
      eapply sublist_NoDup; [apply (drop_seen_NoDup "pl_name" [] (rows df))|].
      unfold extraction_kept. apply (fmap_sublist _), sublist_filter. }
  rewrite (filter_ext_in _
             (fun r => Forall (fun c => get r c <> Null)
                         ["pl_rade"; "pl_eqt"; "pl_orbper"]%string)).
  2:{ rewrite Forall_fmap. apply Forall_forall. intros r _.
      change (Forall (fun c =>
                        get (set_cell "disc_year"
                               (to_numeric_cell parse
                                  (get (extraction_row parse df r) "disc_year"))
                               (extraction_row parse df r)) c <> Null)
                ["pl_rade"; "pl_eqt"; "pl_orbper"]%string
              <-> Forall (fun c => get (extraction_row parse df r) c <> Null)
                    ["pl_rade"; "pl_eqt"; "pl_orbper"]%string).
      rewrite extraction_row_again. reflexivity. }
  rewrite <- (map_id (filter _ (map (extraction_row parse df) (extraction_kept parse df))))
    at 2.
  apply Forall_fmap_ext_1. apply Forall_forall. intros r' Hr.
  apply list_elem_of_filter in Hr as [_ Hr].
  apply list_elem_of_fmap in Hr as (r & -> & _).
  change (extraction_row parse df (extraction_row parse df r)
          = extraction_row parse df r).
  apply extraction_row_fixed.
Qed.

Lemma extraction_again_witness :
  data_extraction.clean_exoplanet_data (fun _ => None) unparsed_cleaned
  = Ok (mkFrame (columns unparsed_cleaned)
          (filter (fun r => Forall (fun c => get r c <> Null)
                              ["pl_rade"; "pl_eqt"; "pl_orbper"]%string)
             (rows unparsed_cleaned))).
Proof.
  apply (extraction_again_drops_nulls (fun _ => None) unparsed_radius unparsed_cleaned).
  vm_compute. reflexivity.
Defined.
